(** * Cross-chain bridge aggregator: quote ranking, multi-hop routing and
      reliability scoring

    A shallow embedding of the routing core of the aggregator
    ([app/services/bridges], [app/services/route_discovery.py],
    [app/services/multi_hop_router.py], [app/services/reliability_scorer.py])
    together with the part of the Python runtime these modules rely on:
    binary64 floats, [round], [float(str)], [repr(float)], [**],
    [Decimal] addition under the default context, [list.sort],
    [json.dumps] and MD5.  Python [float] is Rocq's primitive binary64 [float]; Python [int]
    is [Z]; Python [str] is [string], one character per code point below
    U+0100.  A Python exception is a [Raise] result. *)

From Stdlib Require Import ZArith NArith List String Ascii Bool Lia.
From Stdlib Require Import Floats DecimalString Sorted Permutation.
Import ListNotations.

Set Warnings "-inexact-float,-register-all".

Open Scope string_scope.
Open Scope list_scope.
Open Scope Z_scope.

(* ================================================================== *)
(** * The Python runtime *)
(* ================================================================== *)

Module Py.

(** ** Exceptions *)

Inductive exn : Set :=
| ZeroDivisionError
| OverflowError
| ValueError
| TypeError
| AttributeError
| InvalidOperation      (* decimal.InvalidOperation *)
| DecimalOverflow.      (* decimal.Overflow *)

Inductive result (A : Type) : Type :=
| Ok (a : A)
| Raise (e : exn).

Arguments Ok {A} a.
Arguments Raise {A} e.

Definition bind {A B : Type} (m : result A) (k : A -> result B) : result B :=
  match m with
  | Ok a => k a
  | Raise e => Raise e
  end.

Definition is_ok {A : Type} (m : result A) : bool :=
  match m with
  | Ok _ => true
  | Raise _ => false
  end.

(** [try: return ... except Exception: return None] *)
Definition to_option {A : Type} (m : result A) : option A :=
  match m with
  | Ok a => Some a
  | Raise _ => None
  end.

(** [try: ... except Exception: return d] *)
Definition except {A : Type} (m : result A) (d : A) : A :=
  match m with
  | Ok a => a
  | Raise _ => d
  end.

Fixpoint mapM {A B : Type} (f : A -> result B) (l : list A) : result (list B) :=
  match l with
  | [] => Ok []
  | x :: r =>
      bind (f x) (fun y => bind (mapM f r) (fun ys => Ok (y :: ys)))
  end.

(** ** Dictionaries with string keys, in insertion order *)

Definition dict (V : Type) : Type := list (string * V).

Fixpoint dict_lookup {V : Type} (k : string) (d : dict V) : option V :=
  match d with
  | [] => None
  | (k', v) :: r => if String.eqb k k' then Some v else dict_lookup k r
  end.

(** [d.get(k, default)] *)
Definition dict_get {V : Type} (d : dict V) (k : string) (default : V) : V :=
  match dict_lookup k d with
  | Some v => v
  | None => default
  end.

(** [d[k] = v]: an existing key keeps its place, a new key goes last. *)
Fixpoint dict_set {V : Type} (k : string) (v : V) (d : dict V) : dict V :=
  match d with
  | [] => [(k, v)]
  | (k', v') :: r =>
      if String.eqb k k' then (k, v) :: r else (k', v') :: dict_set k v r
  end.

(** [del d[k]] *)
Fixpoint dict_del {V : Type} (k : string) (d : dict V) : dict V :=
  match d with
  | [] => []
  | (k', v') :: r =>
      if String.eqb k k' then r else (k', v') :: dict_del k r
  end.

(** The same for integer keys ([chain_id] tables). *)
Fixpoint zdict_get {V : Type} (d : list (Z * V)) (k : Z) (default : V) : V :=
  match d with
  | [] => default
  | (k', v) :: r => if k =? k' then v else zdict_get r k default
  end.

(** ** Characters and strings *)

Infix "+++" := String.append (at level 60, right associativity).

Definition ord (c : ascii) : N := N_of_ascii c.

Definition is_digit (c : ascii) : bool :=
  ((48 <=? ord c) && (ord c <=? 57))%N.

Definition digit_val (c : ascii) : Z := Z.of_N (ord c) - 48.

(** [str.isspace] on code points below U+0100; [Decimal(str)] strips
    these. *)
Definition is_space (c : ascii) : bool :=
  (((9 <=? ord c) && (ord c <=? 13)) || ((28 <=? ord c) && (ord c <=? 32))
   || (ord c =? 133) || (ord c =? 160))%N.

(** The blanks [float(str)] strips: the white space of C's [isspace], and
    U+0085 and U+00A0, which CPython turns into a space before it reads
    the number.  The separators U+001C-U+001F are white space for
    [str.isspace] but not here: [float] rejects a string that has one. *)
Definition is_float_space (c : ascii) : bool :=
  (((9 <=? ord c) && (ord c <=? 13)) || (ord c =? 32)
   || (ord c =? 133) || (ord c =? 160))%N.

(** [str.lower] on code points below U+0100: A-Z, and the Latin-1
    capitals U+00C0-U+00DE except the multiplication sign U+00D7. *)
Definition lower_char (c : ascii) : ascii :=
  let n := ord c in
  if (((65 <=? n) && (n <=? 90))
      || ((192 <=? n) && (n <=? 222) && negb (n =? 215)))%N
  then ascii_of_N (n + 32) else c.

Fixpoint lower (s : string) : string :=
  match s with
  | EmptyString => EmptyString
  | String c r => String (lower_char c) (lower r)
  end.

Fixpoint lstrip (blank : ascii -> bool) (l : list ascii) : list ascii :=
  match l with
  | c :: r => if blank c then lstrip blank r else l
  | [] => []
  end.

Definition strip (blank : ascii -> bool) (l : list ascii) : list ascii :=
  rev (lstrip blank (rev (lstrip blank l))).

(** [str(n)] for an [int]. *)
Definition str_of_int (n : Z) : string := NilZero.string_of_int (Z.to_int n).

(** ** Exact integer helpers *)

(** [n / d] rounded to the nearest integer, ties to even ([0 < d]). *)
Definition round_half_even (n d : Z) : Z :=
  let q := n / d in
  let r := n mod d in
  match (2 * r ?= d) with
  | Lt => q
  | Gt => q + 1
  | Eq => if Z.even q then q else q + 1
  end.

Fixpoint ndigits_fuel (fuel : nat) (n : Z) : Z :=
  match fuel with
  | O => 1
  | S f => if n <? 10 then 1 else 1 + ndigits_fuel f (n / 10)
  end.

(** Number of decimal digits of [n >= 0] ([0] has one). *)
Definition ndigits (n : Z) : Z := ndigits_fuel (Z.to_nat (Z.log2 n) + 1) n.

(** ** Floats *)

(** The binary64 nearest to [n / d] (ties to even, overflow to infinity,
    gradual underflow); the sign of a zero follows the operands.  The
    quotient is taken with 66 or more significant bits and a sticky bit, so
    the one rounding of [binary_normalize] is the correct one. *)
Definition float_of_ratio (n d : Z) : float :=
  let neg := xorb (n <? 0) (d <? 0) in
  let a := Z.abs n in
  let b := Z.abs d in
  if a =? 0 then (if d <? 0 then (-0)%float else 0%float) else
  let s := Z.max 0 (66 + Z.log2 b - Z.log2 a) in
  let q := (a * 2 ^ s) / b in
  let r := (a * 2 ^ s) mod b in
  let m := 2 * q + (if r =? 0 then 0 else 1) in
  SF2Prim (binary_normalize prec emax (if neg then - m else m) (- s - 1) false).

(** The largest magnitude that still rounds to a finite binary64 is just
    below [2^1024 - 2^970]. *)
Definition float_overflow_bound : Z := 2 ^ 1024 - 2 ^ 970.

(** [float(n)] for an [int]. *)
Definition float_of_int (n : Z) : result float :=
  if float_overflow_bound <=? Z.abs n then Raise OverflowError
  else Ok (float_of_ratio n 1).

(** [a / b] on two [int]s: the correctly rounded quotient. *)
Definition int_truediv (a b : Z) : result float :=
  if b =? 0 then Raise ZeroDivisionError
  else if float_overflow_bound * Z.abs b <=? Z.abs a then Raise OverflowError
  else Ok (float_of_ratio a b).

(** [x / y] on two [float]s. *)
Definition float_truediv (x y : float) : result float :=
  if (y =? 0)%float then Raise ZeroDivisionError else Ok (x / y)%float.

(** [round(x, ndigits)] for [0 <= ndigits]: the exact binary value of [x] is
    rounded half-even to [ndigits] decimals and read back as a float. *)
Definition round (x : float) (nd : Z) : float :=
  match Prim2SF x with
  | S754_finite s m e =>
      let num := Zpos m * 10 ^ nd * 2 ^ (Z.max 0 e) in
      let den := 2 ^ (Z.max 0 (- e)) in
      let r := float_of_ratio (round_half_even num den) (10 ^ nd) in
      if s then (- r)%float else r
  | _ => x
  end.

(** [max(0, x)] with an [int] zero first: [x] wins only if [x > 0]. *)
Definition max0 (x : float) : float :=
  if (0 <? x)%float then x else 0%float.

(** [min(c, x)] with an [int] constant first: [x] wins only if [x < c]. *)
Definition min_const (c x : float) : float :=
  if (x <? c)%float then x else c.

(** [max(l)] on floats: the first maximum, stepping only on [>]. *)
Definition float_max (l : list float) : option float :=
  match l with
  | [] => None
  | x :: r => Some (fold_left (fun m y => if (m <? y)%float then y else m) r x)
  end.

Definition int_max (l : list Z) : option Z :=
  match l with
  | [] => None
  | x :: r => Some (fold_left Z.max r x)
  end.

(** [min(l, key=key)]: the first element whose key is minimal, stepping
    only on [<]. *)
Definition min_by {A : Type} (key : A -> float) (l : list A) : option A :=
  match l with
  | [] => None
  | x :: r =>
      Some (fold_left (fun m y => if (key y <? key m)%float then y else m) r x)
  end.

(** [l.sort(key=key, reverse=True)], as CPython's [list.sort] runs it on
    a list of fewer than 64 items.  The list is reversed; [count_run]
    finds the run it starts with, not descending or strictly descending,
    and a strictly descending run is reversed where it stands;
    [binarysort] then puts every later item into the sorted part in front
    of it, at the place a binary search with [<] finds; at the end the list
    is reversed again.  From 64 items on CPython sorts several such runs
    and merges them: the result is the same list unless a key is a NaN. *)
Section ListSort.

Context {A : Type}.
Variable key : A -> float.

(** How many of [l] go on a strictly descending run that ends in [prev]. *)
Fixpoint run_descending (prev : A) (l : list A) : nat :=
  match l with
  | x :: r => if (key x <? key prev)%float then S (run_descending x r) else O
  | [] => O
  end.

(** The same for a run that does not descend. *)
Fixpoint run_ascending (prev : A) (l : list A) : nat :=
  match l with
  | x :: r => if (key x <? key prev)%float then O else S (run_ascending x r)
  | [] => O
  end.

(** [count_run]: the length of the run at the head of [l], and whether it
    descends. *)
Definition count_run (l : list A) : nat * bool :=
  match l with
  | [] => (O, false)
  | [_] => (1%nat, false)
  | x :: y :: r =>
      if (key y <? key x)%float then (S (S (run_descending y r)), true)
      else (S (S (run_ascending y r)), false)
  end.

(** The loop of [binarysort] that looks for the place of [pivot] in
    [a[l:r]]: [r] moves to the middle when [pivot] is less than the item
    there, [l] moves past the middle otherwise. *)
Fixpoint bisect (fuel : nat) (pivot : A) (a : list A) (l r : nat) : nat :=
  match fuel with
  | O => l
  | S f =>
      if (l <? r)%nat then
        let p := (l + Nat.div2 (r - l))%nat in
        if (key pivot <? key (nth p a pivot))%float then bisect f pivot a l p
        else bisect f pivot a (S p) r
      else l
  end.

(** One step of [binarysort]: [pivot], the item after the sorted part [a],
    slides to its place. *)
Definition binary_insert (a : list A) (pivot : A) : list A :=
  let l := bisect (List.length a) pivot a O (List.length a) in
  firstn l a ++ pivot :: skipn l a.

Definition binarysort (run rest : list A) : list A :=
  fold_left binary_insert rest run.

(** The forward sort of a list that is one run long. *)
Definition sort_run (l : list A) : list A :=
  match l with
  | [] | [_] => l
  | _ =>
      let '(n, descending) := count_run l in
      let run := firstn n l in
      binarysort (if descending then rev run else run) (skipn n l)
  end.

Definition sort_reverse (l : list A) : list A := rev (sort_run (rev l)).

End ListSort.

(** [sorted(l, key=key)] on integer keys: stable, smallest key first. *)
Fixpoint insert_asc {A : Type} (key : A -> Z) (x : A) (l : list A) : list A :=
  match l with
  | [] => [x]
  | y :: r => if key y <? key x then y :: insert_asc key x r else x :: l
  end.

Definition sort_asc {A : Type} (key : A -> Z) (l : list A) : list A :=
  fold_right (insert_asc key) [] l.

(** [x ** 2] and [x ** 0.5] on a [float].  CPython's [float_pow] settles
    the special cases itself (a NaN, an infinity, a zero, a negative base,
    the base 1) and hands a finite positive base other than 1 to the [pow]
    of the C library.  That function is not correctly rounded in every
    library, so it is a parameter here: [libm_pow x y] is the value it
    returns and the [errno] it leaves. *)
Definition ERANGE : Z := 34.

Section Pow.

Variable libm_pow : float -> float -> float * Z.

(** The call of [pow] and what [float_pow] makes of [errno] after it: an
    infinite result counts as a range error, a range error with a zero
    result (underflow) does not, a range error raises [OverflowError] and
    any other error [ValueError]. *)
Definition pow_checked (x y : float) : result float :=
  let '(r, errno) := libm_pow x y in
  let errno :=
    if errno =? 0 then (if is_infinity r then ERANGE else 0)
    else if (errno =? ERANGE) && (r =? 0)%float then 0
    else errno in
  if errno =? 0 then Ok r
  else if errno =? ERANGE then Raise OverflowError
  else Raise ValueError.

(** [x ** 2]: the exponent is an even integer, so the base goes to [pow]
    without its sign. *)
Definition float_sq (x : float) : result float :=
  if is_nan x then Ok x
  else if is_infinity x then Ok infinity
  else if (x =? 0)%float then Ok 0%float
  else if (abs x =? 1)%float then Ok 1%float
  else pow_checked (abs x) 2%float.

(** [x ** 0.5].  A negative finite base has a complex power; the caller
    goes on to compare what it computes from it with [max(0, ...)], which
    raises [TypeError] on a complex number, and nothing it does in between
    can raise. *)
Definition float_root (x : float) : result float :=
  if is_nan x then Ok x
  else if is_infinity x then Ok infinity
  else if (x =? 0)%float then Ok 0%float
  else if (x <? 0)%float then Raise TypeError
  else if (x =? 1)%float then Ok 1%float
  else pow_checked x 0.5%float.

End Pow.

(** [sum(l)] on floats: from the [int] zero, left to right (CPython up to
    3.11; later versions compensate the rounding errors). *)
Definition float_sum (l : list float) : float :=
  fold_left (fun a x => (a + x)%float) l 0%float.

Definition int_sum (l : list Z) : Z := fold_left Z.add l 0.

(** [len(l)] *)
Definition len {A : Type} (l : list A) : Z := Z.of_nat (List.length l).

(** ** Reading numbers: [float(str)] *)

(** Underscores are allowed only between two digits. *)
Fixpoint drop_underscores (prev : option ascii) (l : list ascii) : option (list ascii) :=
  match l with
  | [] => Some []
  | c :: r =>
      if Ascii.eqb c "_" then
        match prev, r with
        | Some p, n :: _ =>
            if is_digit p && is_digit n then drop_underscores (Some c) r else None
        | _, _ => None
        end
      else option_map (cons c) (drop_underscores (Some c) r)
  end.

(** Reads a run of digits: the value accumulated, how many were read, and
    the rest. *)
Fixpoint take_digits (acc cnt : Z) (l : list ascii) : Z * Z * list ascii :=
  match l with
  | c :: r =>
      if is_digit c then take_digits (10 * acc + digit_val c) (cnt + 1) r
      else (acc, cnt, l)
  | [] => (acc, cnt, [])
  end.

Definition take_sign (l : list ascii) : bool * list ascii :=
  match l with
  | "-"%char :: r => (true, r)
  | "+"%char :: r => (false, r)
  | _ => (false, l)
  end.

(** [digits [. digits] [e [sign] digits]] with a digit on one side of the
    point at least; the result [(m, e)] stands for [m * 10^e]. *)
Definition parse_decimal (l : list ascii) : option (Z * Z) :=
  let '(ip, ni, r1) := take_digits 0 0 l in
  let '(m, nf, r2) :=
    match r1 with
    | "."%char :: r => take_digits ip 0 r
    | _ => (ip, 0, r1)
    end in
  if ni + nf =? 0 then None else
  match r2 with
  | [] => Some (m, - nf)
  | c :: r =>
      if Ascii.eqb (lower_char c) "e" then
        let '(es, r3) := take_sign r in
        let '(e, ne, r4) := take_digits 0 0 r3 in
        match r4 with
        | [] => if ne =? 0 then None else Some (m, (if es then - e else e) - nf)
        | _ => None
        end
      else None
  end.

(** [float(s)] for a [str]. *)
Definition float_of_str (s : string) : result float :=
  match drop_underscores None (strip is_float_space (list_ascii_of_string s)) with
  | None => Raise ValueError
  | Some l =>
      let '(neg, body) := take_sign l in
      let word := string_of_list_ascii (map lower_char body) in
      let signed (x : float) := if neg then (- x)%float else x in
      if String.eqb word "inf" || String.eqb word "infinity" then Ok (signed infinity)
      else if String.eqb word "nan" then Ok nan
      else
        match parse_decimal body with
        | None => Raise ValueError
        | Some (m, e) =>
            Ok (signed (float_of_ratio (m * 10 ^ (Z.max 0 e)) (10 ^ (Z.max 0 (- e)))))
        end
  end.

(** ** Writing numbers: [repr(float)] *)

Fixpoint strip_zeros_fuel (fuel : nat) (c e : Z) : Z * Z :=
  match fuel with
  | O => (c, e)
  | S f =>
      if negb (c =? 0) && (c mod 10 =? 0) then strip_zeros_fuel f (c / 10) (e + 1)
      else (c, e)
  end.

(** [10^k <= num / den] *)
Definition pow10_le (k num den : Z) : bool :=
  10 ^ (Z.max 0 k) * den <=? num * 10 ^ (Z.max 0 (- k)).

Fixpoint log10_up (fuel : nat) (k num den : Z) : Z :=
  match fuel with
  | O => k
  | S f => if pow10_le (k + 1) num den then log10_up f (k + 1) num den else k
  end.

(** The decimal exponent of [num / den > 0], reached from an underestimate. *)
Definition floor_log10 (num den : Z) : Z :=
  log10_up 8 (((Z.log2 num - Z.log2 den - 1) * 30102) / 100000 - 1) num den.

(** The shortest decimal [c * 10^k] that reads back as [x], and among those
    the nearest to [x = num / den]: with [n] digits only the two neighbours
    of [x] can qualify; seventeen digits always do. *)
Fixpoint shortest_fuel (fuel : nat) (n : Z) (x : float) (num den k10 : Z) : Z * Z :=
  let sc := n - 1 - k10 in
  let wn := num * 10 ^ (Z.max 0 sc) in
  let wd := den * 10 ^ (Z.max 0 (- sc)) in
  let lo := wn / wd in
  let hi := lo + 1 in
  let back c :=
    (float_of_ratio (c * 10 ^ (Z.max 0 (- sc))) (10 ^ (Z.max 0 sc)) =? x)%float in
  let pick :=
    match back lo, back hi with
    | true, false => Some lo
    | false, true => Some hi
    | true, true =>
        match (2 * (wn mod wd) ?= wd) with
        | Lt => Some lo
        | Gt => Some hi
        | Eq => Some (if Z.even lo then lo else hi)
        end
    | false, false => None
    end in
  match pick, fuel with
  | Some c, _ => (c, - sc)
  | None, O => (lo, - sc)
  | None, S f => shortest_fuel f (n + 1) x num den k10
  end.

(** Sign, digits [d] and exponent [k] of [repr(x)] for a finite non-zero
    [x]: [|x|] is printed as the digits of [d] scaled by [10^k], and [d] has
    no trailing zero. *)
Definition float_digits (x : float) : option (bool * Z * Z) :=
  match Prim2SF x with
  | S754_finite s m e =>
      let num := Zpos m * 2 ^ (Z.max 0 e) in
      let den := 2 ^ (Z.max 0 (- e)) in
      let '(c, k) := shortest_fuel 17 1 (abs x) num den (floor_log10 num den) in
      let '(c', k') := strip_zeros_fuel 400 c k in
      Some (s, c', k')
  | _ => None
  end.

Definition zeros (n : Z) : string :=
  string_of_list_ascii (repeat "0"%char (Z.to_nat n)).

(** [repr(x)], which is also [str(x)]: positional notation while the
    decimal point sits within [-4 < decpt <= 16], exponent notation
    otherwise. *)
Definition float_repr (x : float) : string :=
  match Prim2SF x with
  | S754_nan => "nan"
  | S754_infinity s => if s then "-inf" else "inf"
  | S754_zero s => if s then "-0.0" else "0.0"
  | S754_finite _ _ _ =>
      match float_digits x with
      | None => "nan"
      | Some (s, d, k) =>
          let ds := str_of_int d in
          let n := Z.of_nat (String.length ds) in
          let decpt := n + k in
          let body :=
            if (-4 <? decpt) && (decpt <=? 16) then
              if decpt <=? 0 then "0." +++ zeros (- decpt) +++ ds
              else if n <=? decpt then ds +++ zeros (decpt - n) +++ ".0"
              else substring 0 (Z.to_nat decpt) ds +++ "."
                   +++ substring (Z.to_nat decpt) (Z.to_nat (n - decpt)) ds
            else
              let e := decpt - 1 in
              let es := str_of_int (Z.abs e) in
              substring 0 1 ds
              +++ (if 1 <? n then "." +++ substring 1 (Z.to_nat (n - 1)) ds else "")
              +++ "e" +++ (if e <? 0 then "-" else "+")
              +++ (if Z.abs e <? 10 then "0" else "") +++ es
          in
          (if s then "-" else "") +++ body
      end
  end.

(** ** [decimal.Decimal] under the default context *)

(** A finite decimal is [(-1)^sign * coeff * 10^exp]; signalling NaNs do
    not occur in the program. *)
Inductive Decimal : Set :=
| DFinite (sign : bool) (coeff : N) (exp : Z)
| DInfinity (sign : bool)
| DNaN.

Definition dec_prec : Z := 28.
Definition dec_Emax : Z := 999999.
Definition dec_Emin : Z := -999999.

(** [Decimal(s)] for a [str]: blanks stripped, every underscore dropped,
    then a number read as [float] reads it, an infinity or a NaN. *)
Definition Decimal_of_str (s : string) : result Decimal :=
  let l :=
    filter (fun c => negb (Ascii.eqb c "_"))
      (strip is_space (list_ascii_of_string s)) in
  let '(neg, body) := take_sign l in
  let word := string_of_list_ascii (map lower_char body) in
  if String.eqb word "inf" || String.eqb word "infinity" then Ok (DInfinity neg)
  else if String.eqb word "nan" then Ok DNaN
  else
    match parse_decimal body with
    | None => Raise InvalidOperation
    | Some (m, e) => Ok (DFinite neg (Z.to_N m) e)
    end.

(** A literal of the source, [Decimal("0.1")]: never raises. *)
Definition Decimal_lit (s : string) : Decimal := except (Decimal_of_str s) DNaN.

(** [Decimal._fix]: rounds a coefficient of more than 28 digits half-even,
    keeps the exponent within the context's range and raises on overflow,
    the only one of these signals the default context traps. *)
Definition dec_fix (s : bool) (c e : Z) : result Decimal :=
  let Etiny := dec_Emin - dec_prec + 1 in
  let Etop := dec_Emax - dec_prec + 1 in
  if c =? 0 then Ok (DFinite s 0 (Z.min (Z.max e Etiny) dec_Emax))
  else
    let exp_min := ndigits c + e - dec_prec in
    if Etop <? exp_min then Raise DecimalOverflow
    else
      let exp_min := Z.max exp_min Etiny in
      if e <? exp_min then
        let digits := ndigits c + e - exp_min in
        let c1 := if digits <? 0 then 1 else c in
        let e1 := if digits <? 0 then exp_min - 1 else e in
        let coeff := round_half_even c1 (10 ^ (exp_min - e1)) in
        if dec_prec <? ndigits coeff then
          (if Etop <? exp_min + 1 then Raise DecimalOverflow
           else Ok (DFinite s (Z.to_N (coeff / 10)) (exp_min + 1)))
        else Ok (DFinite s (Z.to_N coeff) exp_min)
      else Ok (DFinite s (Z.to_N c) e).

(** [a + b]: the exact sum at the smaller exponent, then [_fix].  A zero
    sum of non-zero operands is positive; a sum of zeros is negative only
    if both are. *)
Definition dec_add (a b : Decimal) : result Decimal :=
  match a, b with
  | DNaN, _ | _, DNaN => Ok DNaN
  | DInfinity s1, DInfinity s2 =>
      if Bool.eqb s1 s2 then Ok a else Raise InvalidOperation
  | DInfinity _, _ => Ok a
  | _, DInfinity _ => Ok b
  | DFinite s1 c1 e1, DFinite s2 c2 e2 =>
      let e := Z.min e1 e2 in
      let v1 := (if s1 then -1 else 1) * Z.of_N c1 * 10 ^ (e1 - e) in
      let v2 := (if s2 then -1 else 1) * Z.of_N c2 * 10 ^ (e2 - e) in
      let v := v1 + v2 in
      let s :=
        if v <? 0 then true
        else if 0 <? v then false
        else (c1 =? 0)%N && (c2 =? 0)%N && s1 && s2 in
      dec_fix s (Z.abs v) e
  end.

(** [float(d)]: the nearest binary64. *)
Definition float_of_Decimal (d : Decimal) : float :=
  match d with
  | DNaN => nan
  | DInfinity s => if s then neg_infinity else infinity
  | DFinite s c e =>
      let x := float_of_ratio (Z.of_N c * 10 ^ (Z.max 0 e)) (10 ^ (Z.max 0 (- e))) in
      if s then (- x)%float else x
  end.

(** [Decimal(str(x))] for a [float]. *)
Definition Decimal_of_float_str (x : float) : result Decimal :=
  Decimal_of_str (float_repr x).

(** ** JSON values, as [response.json()] delivers them *)

Inductive json : Type :=
| JNull
| JBool (b : bool)
| JInt (n : Z)
| JFloat (x : float)
| JStr (s : string)
| JList (l : list json)
| JDict (d : list (string * json)).

(** [float(v)] on a decoded JSON value. *)
Definition float_of_json (v : json) : result float :=
  match v with
  | JBool b => Ok (if b then 1%float else 0%float)
  | JInt n => float_of_int n
  | JFloat x => Ok x
  | JStr s => float_of_str s
  | JNull | JList _ | JDict _ => Raise TypeError
  end.

(** Truth value of a decoded JSON value. *)
Definition json_truthy (v : json) : bool :=
  match v with
  | JNull => false
  | JBool b => b
  | JInt n => negb (n =? 0)
  | JFloat x => negb (x =? 0)%float
  | JStr s => negb (String.eqb s "")
  | JList l => negb (Nat.eqb (List.length l) 0)
  | JDict d => negb (Nat.eqb (List.length d) 0)
  end.

(** [v.get(k, default)]: only a [dict] has the method. *)
Definition json_get (v : json) (k : string) (default : json) : result json :=
  match v with
  | JDict d => Ok (dict_get d k default)
  | _ => Raise AttributeError
  end.

End Py.

Notation "x <- m ;; k" := (Py.bind m (fun x => k))
  (at level 61, m at next level, right associativity).

(* ================================================================== *)
(** * [hashlib.md5] and [json.dumps] *)
(* ================================================================== *)

Module Hashlib.

(** [floor(2^32 * |sin(i + 1)|)] for [i] in 0..63. *)
Definition K : list Z :=
  [ 0xd76aa478; 0xe8c7b756; 0x242070db; 0xc1bdceee;
    0xf57c0faf; 0x4787c62a; 0xa8304613; 0xfd469501;
    0x698098d8; 0x8b44f7af; 0xffff5bb1; 0x895cd7be;
    0x6b901122; 0xfd987193; 0xa679438e; 0x49b40821;
    0xf61e2562; 0xc040b340; 0x265e5a51; 0xe9b6c7aa;
    0xd62f105d; 0x02441453; 0xd8a1e681; 0xe7d3fbc8;
    0x21e1cde6; 0xc33707d6; 0xf4d50d87; 0x455a14ed;
    0xa9e3e905; 0xfcefa3f8; 0x676f02d9; 0x8d2a4c8a;
    0xfffa3942; 0x8771f681; 0x6d9d6122; 0xfde5380c;
    0xa4beea44; 0x4bdecfa9; 0xf6bb4b60; 0xbebfbc70;
    0x289b7ec6; 0xeaa127fa; 0xd4ef3085; 0x04881d05;
    0xd9d4d039; 0xe6db99e5; 0x1fa27cf8; 0xc4ac5665;
    0xf4292244; 0x432aff97; 0xab9423a7; 0xfc93a039;
    0x655b59c3; 0x8f0ccc92; 0xffeff47d; 0x85845dd1;
    0x6fa87e4f; 0xfe2ce6e0; 0xa3014314; 0x4e0811a1;
    0xf7537e82; 0xbd3af235; 0x2ad7d2bb; 0xeb86d391 ].

Definition shifts : list Z :=
  [ 7; 12; 17; 22; 7; 12; 17; 22; 7; 12; 17; 22; 7; 12; 17; 22;
    5; 9; 14; 20; 5; 9; 14; 20; 5; 9; 14; 20; 5; 9; 14; 20;
    4; 11; 16; 23; 4; 11; 16; 23; 4; 11; 16; 23; 4; 11; 16; 23;
    6; 10; 15; 21; 6; 10; 15; 21; 6; 10; 15; 21; 6; 10; 15; 21 ].

Definition w32 (x : Z) : Z := Z.land x 0xffffffff.
Definition not32 (x : Z) : Z := Z.lxor x 0xffffffff.
Definition rotl32 (x n : Z) : Z :=
  w32 (Z.lor (Z.shiftl x n) (Z.shiftr x (32 - n))).

(** The message, a one bit, zeros up to 56 modulo 64, and the bit length
    as eight little-endian bytes. *)
Definition pad (msg : list Z) : list Z :=
  let len := Z.of_nat (List.length msg) in
  msg ++ [0x80] ++ repeat 0 (Z.to_nat ((55 - len) mod 64))
      ++ map (fun i => Z.land (Z.shiftr (8 * len) (8 * Z.of_nat i)) 0xff) (seq 0 8).

(** Little-endian 32-bit words. *)
Fixpoint words (fuel : nat) (bs : list Z) : list Z :=
  match fuel, bs with
  | S f, b0 :: b1 :: b2 :: b3 :: r =>
      (b0 + Z.shiftl b1 8 + Z.shiftl b2 16 + Z.shiftl b3 24) :: words f r
  | _, _ => []
  end.

Definition step (M : list Z) (st : Z * Z * Z * Z) (i : nat) : Z * Z * Z * Z :=
  let '(A, B, C, D) := st in
  let iz := Z.of_nat i in
  let '(F, g) :=
    if iz <? 16 then (Z.lor (Z.land B C) (Z.land (not32 B) D), iz)
    else if iz <? 32 then (Z.lor (Z.land D B) (Z.land (not32 D) C), (5 * iz + 1) mod 16)
    else if iz <? 48 then (Z.lxor (Z.lxor B C) D, (3 * iz + 5) mod 16)
    else (Z.lxor C (Z.lor B (not32 D)), (7 * iz) mod 16) in
  let F' := w32 (F + A + nth i K 0 + nth (Z.to_nat g) M 0) in
  (D, w32 (B + rotl32 F' (nth i shifts 0)), B, C).

Definition chunk (st : Z * Z * Z * Z) (M : list Z) : Z * Z * Z * Z :=
  let '(a0, b0, c0, d0) := st in
  let '(A, B, C, D) := fold_left (step M) (seq 0 64) st in
  (w32 (a0 + A), w32 (b0 + B), w32 (c0 + C), w32 (d0 + D)).

Fixpoint chunks (fuel : nat) (ws : list Z) : list (list Z) :=
  match fuel, ws with
  | S f, _ :: _ => firstn 16 ws :: chunks f (skipn 16 ws)
  | _, _ => []
  end.

Definition le_bytes (x : Z) : list Z :=
  map (fun i => Z.land (Z.shiftr x (8 * Z.of_nat i)) 0xff) (seq 0 4).

(** The sixteen bytes of the digest. *)
Definition md5 (msg : list Z) : list Z :=
  let bs := pad msg in
  let ws := words (List.length bs) bs in
  let '(a, b, c, d) :=
    fold_left chunk (chunks (List.length ws) ws)
      (0x67452301, 0xefcdab89, 0x98badcfe, 0x10325476) in
  le_bytes a ++ le_bytes b ++ le_bytes c ++ le_bytes d.

Definition hex_digit (n : Z) : ascii :=
  ascii_of_N (Z.to_N (if n <? 10 then 48 + n else 87 + n)).

Fixpoint hex (bs : list Z) : string :=
  match bs with
  | [] => EmptyString
  | b :: r => String (hex_digit (Z.shiftr b 4)) (String (hex_digit (Z.land b 15)) (hex r))
  end.

(** [s.encode()]: UTF-8, two bytes for a code point from U+0080 on. *)
Fixpoint encode (s : string) : list Z :=
  match s with
  | EmptyString => []
  | String c r =>
      let n := Z.of_N (Py.ord c) in
      if n <? 128 then n :: encode r
      else Z.lor 0xc0 (Z.shiftr n 6) :: Z.lor 0x80 (Z.land n 0x3f) :: encode r
  end.

(** [hashlib.md5(s.encode()).hexdigest()] *)
Definition md5_hexdigest (s : string) : string := hex (md5 (encode s)).

End Hashlib.

Module Json.

Import Py.

(** One character of a string under [ensure_ascii=True]: the short
    escapes, the printable ASCII characters as they are, [\uXXXX] for the
    rest. *)
Definition escape_char (c : ascii) : string :=
  let n := Z.of_N (ord c) in
  if n =? 34 then "\" +++ String c ""
  else if n =? 92 then "\\"
  else if n =? 10 then "\n"
  else if n =? 13 then "\r"
  else if n =? 9 then "\t"
  else if n =? 8 then "\b"
  else if n =? 12 then "\f"
  else if (32 <=? n) && (n <=? 126) then String c ""
  else "\u00" +++ Hashlib.hex [n].

Fixpoint escape (s : string) : string :=
  match s with
  | EmptyString => EmptyString
  | String c r => escape_char c +++ escape r
  end.

Definition quote (s : string) : string :=
  String (ascii_of_N 34) (escape s) +++ String (ascii_of_N 34) "".

(** Keys in code point order, as [sort_keys=True] puts them. *)
Fixpoint insert_key (kv : string * string) (l : list (string * string)) :
  list (string * string) :=
  match l with
  | [] => [kv]
  | kv' :: r =>
      if String.ltb (fst kv') (fst kv) then kv' :: insert_key kv r else kv :: l
  end.

Fixpoint items (l : list (string * string)) : string :=
  match l with
  | [] => ""
  | [(k, v)] => quote k +++ ": " +++ quote v
  | (k, v) :: r => quote k +++ ": " +++ quote v +++ ", " +++ items r
  end.

(** [json.dumps(d, sort_keys=True)] for a [dict] from [str] to [str]. *)
Definition dumps (d : dict string) : string :=
  "{" +++ items (fold_right insert_key [] d) +++ "}".

End Json.

(* ================================================================== *)
(** * [app/services/bridges/base.py] *)
(* ================================================================== *)

Module base.

Import Py.

Record RouteParams : Type := {
  source_chain : string;
  destination_chain : string;
  source_token : string;
  destination_token : string;
  amount : string;
  user_address : option string
}.

Record FeeBreakdown : Type := {
  bridge_fee_usd : Decimal;
  gas_cost_source_usd : Decimal;
  gas_cost_destination_usd : Decimal;
  total_cost_usd : Decimal;
  slippage_percentage : option Decimal
}.

Record BridgeQuote : Type := {
  bridge_name : string;
  protocol : string;
  route_type : string;
  estimated_time_seconds : Z;
  fee_breakdown : FeeBreakdown;
  success_rate : Decimal;
  steps : list (dict string);
  requires_approval : bool;
  minimum_amount : option string;
  maximum_amount : option string;
  quote_id : option string;
  metadata : option (dict string)
}.

(** [x in l] on a list of [int]s. *)
Definition contains (l : list Z) (x : Z) : bool := existsb (Z.eqb x) l.

(** [BaseBridge.supports_route]; no adapter overrides it. *)
Definition supports_route (supported_chains : list Z)
  (source_chain_id dest_chain_id : Z) : bool :=
  contains supported_chains source_chain_id
  && contains supported_chains dest_chain_id
  && negb (source_chain_id =? dest_chain_id).

(** [a + b + c] on [Decimal]s, left to right. *)
Definition dec_sum3 (a b c : Decimal) : result Decimal :=
  ab <- dec_add a b ;; dec_add ab c.

(** What awaiting [bridge.get_quote(route_params)] under [asyncio.wait_for]
    comes to: a quote or [None], an exception, or the timeout. *)
Inductive call_outcome : Type :=
| Returned (q : option BridgeQuote)
| Raised (e : exn)
| TimedOut.

(** An adapter as the engine sees it. *)
Record BaseBridge : Type := {
  name : string;
  get_quote : RouteParams -> call_outcome
}.

(** One entry of [steps]: [{"action": ..., "description": ...}]. *)
Definition step (action description : string) : dict string :=
  [("action", action); ("description", description)].

Record TimeEstimate : Type := {
  estimated_seconds : Z;
  min_seconds : Z;
  max_seconds : Z
}.

End base.

(* ================================================================== *)
(** * The adapters, [app/services/bridges/*.py]

    The network is a parameter: [api] is [Some data] when the protocol's
    endpoint answered 200 with a body that decoded to [data], and [None]
    for every other outcome of the request.  [now] is
    [int(datetime.utcnow().timestamp())]. *)
(* ================================================================== *)

Module across.

Import Py base.

Definition name : string := "Across Protocol".
Definition protocol : string := "across".
Definition supported_chains : list Z := [1; 10; 42161; 137; 8453].

Definition _get_chain_id (chain_name : string) : Z :=
  dict_get
    [("ethereum", 1); ("optimism", 10); ("arbitrum", 42161); ("polygon", 137);
     ("base", 8453)]
    (lower chain_name) 0.

Definition _estimate_gas_cost (chain_id : Z) (is_destination : bool) : float :=
  if is_destination then
    zdict_get
      [(1, 0.50%float); (10, 0.02%float); (42161, 0.05%float); (137, 0.01%float);
       (8453, 0.02%float)]
      chain_id 1.00%float
  else
    zdict_get
      [(1, 5.00%float); (10, 0.10%float); (42161, 0.25%float); (137, 0.05%float);
       (8453, 0.10%float)]
      chain_id 1.00%float.

Definition _parse_across_response (now : Z) (data : json) (route_params : RouteParams)
  : result BridgeQuote :=
  total_relay_fee <- json_get data "totalRelayFee" (JDict []) ;;
  pct <- json_get total_relay_fee "pct" (JStr "0.001") ;;
  relay_fee_pct <- float_of_json pct ;;
  amount <- float_of_str (amount route_params) ;;
  let amount_usd := (amount / 1e6)%float in
  bridge_fee_usd <- Decimal_of_float_str (round (amount_usd * relay_fee_pct)%float 2) ;;
  let source_chain_id := _get_chain_id (source_chain route_params) in
  gas_cost_source_usd <- Decimal_of_float_str (_estimate_gas_cost source_chain_id false) ;;
  let dest_chain_id := _get_chain_id (destination_chain route_params) in
  gas_cost_dest_usd <- Decimal_of_float_str (_estimate_gas_cost dest_chain_id true) ;;
  total_cost <- dec_sum3 bridge_fee_usd gas_cost_source_usd gas_cost_dest_usd ;;
  let fee_breakdown :=
    {| bridge_fee_usd := bridge_fee_usd;
       gas_cost_source_usd := gas_cost_source_usd;
       gas_cost_destination_usd := gas_cost_dest_usd;
       total_cost_usd := total_cost;
       slippage_percentage := Some (Decimal_lit "0.1") |} in
  Ok {| bridge_name := name;
        base.protocol := protocol;
        route_type := "direct";
        estimated_time_seconds := 180;
        fee_breakdown := fee_breakdown;
        success_rate := Decimal_lit "99.5";
        steps := [ step "approve" "Approve token spending";
                   step "bridge" ("Bridge to " +++ destination_chain route_params) ];
        requires_approval := true;
        minimum_amount := Some "1000000";
        maximum_amount := Some "1000000000000";
        quote_id := Some ("across_" +++ str_of_int now);
        metadata := Some [("relayFeePercent", float_repr relay_fee_pct)] |}.

Definition _generate_mock_quote (now : Z) (route_params : RouteParams)
  : result BridgeQuote :=
  let source_chain_id := _get_chain_id (source_chain route_params) in
  let dest_chain_id := _get_chain_id (destination_chain route_params) in
  amount <- float_of_str (amount route_params) ;;
  let amount_usd := (amount / 1e6)%float in
  bridge_fee_usd <- Decimal_of_float_str (round (amount_usd * 0.001)%float 2) ;;
  gas_cost_source_usd <- Decimal_of_float_str (_estimate_gas_cost source_chain_id false) ;;
  gas_cost_dest_usd <- Decimal_of_float_str (_estimate_gas_cost dest_chain_id true) ;;
  total_cost <- dec_sum3 bridge_fee_usd gas_cost_source_usd gas_cost_dest_usd ;;
  let fee_breakdown :=
    {| bridge_fee_usd := bridge_fee_usd;
       gas_cost_source_usd := gas_cost_source_usd;
       gas_cost_destination_usd := gas_cost_dest_usd;
       total_cost_usd := total_cost;
       slippage_percentage := Some (Decimal_lit "0.1") |} in
  Ok {| bridge_name := name;
        base.protocol := protocol;
        route_type := "direct";
        estimated_time_seconds := 180;
        fee_breakdown := fee_breakdown;
        success_rate := Decimal_lit "99.5";
        steps := [ step "approve" "Approve token spending";
                   step "bridge" ("Bridge to " +++ destination_chain route_params) ];
        requires_approval := true;
        minimum_amount := Some "1000000";
        maximum_amount := Some "1000000000000";
        quote_id := Some ("across_mock_" +++ str_of_int now);
        metadata := None |}.

(** A reply other than 200, or a failed request, falls back to the mock
    quote; an exception anywhere else ends in [None]. *)
Definition get_quote (api : option json) (now : Z) (route_params : RouteParams)
  : option BridgeQuote :=
  let source_chain_id := _get_chain_id (source_chain route_params) in
  let dest_chain_id := _get_chain_id (destination_chain route_params) in
  if negb (supports_route supported_chains source_chain_id dest_chain_id) then None
  else
    match api with
    | None => to_option (_generate_mock_quote now route_params)
    | Some data => to_option (_parse_across_response now data route_params)
    end.

Definition estimate_time (route_params : RouteParams) : TimeEstimate :=
  {| estimated_seconds := 180; min_seconds := 120; max_seconds := 300 |}.

(** [chain_names.get(chain_id, f"chain_{chain_id}")] *)
Definition _get_chain_name (chain_id : Z) : string :=
  zdict_get
    [(1, "ethereum"); (10, "optimism"); (42161, "arbitrum"); (137, "polygon");
     (8453, "base")]
    chain_id ("chain_" +++ str_of_int chain_id).

End across.

Module stargate.

Import Py base.

Definition name : string := "Stargate Finance".
Definition protocol : string := "stargate".
Definition supported_chains : list Z := [1; 10; 42161; 137; 8453; 43114; 250].

Definition _get_chain_id (chain_name : string) : Z :=
  dict_get
    [("ethereum", 1); ("optimism", 10); ("arbitrum", 42161); ("polygon", 137);
     ("base", 8453); ("avalanche", 43114); ("fantom", 250)]
    (lower chain_name) 0.

Definition _estimate_gas_cost (chain_id : Z) : float :=
  zdict_get
    [(1, 8.00%float); (10, 0.15%float); (42161, 0.30%float); (137, 0.08%float);
     (8453, 0.15%float); (43114, 0.50%float); (250, 0.05%float)]
    chain_id 2.00%float.

Definition _estimate_layerzero_fee (source_chain_id dest_chain_id : Z) : float :=
  zdict_get
    [(1, 1.50%float); (10, 0.50%float); (42161, 0.75%float); (137, 0.25%float);
     (8453, 0.50%float); (43114, 1.00%float); (250, 0.20%float)]
    dest_chain_id 0.50%float.

Definition _generate_estimated_quote (now : Z) (route_params : RouteParams)
  : result BridgeQuote :=
  let source_chain_id := _get_chain_id (source_chain route_params) in
  let dest_chain_id := _get_chain_id (destination_chain route_params) in
  amount <- float_of_str (amount route_params) ;;
  let amount_usd := (amount / 1e6)%float in
  bridge_fee_usd <- Decimal_of_float_str (round (amount_usd * 0.0006)%float 2) ;;
  let layerzero_fee := _estimate_layerzero_fee source_chain_id dest_chain_id in
  gas_cost_source_usd <- Decimal_of_float_str (_estimate_gas_cost source_chain_id) ;;
  gas_cost_dest_usd <- Decimal_of_float_str layerzero_fee ;;
  total_cost <- dec_sum3 bridge_fee_usd gas_cost_source_usd gas_cost_dest_usd ;;
  let fee_breakdown :=
    {| bridge_fee_usd := bridge_fee_usd;
       gas_cost_source_usd := gas_cost_source_usd;
       gas_cost_destination_usd := gas_cost_dest_usd;
       total_cost_usd := total_cost;
       slippage_percentage := Some (Decimal_lit "0.05") |} in
  Ok {| bridge_name := name;
        base.protocol := protocol;
        route_type := "direct";
        estimated_time_seconds := 240;
        fee_breakdown := fee_breakdown;
        success_rate := Decimal_lit "98.8";
        steps := [ step "approve" "Approve token spending";
                   step "bridge" ("Bridge via LayerZero to " +++ destination_chain route_params) ];
        requires_approval := true;
        minimum_amount := Some "1000000";
        maximum_amount := Some "500000000000";
        quote_id := Some ("stargate_" +++ str_of_int now);
        metadata := Some [("layerzero", "true"); ("unified_liquidity", "true")] |}.

(** No public quote endpoint: every supported route gets the estimate. *)
Definition get_quote (now : Z) (route_params : RouteParams) : option BridgeQuote :=
  let source_chain_id := _get_chain_id (source_chain route_params) in
  let dest_chain_id := _get_chain_id (destination_chain route_params) in
  if negb (supports_route supported_chains source_chain_id dest_chain_id) then None
  else to_option (_generate_estimated_quote now route_params).

Definition estimate_time (route_params : RouteParams) : TimeEstimate :=
  {| estimated_seconds := 240; min_seconds := 180; max_seconds := 420 |}.

(** [chain_names.get(chain_id, f"chain_{chain_id}")] *)
Definition _get_chain_name (chain_id : Z) : string :=
  zdict_get
    [(1, "ethereum"); (10, "optimism"); (42161, "arbitrum"); (137, "polygon");
     (8453, "base"); (43114, "avalanche"); (250, "fantom")]
    chain_id ("chain_" +++ str_of_int chain_id).

End stargate.

Module hop.

Import Py base.

Definition name : string := "Hop Protocol".
Definition protocol : string := "hop".
Definition supported_chains : list Z := [1; 10; 42161; 137; 8453; 100].

Definition _get_chain_id (chain_name : string) : Z :=
  dict_get
    [("ethereum", 1); ("optimism", 10); ("arbitrum", 42161); ("polygon", 137);
     ("base", 8453); ("gnosis", 100)]
    (lower chain_name) 0.

Definition _estimate_gas_cost (chain_id : Z) : float :=
  zdict_get
    [(1, 6.00%float); (10, 0.12%float); (42161, 0.28%float); (137, 0.06%float);
     (8453, 0.12%float); (100, 0.02%float)]
    chain_id 1.00%float.

Definition _parse_hop_response (now : Z) (data : json) (route_params : RouteParams)
  : result BridgeQuote :=
  amount <- float_of_str (amount route_params) ;;
  let amount_usd := (amount / 1e6)%float in
  bonder <- json_get data "bonderFee" (JInt 0) ;;
  bonder <- float_of_json bonder ;;
  let bonder_fee := (bonder / 1e6)%float in
  dest_fee <- json_get data "destinationTxFee" (JInt 0) ;;
  dest_fee <- float_of_json dest_fee ;;
  let destination_tx_fee := (dest_fee / 1e6)%float in
  bridge_fee_usd <- Decimal_of_float_str (round bonder_fee 2) ;;
  let source_chain_id := _get_chain_id (source_chain route_params) in
  gas_cost_source_usd <- Decimal_of_float_str (_estimate_gas_cost source_chain_id) ;;
  gas_cost_dest_usd <- Decimal_of_float_str (round destination_tx_fee 2) ;;
  total_cost <- dec_sum3 bridge_fee_usd gas_cost_source_usd gas_cost_dest_usd ;;
  let fee_breakdown :=
    {| bridge_fee_usd := bridge_fee_usd;
       gas_cost_source_usd := gas_cost_source_usd;
       gas_cost_destination_usd := gas_cost_dest_usd;
       total_cost_usd := total_cost;
       slippage_percentage := Some (Decimal_lit "0.5") |} in
  Ok {| bridge_name := name;
        base.protocol := protocol;
        route_type := "direct";
        estimated_time_seconds := 300;
        fee_breakdown := fee_breakdown;
        success_rate := Decimal_lit "97.5";
        steps := [ step "approve" "Approve token spending";
                   step "bridge" ("Bridge to " +++ destination_chain route_params +++ " via AMM") ];
        requires_approval := true;
        minimum_amount := Some "1000000";
        maximum_amount := Some "10000000000000";
        quote_id := Some ("hop_" +++ str_of_int now);
        metadata := Some [("amm_based", "true")] |}.

Definition _generate_estimated_quote (now : Z) (route_params : RouteParams)
  : result BridgeQuote :=
  let source_chain_id := _get_chain_id (source_chain route_params) in
  let dest_chain_id := _get_chain_id (destination_chain route_params) in
  amount <- float_of_str (amount route_params) ;;
  let amount_usd := (amount / 1e6)%float in
  let bonder_fee_pct := 0.0004%float in
  let lp_fee_pct := 0.0004%float in
  let total_fee_pct := (bonder_fee_pct + lp_fee_pct)%float in
  bridge_fee_usd <- Decimal_of_float_str (round (amount_usd * total_fee_pct)%float 2) ;;
  gas_cost_source_usd <- Decimal_of_float_str (_estimate_gas_cost source_chain_id) ;;
  gas_cost_dest_usd <- Decimal_of_float_str 0.50%float ;;
  total_cost <- dec_sum3 bridge_fee_usd gas_cost_source_usd gas_cost_dest_usd ;;
  let fee_breakdown :=
    {| bridge_fee_usd := bridge_fee_usd;
       gas_cost_source_usd := gas_cost_source_usd;
       gas_cost_destination_usd := gas_cost_dest_usd;
       total_cost_usd := total_cost;
       slippage_percentage := Some (Decimal_lit "0.2") |} in
  Ok {| bridge_name := name;
        base.protocol := protocol;
        route_type := "direct";
        estimated_time_seconds := 420;
        fee_breakdown := fee_breakdown;
        success_rate := Decimal_lit "96.0";
        steps := [ step "approve" "Approve token spending";
                   step "bridge" ("Bridge to " +++ destination_chain route_params) ];
        requires_approval := true;
        minimum_amount := Some "1000000";
        maximum_amount := Some "10000000000000";
        quote_id := Some ("hop_est_" +++ str_of_int now);
        metadata := None |}.

(** The inner [try] covers the request and the parsing: a reply that is
    missing, falsy or fails to parse falls back to the estimate. *)
Definition get_quote (api : option json) (now : Z) (route_params : RouteParams)
  : option BridgeQuote :=
  let source_chain_id := _get_chain_id (source_chain route_params) in
  let dest_chain_id := _get_chain_id (destination_chain route_params) in
  if negb (supports_route supported_chains source_chain_id dest_chain_id) then None
  else
    let estimated := to_option (_generate_estimated_quote now route_params) in
    match api with
    | Some quote_data =>
        if json_truthy quote_data then
          match _parse_hop_response now quote_data route_params with
          | Ok quote => Some quote
          | Raise _ => estimated
          end
        else estimated
    | None => estimated
    end.

Definition estimate_time (route_params : RouteParams) : TimeEstimate :=
  {| estimated_seconds := 420; min_seconds := 300; max_seconds := 600 |}.

End hop.

Module synapse.

Import Py base.

Definition name : string := "Synapse Protocol".
Definition protocol : string := "synapse".
Definition supported_chains : list Z := [1; 10; 42161; 137; 8453; 56; 43114; 250; 1666600000].

Definition _get_chain_id (chain_name : string) : Z :=
  dict_get
    [("ethereum", 1); ("optimism", 10); ("arbitrum", 42161); ("polygon", 137);
     ("base", 8453); ("bnb", 56); ("avalanche", 43114); ("fantom", 250);
     ("harmony", 1666600000)]
    (lower chain_name) 0.

Definition _estimate_gas_cost (chain_id : Z) : float :=
  zdict_get
    [(1, 7.50%float); (10, 0.13%float); (42161, 0.27%float); (137, 0.07%float);
     (8453, 0.13%float); (56, 0.25%float); (43114, 0.55%float)]
    chain_id 1.50%float.

Definition _parse_synapse_response (now : Z) (data : json) (route_params : RouteParams)
  : result BridgeQuote :=
  out <- json_get data "amountOut" (JInt 0) ;;
  out <- float_of_json out ;;
  let amount_out := (out / 1e6)%float in
  amount <- float_of_str (amount route_params) ;;
  let amount_in := (amount / 1e6)%float in
  bridge_fee_usd <- Decimal_of_float_str (round (amount_in - amount_out)%float 2) ;;
  let source_chain_id := _get_chain_id (source_chain route_params) in
  gas_cost_source_usd <- Decimal_of_float_str (_estimate_gas_cost source_chain_id) ;;
  let gas_cost_dest_usd := Decimal_lit "0.25" in
  total_cost <- dec_sum3 bridge_fee_usd gas_cost_source_usd gas_cost_dest_usd ;;
  let fee_breakdown :=
    {| bridge_fee_usd := bridge_fee_usd;
       gas_cost_source_usd := gas_cost_source_usd;
       gas_cost_destination_usd := gas_cost_dest_usd;
       total_cost_usd := total_cost;
       slippage_percentage := Some (Decimal_lit "0.3") |} in
  Ok {| bridge_name := name;
        base.protocol := protocol;
        route_type := "direct";
        estimated_time_seconds := 360;
        fee_breakdown := fee_breakdown;
        success_rate := Decimal_lit "96.5";
        steps := [ step "approve" "Approve token spending";
                   step "swap" ("Swap and bridge to " +++ destination_chain route_params) ];
        requires_approval := true;
        minimum_amount := Some "1000000";
        maximum_amount := Some "5000000000000";
        quote_id := Some ("synapse_" +++ str_of_int now);
        metadata := Some [("swap_enabled", "true")] |}.

Definition _generate_estimated_quote (now : Z) (route_params : RouteParams)
  : result BridgeQuote :=
  let source_chain_id := _get_chain_id (source_chain route_params) in
  amount <- float_of_str (amount route_params) ;;
  let amount_usd := (amount / 1e6)%float in
  bridge_fee_usd <- Decimal_of_float_str (round (amount_usd * 0.0008)%float 2) ;;
  gas_cost_source_usd <- Decimal_of_float_str (_estimate_gas_cost source_chain_id) ;;
  let gas_cost_dest_usd := Decimal_lit "0.25" in
  total_cost <- dec_sum3 bridge_fee_usd gas_cost_source_usd gas_cost_dest_usd ;;
  let fee_breakdown :=
    {| bridge_fee_usd := bridge_fee_usd;
       gas_cost_source_usd := gas_cost_source_usd;
       gas_cost_destination_usd := gas_cost_dest_usd;
       total_cost_usd := total_cost;
       slippage_percentage := Some (Decimal_lit "0.3") |} in
  Ok {| bridge_name := name;
        base.protocol := protocol;
        route_type := "direct";
        estimated_time_seconds := 360;
        fee_breakdown := fee_breakdown;
        success_rate := Decimal_lit "96.5";
        steps := [ step "approve" "Approve token spending";
                   step "swap_bridge" ("Swap and bridge to " +++ destination_chain route_params) ];
        requires_approval := true;
        minimum_amount := Some "1000000";
        maximum_amount := Some "5000000000000";
        quote_id := Some ("synapse_est_" +++ str_of_int now);
        metadata := Some [("native_swap", "true")] |}.

(** The inner [try] covers the request and the parsing: a reply that is
    missing, falsy or fails to parse falls back to the estimate. *)
Definition get_quote (api : option json) (now : Z) (route_params : RouteParams)
  : option BridgeQuote :=
  let source_chain_id := _get_chain_id (source_chain route_params) in
  let dest_chain_id := _get_chain_id (destination_chain route_params) in
  if negb (supports_route supported_chains source_chain_id dest_chain_id) then None
  else
    let estimated := to_option (_generate_estimated_quote now route_params) in
    match api with
    | Some quote_data =>
        if json_truthy quote_data then
          match _parse_synapse_response now quote_data route_params with
          | Ok quote => Some quote
          | Raise _ => estimated
          end
        else estimated
    | None => estimated
    end.

Definition estimate_time (route_params : RouteParams) : TimeEstimate :=
  {| estimated_seconds := 360; min_seconds := 240; max_seconds := 540 |}.

End synapse.

Module celer.

Import Py base.

Definition name : string := "Celer cBridge".
Definition protocol : string := "celer".
Definition supported_chains : list Z := [1; 10; 42161; 137; 8453; 56; 43114; 250; 42220].

Definition _get_chain_id (chain_name : string) : Z :=
  dict_get
    [("ethereum", 1); ("optimism", 10); ("arbitrum", 42161); ("polygon", 137);
     ("base", 8453); ("bnb", 56); ("avalanche", 43114); ("fantom", 250);
     ("celo", 42220)]
    (lower chain_name) 0.

Definition _estimate_gas_cost (chain_id : Z) : float :=
  zdict_get
    [(1, 6.00%float); (10, 0.12%float); (42161, 0.22%float); (137, 0.06%float);
     (8453, 0.12%float); (56, 0.22%float); (43114, 0.50%float)]
    chain_id 1.00%float.

Definition _parse_celer_response (now : Z) (data : json) (route_params : RouteParams)
  : result BridgeQuote :=
  amount <- float_of_str (amount route_params) ;;
  let amount_in := (amount / 1e6)%float in
  receive <- json_get data "estimated_receive_amt" (JInt 0) ;;
  receive <- float_of_json receive ;;
  let estimated_receive := (receive / 1e6)%float in
  bridge_fee_usd <- Decimal_of_float_str (round (amount_in - estimated_receive)%float 2) ;;
  let source_chain_id := _get_chain_id (source_chain route_params) in
  gas_cost_source_usd <- Decimal_of_float_str (_estimate_gas_cost source_chain_id) ;;
  let gas_cost_dest_usd := Decimal_lit "0.15" in
  total_cost <- dec_sum3 bridge_fee_usd gas_cost_source_usd gas_cost_dest_usd ;;
  let fee_breakdown :=
    {| bridge_fee_usd := bridge_fee_usd;
       gas_cost_source_usd := gas_cost_source_usd;
       gas_cost_destination_usd := gas_cost_dest_usd;
       total_cost_usd := total_cost;
       slippage_percentage := Some (Decimal_lit "0.2") |} in
  Ok {| bridge_name := name;
        base.protocol := protocol;
        route_type := "direct";
        estimated_time_seconds := 180;
        fee_breakdown := fee_breakdown;
        success_rate := Decimal_lit "98.8";
        steps := [ step "approve" "Approve token spending";
                   step "send" ("Send via Celer network to " +++ destination_chain route_params) ];
        requires_approval := true;
        minimum_amount := Some "1000000";
        maximum_amount := Some "5000000000000";
        quote_id := Some ("celer_" +++ str_of_int now);
        metadata := Some [("state_channel", "true"); ("instant_finality", "true")] |}.

Definition _generate_estimated_quote (now : Z) (route_params : RouteParams)
  : result BridgeQuote :=
  let source_chain_id := _get_chain_id (source_chain route_params) in
  amount <- float_of_str (amount route_params) ;;
  let amount_usd := (amount / 1e6)%float in
  bridge_fee_usd <- Decimal_of_float_str (round (amount_usd * 0.0004)%float 2) ;;
  gas_cost_source_usd <- Decimal_of_float_str (_estimate_gas_cost source_chain_id) ;;
  let gas_cost_dest_usd := Decimal_lit "0.15" in
  total_cost <- dec_sum3 bridge_fee_usd gas_cost_source_usd gas_cost_dest_usd ;;
  let fee_breakdown :=
    {| bridge_fee_usd := bridge_fee_usd;
       gas_cost_source_usd := gas_cost_source_usd;
       gas_cost_destination_usd := gas_cost_dest_usd;
       total_cost_usd := total_cost;
       slippage_percentage := Some (Decimal_lit "0.2") |} in
  Ok {| bridge_name := name;
        base.protocol := protocol;
        route_type := "direct";
        estimated_time_seconds := 180;
        fee_breakdown := fee_breakdown;
        success_rate := Decimal_lit "98.8";
        steps := [ step "approve" "Approve token spending";
                   step "send" ("Send via Celer to " +++ destination_chain route_params) ];
        requires_approval := true;
        minimum_amount := Some "1000000";
        maximum_amount := Some "5000000000000";
        quote_id := Some ("celer_est_" +++ str_of_int now);
        metadata := Some [("liquidity_network", "true")] |}.

(** The inner [try] covers the request and the parsing: a reply that is
    missing, falsy or fails to parse falls back to the estimate. *)
Definition get_quote (api : option json) (now : Z) (route_params : RouteParams)
  : option BridgeQuote :=
  let source_chain_id := _get_chain_id (source_chain route_params) in
  let dest_chain_id := _get_chain_id (destination_chain route_params) in
  if negb (supports_route supported_chains source_chain_id dest_chain_id) then None
  else
    let estimated := to_option (_generate_estimated_quote now route_params) in
    match api with
    | Some quote_data =>
        if json_truthy quote_data then
          match _parse_celer_response now quote_data route_params with
          | Ok quote => Some quote
          | Raise _ => estimated
          end
        else estimated
    | None => estimated
    end.

Definition estimate_time (route_params : RouteParams) : TimeEstimate :=
  {| estimated_seconds := 180; min_seconds := 120; max_seconds := 300 |}.

End celer.

Module orbiter.

Import Py base.

Definition name : string := "Orbiter Finance".
Definition protocol : string := "orbiter".
Definition supported_chains : list Z := [1; 10; 42161; 8453; 324; 59144].

Definition _get_chain_id (chain_name : string) : Z :=
  dict_get
    [("ethereum", 1); ("optimism", 10); ("arbitrum", 42161); ("base", 8453);
     ("zksync", 324); ("linea", 59144)]
    (lower chain_name) 0.

Definition _estimate_gas_cost (chain_id : Z) : float :=
  zdict_get
    [(1, 5.00%float); (10, 0.08%float); (42161, 0.15%float); (8453, 0.08%float);
     (324, 0.20%float); (59144, 0.12%float)]
    chain_id 0.50%float.

Definition _generate_estimated_quote (now : Z) (route_params : RouteParams)
  : result BridgeQuote :=
  let source_chain_id := _get_chain_id (source_chain route_params) in
  let dest_chain_id := _get_chain_id (destination_chain route_params) in
  amount <- float_of_str (amount route_params) ;;
  let amount_usd := (amount / 1e6)%float in
  let is_l2_to_l2 := negb (source_chain_id =? 1) && negb (dest_chain_id =? 1) in
  fees <-
    (if is_l2_to_l2 then
       Ok (Decimal_lit "0.10", Decimal_lit "0.05", Decimal_lit "0.05", 120)
     else
       bridge_fee_usd <- Decimal_of_float_str (round (amount_usd * 0.0003)%float 2) ;;
       gas_cost_source_usd <- Decimal_of_float_str (_estimate_gas_cost source_chain_id) ;;
       Ok (bridge_fee_usd, gas_cost_source_usd, Decimal_lit "0.10", 300)) ;;
  let '(bridge_fee_usd, gas_cost_source_usd, gas_cost_dest_usd, estimated_time) := fees in
  total_cost <- dec_sum3 bridge_fee_usd gas_cost_source_usd gas_cost_dest_usd ;;
  let fee_breakdown :=
    {| bridge_fee_usd := bridge_fee_usd;
       gas_cost_source_usd := gas_cost_source_usd;
       gas_cost_destination_usd := gas_cost_dest_usd;
       total_cost_usd := total_cost;
       slippage_percentage := Some (Decimal_lit "0.1") |} in
  Ok {| bridge_name := name;
        base.protocol := protocol;
        route_type := "direct";
        estimated_time_seconds := estimated_time;
        fee_breakdown := fee_breakdown;
        success_rate := Decimal_lit "99.2";
        steps := [ step "send"
                     ("Transfer to " +++ destination_chain route_params +++ " via Orbiter") ];
        requires_approval := false;
        minimum_amount := Some "5000000";
        maximum_amount := Some "10000000000";
        quote_id := Some ("orbiter_" +++ str_of_int now);
        metadata := Some [("l2_optimized", "true"); ("direct_transfer", "true")] |}.

(** No public quote endpoint: every supported route gets the estimate. *)
Definition get_quote (now : Z) (route_params : RouteParams) : option BridgeQuote :=
  let source_chain_id := _get_chain_id (source_chain route_params) in
  let dest_chain_id := _get_chain_id (destination_chain route_params) in
  if negb (supports_route supported_chains source_chain_id dest_chain_id) then None
  else to_option (_generate_estimated_quote now route_params).

Definition estimate_time (route_params : RouteParams) : TimeEstimate :=
  let source_id := _get_chain_id (source_chain route_params) in
  let dest_id := _get_chain_id (destination_chain route_params) in
  let is_l2_to_l2 := negb (source_id =? 1) && negb (dest_id =? 1) in
  if is_l2_to_l2 then
    {| estimated_seconds := 120; min_seconds := 60; max_seconds := 180 |}
  else
    {| estimated_seconds := 300; min_seconds := 180; max_seconds := 420 |}.

End orbiter.

Module debridge.

Import Py base.

Definition name : string := "deBridge".
Definition protocol : string := "debridge".
Definition supported_chains : list Z := [1; 10; 42161; 137; 8453; 56; 43114; 250; 42220; 100].

Definition _get_chain_id (chain_name : string) : Z :=
  dict_get
    [("ethereum", 1); ("optimism", 10); ("arbitrum", 42161); ("polygon", 137);
     ("base", 8453); ("bnb", 56); ("avalanche", 43114); ("fantom", 250);
     ("celo", 42220); ("gnosis", 100)]
    (lower chain_name) 0.

Definition _estimate_gas_cost (chain_id : Z) : float :=
  zdict_get
    [(1, 8.00%float); (10, 0.15%float); (42161, 0.28%float); (137, 0.08%float);
     (8453, 0.15%float); (56, 0.25%float); (43114, 0.55%float)]
    chain_id 1.50%float.

Definition _parse_debridge_response (now : Z) (data : json) (route_params : RouteParams)
  : result BridgeQuote :=
  estimation <- json_get data "estimation" (JDict []) ;;
  amount <- float_of_str (amount route_params) ;;
  let amount_in := (amount / 1e6)%float in
  token_out <- json_get estimation "dstChainTokenOut" (JDict []) ;;
  out <- json_get token_out "amount" (JInt 0) ;;
  out <- float_of_json out ;;
  let amount_out := (out / 1e6)%float in
  bridge_fee_usd <- Decimal_of_float_str (round (amount_in - amount_out)%float 2) ;;
  let source_chain_id := _get_chain_id (source_chain route_params) in
  gas_cost_source_usd <- Decimal_of_float_str (_estimate_gas_cost source_chain_id) ;;
  let gas_cost_dest_usd := Decimal_lit "0.20" in
  total_cost <- dec_sum3 bridge_fee_usd gas_cost_source_usd gas_cost_dest_usd ;;
  let fee_breakdown :=
    {| bridge_fee_usd := bridge_fee_usd;
       gas_cost_source_usd := gas_cost_source_usd;
       gas_cost_destination_usd := gas_cost_dest_usd;
       total_cost_usd := total_cost;
       slippage_percentage := Some (Decimal_lit "0.3") |} in
  Ok {| bridge_name := name;
        base.protocol := protocol;
        route_type := "direct";
        estimated_time_seconds := 420;
        fee_breakdown := fee_breakdown;
        success_rate := Decimal_lit "97.8";
        steps := [ step "approve" "Approve token spending";
                   step "create_order" "Create DLN order";
                   step "fulfill" ("Fulfill on " +++ destination_chain route_params) ];
        requires_approval := true;
        minimum_amount := Some "1000000";
        maximum_amount := Some "10000000000000";
        quote_id := Some ("debridge_" +++ str_of_int now);
        metadata := Some [("dln_protocol", "true"); ("validator_network", "true")] |}.

Definition _generate_estimated_quote (now : Z) (route_params : RouteParams)
  : result BridgeQuote :=
  let source_chain_id := _get_chain_id (source_chain route_params) in
  amount <- float_of_str (amount route_params) ;;
  let amount_usd := (amount / 1e6)%float in
  bridge_fee_usd <- Decimal_of_float_str (round (amount_usd * 0.0007)%float 2) ;;
  gas_cost_source_usd <- Decimal_of_float_str (_estimate_gas_cost source_chain_id) ;;
  let gas_cost_dest_usd := Decimal_lit "0.20" in
  total_cost <- dec_sum3 bridge_fee_usd gas_cost_source_usd gas_cost_dest_usd ;;
  let fee_breakdown :=
    {| bridge_fee_usd := bridge_fee_usd;
       gas_cost_source_usd := gas_cost_source_usd;
       gas_cost_destination_usd := gas_cost_dest_usd;
       total_cost_usd := total_cost;
       slippage_percentage := Some (Decimal_lit "0.3") |} in
  Ok {| bridge_name := name;
        base.protocol := protocol;
        route_type := "direct";
        estimated_time_seconds := 420;
        fee_breakdown := fee_breakdown;
        success_rate := Decimal_lit "97.8";
        steps := [ step "approve" "Approve token spending";
                   step "create_order" "Create DLN order";
                   step "fulfill" ("Fulfill on " +++ destination_chain route_params) ];
        requires_approval := true;
        minimum_amount := Some "1000000";
        maximum_amount := Some "10000000000000";
        quote_id := Some ("debridge_est_" +++ str_of_int now);
        metadata := Some [("cross_chain_liquidity", "true")] |}.

(** The inner [try] covers the request and the parsing: a reply that is
    missing, falsy or fails to parse falls back to the estimate. *)
Definition get_quote (api : option json) (now : Z) (route_params : RouteParams)
  : option BridgeQuote :=
  let source_chain_id := _get_chain_id (source_chain route_params) in
  let dest_chain_id := _get_chain_id (destination_chain route_params) in
  if negb (supports_route supported_chains source_chain_id dest_chain_id) then None
  else
    let estimated := to_option (_generate_estimated_quote now route_params) in
    match api with
    | Some quote_data =>
        if json_truthy quote_data then
          match _parse_debridge_response now quote_data route_params with
          | Ok quote => Some quote
          | Raise _ => estimated
          end
        else estimated
    | None => estimated
    end.

Definition estimate_time (route_params : RouteParams) : TimeEstimate :=
  {| estimated_seconds := 420; min_seconds := 300; max_seconds := 600 |}.

End debridge.

Module layerzero.

Import Py base.

Definition name : string := "LayerZero".
Definition protocol : string := "layerzero".
Definition supported_chains : list Z := [1; 10; 42161; 137; 8453; 56; 43114; 250; 42220; 100; 324].

Definition _get_chain_id (chain_name : string) : Z :=
  dict_get
    [("ethereum", 1); ("optimism", 10); ("arbitrum", 42161); ("polygon", 137);
     ("base", 8453); ("bnb", 56); ("avalanche", 43114); ("fantom", 250);
     ("celo", 42220); ("gnosis", 100); ("zksync", 324)]
    (lower chain_name) 0.

Definition _estimate_gas_cost (chain_id : Z) : float :=
  zdict_get
    [(1, 9.00%float); (10, 0.18%float); (42161, 0.32%float); (137, 0.10%float);
     (8453, 0.18%float); (56, 0.30%float); (43114, 0.65%float)]
    chain_id 2.00%float.

Definition _get_layerzero_chain_id (chain_id : Z) : Z :=
  zdict_get
    [(1, 101); (10, 111); (42161, 110); (137, 109); (8453, 184); (56, 102);
     (43114, 106); (250, 112)]
    chain_id 0.

Definition _estimate_lz_messaging_fee (source_lz_id dest_lz_id : Z) : float :=
  zdict_get
    [(101, 1.20%float); (111, 0.30%float); (110, 0.35%float); (109, 0.20%float);
     (184, 0.30%float); (102, 0.40%float); (106, 0.50%float)]
    dest_lz_id 0.50%float.

Definition _generate_estimated_quote (now : Z) (route_params : RouteParams)
  : result BridgeQuote :=
  let source_chain_id := _get_chain_id (source_chain route_params) in
  let dest_chain_id := _get_chain_id (destination_chain route_params) in
  amount <- float_of_str (amount route_params) ;;
  let amount_usd := (amount / 1e6)%float in
  let source_lz_id := _get_layerzero_chain_id source_chain_id in
  let dest_lz_id := _get_layerzero_chain_id dest_chain_id in
  let messaging_fee := _estimate_lz_messaging_fee source_lz_id dest_lz_id in
  bridge_fee_usd <- Decimal_of_float_str messaging_fee ;;
  gas_cost_source_usd <- Decimal_of_float_str (_estimate_gas_cost source_chain_id) ;;
  let gas_cost_dest_usd := Decimal_lit "0.30" in
  total_cost <- dec_sum3 bridge_fee_usd gas_cost_source_usd gas_cost_dest_usd ;;
  let fee_breakdown :=
    {| bridge_fee_usd := bridge_fee_usd;
       gas_cost_source_usd := gas_cost_source_usd;
       gas_cost_destination_usd := gas_cost_dest_usd;
       total_cost_usd := total_cost;
       slippage_percentage := Some (Decimal_lit "0.1") |} in
  Ok {| bridge_name := name;
        base.protocol := protocol;
        route_type := "direct";
        estimated_time_seconds := 300;
        fee_breakdown := fee_breakdown;
        success_rate := Decimal_lit "98.0";
        steps := [ step "approve" "Approve token spending";
                   step "send_message" "Send LayerZero message";
                   step "relay" ("Relay to " +++ destination_chain route_params) ];
        requires_approval := true;
        minimum_amount := Some "1000000";
        maximum_amount := Some "50000000000000";
        quote_id := Some ("layerzero_" +++ str_of_int now);
        metadata := Some [("omnichain", "true"); ("source_lz_id", str_of_int source_lz_id);
                          ("dest_lz_id", str_of_int dest_lz_id)] |}.

(** No public quote endpoint: every supported route gets the estimate. *)
Definition get_quote (now : Z) (route_params : RouteParams) : option BridgeQuote :=
  let source_chain_id := _get_chain_id (source_chain route_params) in
  let dest_chain_id := _get_chain_id (destination_chain route_params) in
  if negb (supports_route supported_chains source_chain_id dest_chain_id) then None
  else to_option (_generate_estimated_quote now route_params).

Definition estimate_time (route_params : RouteParams) : TimeEstimate :=
  {| estimated_seconds := 300; min_seconds := 180; max_seconds := 480 |}.

End layerzero.

Module wormhole.

Import Py base.

Definition name : string := "Wormhole".
Definition protocol : string := "wormhole".
Definition supported_chains : list Z := [1; 10; 42161; 137; 8453; 56; 43114; 250; 1284].

Definition _get_chain_id (chain_name : string) : Z :=
  dict_get
    [("ethereum", 1); ("optimism", 10); ("arbitrum", 42161); ("polygon", 137);
     ("base", 8453); ("bnb", 56); ("avalanche", 43114); ("fantom", 250);
     ("moonbeam", 1284)]
    (lower chain_name) 0.

Definition _estimate_gas_cost (chain_id : Z) : float :=
  zdict_get
    [(1, 10.00%float); (10, 0.15%float); (42161, 0.30%float); (137, 0.08%float);
     (8453, 0.15%float); (56, 0.30%float); (43114, 0.60%float)]
    chain_id 2.00%float.

Definition _generate_estimated_quote (now : Z) (route_params : RouteParams)
  : result BridgeQuote :=
  let source_chain_id := _get_chain_id (source_chain route_params) in
  amount <- float_of_str (amount route_params) ;;
  let amount_usd := (amount / 1e6)%float in
  let bridge_fee_usd := Decimal_lit "0.25" in
  gas_cost_source_usd <- Decimal_of_float_str (_estimate_gas_cost source_chain_id) ;;
  let gas_cost_dest_usd := Decimal_lit "0.50" in
  total_cost <- dec_sum3 bridge_fee_usd gas_cost_source_usd gas_cost_dest_usd ;;
  let fee_breakdown :=
    {| bridge_fee_usd := bridge_fee_usd;
       gas_cost_source_usd := gas_cost_source_usd;
       gas_cost_destination_usd := gas_cost_dest_usd;
       total_cost_usd := total_cost;
       slippage_percentage := Some (Decimal_lit "0.1") |} in
  Ok {| bridge_name := name;
        base.protocol := protocol;
        route_type := "direct";
        estimated_time_seconds := 600;
        fee_breakdown := fee_breakdown;
        success_rate := Decimal_lit "95.0";
        steps := [ step "approve" "Approve token spending";
                   step "lock" "Lock tokens in Wormhole contract";
                   step "wait" "Wait for guardian signatures";
                   step "redeem" ("Redeem on " +++ destination_chain route_params) ];
        requires_approval := true;
        minimum_amount := Some "1000000";
        maximum_amount := Some "10000000000000";
        quote_id := Some ("wormhole_" +++ str_of_int now);
        metadata := Some [("guardian_network", "true"); ("chains_supported", "20+")] |}.

(** No public quote endpoint: every supported route gets the estimate. *)
Definition get_quote (now : Z) (route_params : RouteParams) : option BridgeQuote :=
  let source_chain_id := _get_chain_id (source_chain route_params) in
  let dest_chain_id := _get_chain_id (destination_chain route_params) in
  if negb (supports_route supported_chains source_chain_id dest_chain_id) then None
  else to_option (_generate_estimated_quote now route_params).

Definition estimate_time (route_params : RouteParams) : TimeEstimate :=
  {| estimated_seconds := 600; min_seconds := 420; max_seconds := 900 |}.

End wormhole.

(* ================================================================== *)
(** * [app/services/route_discovery.py] *)
(* ================================================================== *)

Module route_discovery.

Import Py base.

(** A [datetime] is its number of microseconds since the epoch. *)
Definition timedelta_seconds (n : Z) : Z := n * 1000000.

Record cache_entry : Type := {
  timestamp : Z;
  quotes : list BridgeQuote
}.

(** The engine: the adapters registered at start-up, and the quote cache,
    the one piece of state that changes. *)
Record RouteDiscoveryEngine : Type := {
  bridges : list BaseBridge;
  quote_cache : dict cache_entry;
  cache_ttl_seconds : Z
}.

Definition with_cache (self : RouteDiscoveryEngine) (c : dict cache_entry)
  : RouteDiscoveryEngine :=
  {| bridges := bridges self; quote_cache := c;
     cache_ttl_seconds := cache_ttl_seconds self |}.

(** The timeout and any exception of an adapter both end in [None]. *)
Definition _query_bridge_with_timeout (bridge : BaseBridge) (route_params : RouteParams)
  : option BridgeQuote :=
  match get_quote bridge route_params with
  | Returned quote => quote
  | TimedOut => None
  | Raised _ => None
  end.

(** The quotes of the adapters that produced one, in registration order. *)
Fixpoint _query_all_bridges (bs : list BaseBridge) (route_params : RouteParams)
  : list BridgeQuote :=
  match bs with
  | [] => []
  | bridge :: r =>
      match _query_bridge_with_timeout bridge route_params with
      | Some quote => quote :: _query_all_bridges r route_params
      | None => _query_all_bridges r route_params
      end
  end.

Definition quote_cost (q : BridgeQuote) : float :=
  float_of_Decimal (total_cost_usd (fee_breakdown q)).

(** The body of the scoring loop for one quote. *)
Definition score_quote (w_cost w_speed w_reliability w_liquidity : float)
  (max_cost : float) (max_time : Z) (quote : BridgeQuote)
  : result (float * BridgeQuote) :=
  c <- float_truediv (quote_cost quote) max_cost ;;
  let cost_score := (100 * (1 - c))%float in
  t <- int_truediv (estimated_time_seconds quote) max_time ;;
  let speed_score := (100 * (1 - t))%float in
  let reliability_score := float_of_Decimal (success_rate quote) in
  let liquidity_score := 100.0%float in
  let total_score :=
    (cost_score * w_cost + speed_score * w_speed
     + reliability_score * w_reliability + liquidity_score * w_liquidity)%float in
  Ok (total_score, quote).

Definition _rank_routes (quotes : list BridgeQuote) (preferences : dict float)
  : result (list BridgeQuote) :=
  match quotes with
  | [] => Ok []
  | _ :: _ =>
      let w_cost := dict_get preferences "cost_weight" 0.40%float in
      let w_speed := dict_get preferences "speed_weight" 0.30%float in
      let w_reliability := dict_get preferences "reliability_weight" 0.20%float in
      let w_liquidity := dict_get preferences "liquidity_weight" 0.10%float in
      let costs := map quote_cost quotes in
      let times := map estimated_time_seconds quotes in
      let max_cost := match float_max costs with Some m => m | None => 1%float end in
      let max_time := match int_max times with Some m => m | None => 1 end in
      scored_quotes <-
        mapM (score_quote w_cost w_speed w_reliability w_liquidity max_cost max_time)
             quotes ;;
      let scored_quotes := sort_reverse fst scored_quotes in
      Ok (map snd scored_quotes)
  end.

Definition _get_cache_key (route_params : RouteParams) : string :=
  let key_data :=
    [ ("source_chain", source_chain route_params);
      ("destination_chain", destination_chain route_params);
      ("source_token", source_token route_params);
      ("destination_token", destination_token route_params);
      ("amount", amount route_params) ] in
  let key_json := Json.dumps key_data in
  let key_hash := Hashlib.md5_hexdigest key_json in
  "route_quote:" +++ key_hash.

(** [now] is the clock read by this call; an expired entry is deleted. *)
Definition _get_cached_quote (self : RouteDiscoveryEngine) (now : Z) (cache_key : string)
  : option (list BridgeQuote) * RouteDiscoveryEngine :=
  match dict_lookup cache_key (quote_cache self) with
  | None => (None, self)
  | Some cached_data =>
      if timedelta_seconds (cache_ttl_seconds self) <? now - timestamp cached_data
      then (None, with_cache self (dict_del cache_key (quote_cache self)))
      else (Some (quotes cached_data), self)
  end.

(** Beyond 1000 entries the hundred oldest go, oldest first, ties in
    insertion order. *)
Definition _cache_quotes (self : RouteDiscoveryEngine) (now : Z) (cache_key : string)
  (qs : list BridgeQuote) : RouteDiscoveryEngine :=
  let cache := dict_set cache_key {| timestamp := now; quotes := qs |} (quote_cache self) in
  if 1000 <? len cache then
    let sorted_keys := map fst (sort_asc (fun kv => timestamp (snd kv)) cache) in
    with_cache self (fold_left (fun c k => dict_del k c) (firstn 100 sorted_keys) cache)
  else with_cache self cache.

(** [discover_routes]: [now_lookup] and [now_store] are the two readings of
    the clock, [preferences] is [None] when the caller gives none. *)
Definition discover_routes (self : RouteDiscoveryEngine) (now_lookup now_store : Z)
  (route_params : RouteParams) (preferences : option (dict float))
  : result (list BridgeQuote) * RouteDiscoveryEngine :=
  let cache_key := _get_cache_key route_params in
  let '(cached, self) := _get_cached_quote self now_lookup cache_key in
  match cached with
  | Some (q :: r) => (Ok (q :: r), self)
  | _ =>
      match _query_all_bridges (bridges self) route_params with
      | [] => (Ok [], self)
      | qs =>
          match _rank_routes qs (match preferences with Some p => p | None => [] end) with
          | Raise e => (Raise e, self)
          | Ok ranked_quotes =>
              (Ok ranked_quotes, _cache_quotes self now_store cache_key ranked_quotes)
          end
      end
  end.

(** [get_bridge_by_name]: the first adapter of that name, in whatever
    letter case. *)
Fixpoint get_bridge_by_name (bs : list BaseBridge) (bridge_name : string)
  : option BaseBridge :=
  match bs with
  | [] => None
  | bridge :: r =>
      if String.eqb (lower (name bridge)) (lower bridge_name) then Some bridge
      else get_bridge_by_name r bridge_name
  end.

End route_discovery.

(* ================================================================== *)
(** * [app/services/multi_hop_router.py] *)
(* ================================================================== *)

Module multi_hop_router.

Import Py.

(** The quote [dict] of a bridge client, by the keys of the format
    documented in [bridge_clients/base.py]; [None] is an absent key. *)
Record Quote : Type := {
  bridge_name : option string;
  estimated_cost_usd : option float;
  estimated_time_minutes : option Z;
  amount_out : option string;
  gas_cost_usd : option float;
  gas_cost_native : option string;
  slippage : option float;
  route_type : option string
}.

(** [bool(quote)]: a [dict] is true when it has a key. *)
Definition quote_truthy (q : Quote) : bool :=
  match bridge_name q, estimated_cost_usd q, estimated_time_minutes q, amount_out q,
        gas_cost_usd q, gas_cost_native q, slippage q, route_type q with
  | None, None, None, None, None, None, None, None => false
  | _, _, _, _, _, _, _, _ => true
  end.

(** [quote["bridge_name"] = v] *)
Definition set_bridge_name (q : Quote) (v : string) : Quote :=
  {| bridge_name := Some v;
     estimated_cost_usd := estimated_cost_usd q;
     estimated_time_minutes := estimated_time_minutes q;
     amount_out := amount_out q;
     gas_cost_usd := gas_cost_usd q;
     gas_cost_native := gas_cost_native q;
     slippage := slippage q;
     route_type := route_type q |}.

(** What awaiting [client.get_quote(...)] comes to. *)
Inductive client_outcome : Type :=
| Returned (q : option Quote)
| Raised (e : exn).

Record BridgeClient : Type := {
  get_quote : string -> string -> string -> string -> client_outcome
}.

Record RouteHop : Type := {
  hop_source_chain : string;
  hop_destination_chain : string;
  hop_bridge_name : option string;
  hop_token : string;
  hop_amount_in : string;
  hop_amount_out : string;
  hop_estimated_cost_usd : float;
  hop_estimated_time_minutes : Z;
  hop_gas_cost_native : string;
  hop_gas_cost_usd : float
}.

Record MultiHopRoute : Type := {
  hops : list RouteHop;
  total_cost_usd : float;
  total_time_minutes : Z;
  final_amount : string;
  slippage_percent : float;
  is_better_than_direct : bool;
  savings_usd : option float
}.

(** The router: its clients by name, in the order of the [dict], and the
    intermediate chains it tries. *)
Record MultiHopRouter : Type := {
  bridges : dict BridgeClient;
  intermediate_chains : list string
}.

Definition default_intermediate_chains : list string :=
  ["ethereum"; "arbitrum"; "optimism"; "polygon"; "base"].

Definition _get_quote_safe (client : BridgeClient) (name : string)
  (source_chain destination_chain token amount : string) : option Quote :=
  match get_quote client source_chain destination_chain token amount with
  | Returned (Some quote) =>
      if quote_truthy quote then Some (set_bridge_name quote name) else Some quote
  | Returned None => None
  | Raised _ => None
  end.

Fixpoint _get_direct_quotes (bs : dict BridgeClient)
  (source_chain destination_chain token amount : string) : list Quote :=
  match bs with
  | [] => []
  | (name, client) :: r =>
      match _get_quote_safe client name source_chain destination_chain token amount with
      | Some q => q :: _get_direct_quotes r source_chain destination_chain token amount
      | None => _get_direct_quotes r source_chain destination_chain token amount
      end
  end.

(** [x.get("estimated_cost_usd", float('inf'))] *)
Definition cost_or_inf (q : Quote) : float :=
  match estimated_cost_usd q with Some c => c | None => infinity end.

Definition get_or {A : Type} (o : option A) (default : A) : A :=
  match o with Some a => a | None => default end.

(** The body of the [try]; an exception makes the caller return [None]. *)
Definition two_hop_body (self : MultiHopRouter)
  (source intermediate destination token amount : string)
  : result (option MultiHopRoute) :=
  let hop1_quotes := _get_direct_quotes (bridges self) source intermediate token amount in
  match min_by cost_or_inf hop1_quotes with
  | None => Ok None
  | Some hop1_best =>
      let hop1_output := get_or (amount_out hop1_best) "0" in
      if String.eqb hop1_output "" || String.eqb hop1_output "0" then Ok None
      else
        let hop2_quotes :=
          _get_direct_quotes (bridges self) intermediate destination token hop1_output in
        match min_by cost_or_inf hop2_quotes with
        | None => Ok None
        | Some hop2_best =>
            let hop1 :=
              {| hop_source_chain := source;
                 hop_destination_chain := intermediate;
                 hop_bridge_name := bridge_name hop1_best;
                 hop_token := token;
                 hop_amount_in := amount;
                 hop_amount_out := hop1_output;
                 hop_estimated_cost_usd := get_or (estimated_cost_usd hop1_best) 0%float;
                 hop_estimated_time_minutes := get_or (estimated_time_minutes hop1_best) 0;
                 hop_gas_cost_native := get_or (gas_cost_native hop1_best) "0";
                 hop_gas_cost_usd := get_or (gas_cost_usd hop1_best) 0%float |} in
            let hop2 :=
              {| hop_source_chain := intermediate;
                 hop_destination_chain := destination;
                 hop_bridge_name := bridge_name hop2_best;
                 hop_token := token;
                 hop_amount_in := hop1_output;
                 hop_amount_out := get_or (amount_out hop2_best) "0";
                 hop_estimated_cost_usd := get_or (estimated_cost_usd hop2_best) 0%float;
                 hop_estimated_time_minutes := get_or (estimated_time_minutes hop2_best) 0;
                 hop_gas_cost_native := get_or (gas_cost_native hop2_best) "0";
                 hop_gas_cost_usd := get_or (gas_cost_usd hop2_best) 0%float |} in
            let total_cost :=
              (hop_estimated_cost_usd hop1 + hop_estimated_cost_usd hop2)%float in
            let total_time :=
              hop_estimated_time_minutes hop1 + hop_estimated_time_minutes hop2 in
            let final_amount := hop_amount_out hop2 in
            amount_float <- float_of_str amount ;;
            final_float <- float_of_str final_amount ;;
            slippage <-
              (if (0 <? amount_float)%float
               then
                 ratio <- float_truediv (amount_float - final_float) amount_float ;;
                 Ok (ratio * 100)%float
               else Ok 0%float) ;;
            Ok (Some {| hops := [hop1; hop2];
                        total_cost_usd := total_cost;
                        total_time_minutes := total_time;
                        final_amount := final_amount;
                        slippage_percent := round slippage 2;
                        is_better_than_direct := false;
                        savings_usd := None |})
        end
  end.

Definition _try_two_hop_route (self : MultiHopRouter)
  (source intermediate destination token amount : string) : option MultiHopRoute :=
  except (two_hop_body self source intermediate destination token amount) None.

(** One awaited [client.get_quote(...)]: the name of the client in
    [self.bridges] and the four arguments. *)
Definition call : Type := string * (string * string * string * string).

(** The calls one [_get_direct_quotes] makes: every client once, in the
    order of the [dict]. *)
Definition direct_calls (bs : dict BridgeClient)
  (source_chain destination_chain token amount : string) : list call :=
  map (fun entry => (fst entry, (source_chain, destination_chain, token, amount))) bs.

(** The calls [_try_two_hop_route] makes, in order: those of the first
    hop, then those of the second hop when the body gets that far. *)
Definition two_hop_calls (self : MultiHopRouter)
  (source intermediate destination token amount : string) : list call :=
  let hop1_calls := direct_calls (bridges self) source intermediate token amount in
  let hop1_quotes := _get_direct_quotes (bridges self) source intermediate token amount in
  match min_by cost_or_inf hop1_quotes with
  | None => hop1_calls
  | Some hop1_best =>
      let hop1_output := get_or (amount_out hop1_best) "0" in
      if String.eqb hop1_output "" || String.eqb hop1_output "0" then hop1_calls
      else
        hop1_calls
        ++ direct_calls (bridges self) intermediate destination token hop1_output
  end.

Fixpoint two_hop_loop (self : MultiHopRouter) (candidates : list string)
  (source_chain destination_chain token amount : string) : list MultiHopRoute :=
  match candidates with
  | [] => []
  | intermediate :: r =>
      let rest := two_hop_loop self r source_chain destination_chain token amount in
      if String.eqb intermediate source_chain || String.eqb intermediate destination_chain
      then rest
      else
        match _try_two_hop_route self source_chain intermediate destination_chain
                token amount with
        | Some route => route :: rest
        | None => rest
        end
  end.

Definition _find_multi_hop_routes (self : MultiHopRouter)
  (source_chain destination_chain token amount : string) (max_hops : Z)
  : list MultiHopRoute :=
  if 2 <=? max_hops
  then two_hop_loop self (intermediate_chains self) source_chain destination_chain
         token amount
  else [].

(** One entry of ["hops"] in the formatted route. *)
Record FormattedHop : Type := {
  hop_number : Z;
  f_source_chain : string;
  f_destination_chain : string;
  f_bridge_name : option string;
  f_token : string;
  f_amount_in : string;
  f_amount_out : string;
  f_estimated_cost_usd : float;
  f_estimated_time_minutes : Z;
  f_gas_cost_usd : float
}.

Record FormattedRoute : Type := {
  fr_route_type : string;
  fr_hops : list FormattedHop;
  fr_total_hops : Z;
  fr_total_cost_usd : float;
  fr_total_time_minutes : Z;
  fr_final_amount : string;
  fr_slippage_percent : float;
  fr_is_better_than_direct : bool;
  fr_savings_usd : option float
}.

Fixpoint format_hops (i : Z) (l : list RouteHop) : list FormattedHop :=
  match l with
  | [] => []
  | hop :: r =>
      {| hop_number := i + 1;
         f_source_chain := hop_source_chain hop;
         f_destination_chain := hop_destination_chain hop;
         f_bridge_name := hop_bridge_name hop;
         f_token := hop_token hop;
         f_amount_in := hop_amount_in hop;
         f_amount_out := hop_amount_out hop;
         f_estimated_cost_usd := hop_estimated_cost_usd hop;
         f_estimated_time_minutes := hop_estimated_time_minutes hop;
         f_gas_cost_usd := hop_gas_cost_usd hop |} :: format_hops (i + 1) r
  end.

Definition _format_multi_hop_route (route : MultiHopRoute) : FormattedRoute :=
  {| fr_route_type := "multi-hop";
     fr_hops := format_hops 0 (hops route);
     fr_total_hops := len (hops route);
     fr_total_cost_usd := total_cost_usd route;
     fr_total_time_minutes := total_time_minutes route;
     fr_final_amount := final_amount route;
     fr_slippage_percent := slippage_percent route;
     fr_is_better_than_direct := is_better_than_direct route;
     fr_savings_usd := savings_usd route |}.

(** A route in the answer: a client's quote, or a formatted multi-hop
    route. *)
Inductive route_value : Type :=
| Direct (q : Quote)
| MultiHop (r : FormattedRoute).

(** The answer of [find_best_route], key by key; an outer [None] is a key
    the returned [dict] does not have, ["best_route"] and ["savings_usd"]
    can hold [None]. *)
Record BestRoute : Type := {
  res_route_type : string;
  best_route : option route_value;
  alternatives : list route_value;
  multi_hop_checked : option bool;
  direct_savings_usd : option float;
  res_savings_usd : option (option float)
}.

Definition find_best_route (self : MultiHopRouter)
  (source_chain destination_chain token amount : string)
  (max_hops : Z) (include_multi_hop : bool) : BestRoute :=
  let direct_quotes :=
    _get_direct_quotes (bridges self) source_chain destination_chain token amount in
  let direct_best := min_by cost_or_inf direct_quotes in
  let direct_cost :=
    match direct_best with Some q => cost_or_inf q | None => infinity end in
  if negb include_multi_hop || (max_hops <? 2) then
    {| res_route_type := "direct";
       best_route := option_map Direct direct_best;
       alternatives := [];
       multi_hop_checked := None;
       direct_savings_usd := None;
       res_savings_usd := None |}
  else
    let multi_hop_routes :=
      _find_multi_hop_routes self source_chain destination_chain token amount max_hops in
    match min_by total_cost_usd multi_hop_routes with
    | None =>
        {| res_route_type := "direct";
           best_route := option_map Direct direct_best;
           alternatives := [];
           multi_hop_checked := Some true;
           direct_savings_usd := None;
           res_savings_usd := None |}
    | Some best_multi_hop =>
        let direct_truthy :=
          match direct_best with Some q => quote_truthy q | None => false end in
        if direct_truthy && (direct_cost <=? total_cost_usd best_multi_hop)%float then
          {| res_route_type := "direct";
             best_route := option_map Direct direct_best;
             alternatives := [MultiHop (_format_multi_hop_route best_multi_hop)];
             multi_hop_checked := Some true;
             direct_savings_usd :=
               Some (round (total_cost_usd best_multi_hop - direct_cost)%float 2);
             res_savings_usd := None |}
        else
          let savings :=
            if direct_truthy
            then Some (direct_cost - total_cost_usd best_multi_hop)%float
            else None in
          {| res_route_type := "multi-hop";
             best_route := Some (MultiHop (_format_multi_hop_route best_multi_hop));
             alternatives :=
               match direct_best with
               | Some q => if quote_truthy q then [Direct q] else []
               | None => []
               end;
             multi_hop_checked := Some true;
             direct_savings_usd := None;
             res_savings_usd :=
               Some match savings with
                    | Some x => if (x =? 0)%float then None else Some (round x 2)
                    | None => None
                    end |}
    end.

End multi_hop_router.

(* ================================================================== *)
(** * [app/services/reliability_scorer.py] *)
(* ================================================================== *)

Module reliability_scorer.

Import Py.

(** The columns of [TransactionHistory] the scorer reads; a nullable
    column is an [option]. *)
Record TransactionHistory : Type := {
  selected_bridge : option string;
  status : option string;
  actual_cost_usd : option float;
  actual_time_minutes : option Z
}.

Definition is_completed (t : TransactionHistory) : bool :=
  match status t with
  | Some s => String.eqb s "completed"
  | None => false
  end.

(** [t.status == "completed" and t.actual_time_minutes] as a condition. *)
Definition has_time (t : TransactionHistory) : bool :=
  is_completed t
  && match actual_time_minutes t with
     | Some n => negb (n =? 0)
     | None => false
     end.

Definition time_of (t : TransactionHistory) : Z :=
  match actual_time_minutes t with Some n => n | None => 0 end.

Section Scorer.

(** The [pow] of the C library, which [**] ends in (see [Py.float_sq]). *)
Variable libm_pow : float -> float -> float * Z.

(** [(t - avg_time) ** 2] for an [int] [t]. *)
Definition sq_dev (avg_time : float) (t : Z) : result float :=
  x <- float_of_int t ;; float_sq libm_pow (x - avg_time)%float.

Definition _calculate_time_consistency_score (transactions : list TransactionHistory)
  : result float :=
  let completed := filter has_time transactions in
  if len completed <? 3 then Ok 50.0%float
  else
    let times := map time_of completed in
    avg_time <- int_truediv (int_sum times) (len times) ;;
    if (avg_time =? 0)%float then Ok 50.0%float
    else
      devs <- mapM (sq_dev avg_time) times ;;
      n <- float_of_int (len times) ;;
      variance <- float_truediv (float_sum devs) n ;;
      std_dev <- float_root libm_pow variance ;;
      ratio <- float_truediv std_dev avg_time ;;
      let cv := (ratio * 100)%float in
      let score := max0 (100 - cv * 2)%float in
      Ok score.

Definition _get_rating (score : float) : string :=
  if (90 <=? score)%float then "A+"
  else if (85 <=? score)%float then "A"
  else if (80 <=? score)%float then "A-"
  else if (75 <=? score)%float then "B+"
  else if (70 <=? score)%float then "B"
  else if (65 <=? score)%float then "B-"
  else if (60 <=? score)%float then "C+"
  else if (55 <=? score)%float then "C"
  else if (50 <=? score)%float then "C-"
  else "D".

(** [_calculate_success_score]: the share of completed transactions as a
    percentage, taken for 100 from 98 on. *)
Definition _calculate_success_score (transactions : list TransactionHistory)
  : result float :=
  match transactions with
  | [] => Ok 0.0%float
  | _ :: _ =>
      let completed := len (filter is_completed transactions) in
      ratio <- int_truediv completed (len transactions) ;;
      let success_rate := (ratio * 100)%float in
      if (98 <=? success_rate)%float then Ok 100.0%float else Ok success_rate
  end.

(** [t.actual_cost_usd] as a condition: not [None] and not zero. *)
Definition has_cost (t : TransactionHistory) : bool :=
  match actual_cost_usd t with
  | Some c => negb (c =? 0)%float
  | None => false
  end.

Definition cost_of (t : TransactionHistory) : float :=
  match actual_cost_usd t with Some c => c | None => 0%float end.

(** [(c - avg_cost) ** 2] *)
Definition sq_dev_cost (avg_cost c : float) : result float :=
  float_sq libm_pow (c - avg_cost)%float.

Definition _calculate_cost_consistency_score (transactions : list TransactionHistory)
  : result float :=
  let costs := map cost_of (filter has_cost transactions) in
  if len costs <? 3 then Ok 50.0%float
  else
    n <- float_of_int (len costs) ;;
    avg_cost <- float_truediv (float_sum costs) n ;;
    if (avg_cost =? 0)%float then Ok 50.0%float
    else
      devs <- mapM (sq_dev_cost avg_cost) costs ;;
      n <- float_of_int (len costs) ;;
      variance <- float_truediv (float_sum devs) n ;;
      std_dev <- float_root libm_pow variance ;;
      ratio <- float_truediv std_dev avg_cost ;;
      let cv := (ratio * 100)%float in
      let score := max0 (100 - cv * 2)%float in
      Ok score.

Definition _get_recommendation (overall success time cost : float) : string :=
  if (90 <=? overall)%float then
    "Highly recommended - Excellent reliability and performance across all metrics"
  else if (80 <=? overall)%float then
    "Recommended - Good overall performance with minor inconsistencies"
  else if (70 <=? overall)%float then
    if (success <? 90)%float then
      "Acceptable with caution - Lower success rate than ideal"
    else if (time <? 70)%float then
      "Acceptable - Completion times can vary significantly"
    else if (cost <? 70)%float then
      "Acceptable - Costs can vary significantly"
    else "Acceptable - Monitor for improvements"
  else if (60 <=? overall)%float then
    "Use with caution - Below average reliability, consider alternatives"
  else "Not recommended - Poor reliability, high risk of issues".

End Scorer.

End reliability_scorer.

(* ================================================================== *)
(** * The quantities the specification names *)
(* ================================================================== *)

(** The ranking score of section 4.2, written from the specification: the
    cost and the time of a quote are set against the largest cost and the
    largest time of its batch. *)
Module ranking_spec.

Import Py base.

Definition max_cost (batch : list BridgeQuote) : float :=
  match float_max (map route_discovery.quote_cost batch) with
  | Some m => m
  | None => 1%float
  end.

Definition max_time (batch : list BridgeQuote) : Z :=
  match int_max (map estimated_time_seconds batch) with
  | Some m => m
  | None => 1
  end.

Definition cost_score (batch : list BridgeQuote) (q : BridgeQuote) : float :=
  (100 * (1 - route_discovery.quote_cost q / max_cost batch))%float.

Definition speed_score (batch : list BridgeQuote) (q : BridgeQuote) : float :=
  (100 * (1 - float_of_ratio (estimated_time_seconds q) (max_time batch)))%float.

Definition reliability_score (q : BridgeQuote) : float :=
  float_of_Decimal (success_rate q).

Definition liquidity_score : float := 100%float.

Definition cost_weight (prefs : dict float) : float :=
  dict_get prefs "cost_weight" 0.40%float.
Definition speed_weight (prefs : dict float) : float :=
  dict_get prefs "speed_weight" 0.30%float.
Definition reliability_weight (prefs : dict float) : float :=
  dict_get prefs "reliability_weight" 0.20%float.
Definition liquidity_weight (prefs : dict float) : float :=
  dict_get prefs "liquidity_weight" 0.10%float.

Definition weighted_score (batch : list BridgeQuote) (prefs : dict float)
  (q : BridgeQuote) : float :=
  (cost_score batch q * cost_weight prefs
   + speed_score batch q * speed_weight prefs
   + reliability_score q * reliability_weight prefs
   + liquidity_score * liquidity_weight prefs)%float.

(** [a] is ranked no lower than [b]. *)
Definition outranks (batch : list BridgeQuote) (prefs : dict float)
  (a b : BridgeQuote) : Prop :=
  (weighted_score batch prefs b <=? weighted_score batch prefs a)%float = true.


End ranking_spec.

(** The invariants of section 3. *)
Module invariants.

Import Py.

(** The total of a quote is the sum of its three fees. *)
Definition fees_add_up (q : base.BridgeQuote) : Prop :=
  let fb := base.fee_breakdown q in
  base.dec_sum3 (base.bridge_fee_usd fb) (base.gas_cost_source_usd fb)
    (base.gas_cost_destination_usd fb)
  = Ok (base.total_cost_usd fb).

(** The total of a two-hop route is the sum of the costs of its hops. *)
Definition hops_add_up (r : multi_hop_router.MultiHopRoute) : Prop :=
  exists h1 h2,
    multi_hop_router.hops r = [h1; h2]
    /\ multi_hop_router.total_cost_usd r
       = (multi_hop_router.hop_estimated_cost_usd h1
          + multi_hop_router.hop_estimated_cost_usd h2)%float.

End invariants.

(** The outcome of a discovery call, section 4.2, step 4. *)
Module discovery_spec.

Import Py base route_discovery.

(** The call ends in an error raised to the caller. *)
Definition signals_error {A : Type} (r : result A) : Prop :=
  exists e, r = Raise e.

(** No adapter produces a quote: each declines, fails or times out. *)
Definition no_quotes (self : RouteDiscoveryEngine) (route_params : RouteParams) : Prop :=
  Forall (fun bridge => _query_bridge_with_timeout bridge route_params = None)
         (bridges self).

(** The cache has no live entry for the request. *)
Definition cache_miss (self : RouteDiscoveryEngine) (now : Z) (route_params : RouteParams)
  : Prop :=
  fst (_get_cached_quote self now (_get_cache_key route_params)) = None.

(** The engine as the cache lookup leaves it. *)
Definition after_lookup (self : RouteDiscoveryEngine) (now : Z)
  (route_params : RouteParams) : RouteDiscoveryEngine :=
  snd (_get_cached_quote self now (_get_cache_key route_params)).

End discovery_spec.

(** The cache fingerprint of section 4.2, step 1. *)
Module fingerprint_spec.

Import Py base.

(** Two requests that differ at most in the letter case of their chain
    names and token addresses. *)
Definition same_up_to_case (p q : RouteParams) : Prop :=
  lower (source_chain p) = lower (source_chain q)
  /\ lower (destination_chain p) = lower (destination_chain q)
  /\ lower (source_token p) = lower (source_token q)
  /\ lower (destination_token p) = lower (destination_token q)
  /\ amount p = amount q.

(** Two requests with the same five fields, letter for letter. *)
Definition same_fields (p q : RouteParams) : Prop :=
  source_chain p = source_chain q
  /\ destination_chain p = destination_chain q
  /\ source_token p = source_token q
  /\ destination_token p = destination_token q
  /\ amount p = amount q.

End fingerprint_spec.

(** The time-consistency component and the letter rating of section 4.4. *)
Module scoring_spec.

Import Py reliability_scorer.

(** A completed transaction that carries a completion time: its status
    is ["completed"] and a time is recorded, whatever the time. *)
Definition carries_time (t : TransactionHistory) : bool :=
  is_completed t
  && match actual_time_minutes t with
     | Some _ => true
     | None => false
     end.

(** The completion times of the window. *)
Definition completion_times (transactions : list TransactionHistory) : list Z :=
  map time_of (filter carries_time transactions).

(** No completed transaction of the window has a recorded time of 0. *)
Definition times_nonzero (transactions : list TransactionHistory) : Prop :=
  Forall (fun t => is_completed t = true -> actual_time_minutes t <> Some 0)
    transactions.

Definition mean (times : list Z) : result float :=
  int_truediv (int_sum times) (len times).

(** The population standard deviation around [mu]: the root of the mean
    of the squared deviations, root and square being the [** 0.5] and
    [** 2] of the interpreter over the [pow] of its C library. *)
Definition pstdev (libm_pow : float -> float -> float * Z) (times : list Z)
  (mu : float) : result float :=
  squares <-
    mapM (fun t => x <- float_of_int t ;; float_sq libm_pow (x - mu)%float) times ;;
  n <- float_of_int (len times) ;;
  variance <- float_truediv (float_sum squares) n ;;
  float_root libm_pow variance.

(** The coefficient of variation as the glossary has it, a ratio. *)
Definition cv_ratio (sigma mu : float) : float := (sigma / mu)%float.

(** The same as a percentage. *)
Definition cv_percent (sigma mu : float) : float := (sigma / mu * 100)%float.

(** [100 - 2 * cv], floored at 0. *)
Definition consistency (cv : float) : float := max0 (100 - cv * 2)%float.

Definition rating_thresholds : list (float * string) :=
  [ (90%float, "A+"); (85%float, "A"); (80%float, "A-"); (75%float, "B+");
    (70%float, "B"); (65%float, "B-"); (60%float, "C+"); (55%float, "C");
    (50%float, "C-") ].

(** The rating of the first threshold the score reaches, ["D"] if none. *)
Fixpoint first_reached (score : float) (table : list (float * string)) : string :=
  match table with
  | [] => "D"
  | (t, r) :: rest => if (t <=? score)%float then r else first_reached score rest
  end.

End scoring_spec.

(* ================================================================== *)
(** * Sample data *)
(* ================================================================== *)

Module two_hop_spec.

Import Py multi_hop_router.

(** The cheapest quote of the first hop. *)
Definition first_hop_best (self : MultiHopRouter)
  (source intermediate token amount : string) : option Quote :=
  min_by cost_or_inf (_get_direct_quotes (bridges self) source intermediate token amount).

(** The cheapest quote of the second hop, asked for the amount [sent]. *)
Definition second_hop_best (self : MultiHopRouter)
  (intermediate destination token sent : string) : option Quote :=
  min_by cost_or_inf (_get_direct_quotes (bridges self) intermediate destination token sent).

(** A quote that carries no output amount, or an output amount of ["0"]. *)
Definition no_output (q : Quote) : Prop :=
  amount_out q = None \/ amount_out q = Some ""%string \/ amount_out q = Some "0"%string.

End two_hop_spec.

Module samples.

Import Py.

(** A quote of total cost [cost] taking [time] seconds. *)
Definition quote (name cost : string) (time : Z) (success : string) : base.BridgeQuote :=
  {| base.bridge_name := name;
     base.protocol := lower name;
     base.route_type := "direct";
     base.estimated_time_seconds := time;
     base.fee_breakdown :=
       {| base.bridge_fee_usd := Decimal_lit cost;
          base.gas_cost_source_usd := Decimal_lit "0";
          base.gas_cost_destination_usd := Decimal_lit "0";
          base.total_cost_usd := Decimal_lit cost;
          base.slippage_percentage := None |};
     base.success_rate := Decimal_lit success;
     base.steps := [];
     base.requires_approval := false;
     base.minimum_amount := None;
     base.maximum_amount := None;
     base.quote_id := None;
     base.metadata := None |}.

(** The scenario of section 8: $5 in 180 s, $8 in 90 s, $6 in 240 s. *)
Definition three_quotes : list base.BridgeQuote :=
  [ quote "A" "5" 180 "100"; quote "B" "8" 90 "100"; quote "C" "6" 240 "100" ].



Definition usdc_request (source_token : string) : base.RouteParams :=
  {| base.source_chain := "ethereum";
     base.destination_chain := "arbitrum";
     base.source_token := source_token;
     base.destination_token := "0xFF970A61A04b1cA14834A43f5dE4533eBDDB5CC8";
     base.amount := "1000000000";
     base.user_address := None |}.

(** An adapter that declines every route. *)
Definition declining_bridge : base.BaseBridge :=
  {| base.name := "Declining"; base.get_quote := fun _ => base.Returned None |}.

Definition idle_engine : route_discovery.RouteDiscoveryEngine :=
  {| route_discovery.bridges := [declining_bridge];
     route_discovery.quote_cache := [];
     route_discovery.cache_ttl_seconds := 30 |}.

(** A client quoting a fixed cost per leg: [direct] from ["avalanche"] to
    ["fantom"], 3 for the leg into ["ethereum"], 4 for the leg out of it,
    nothing else. *)
Definition leg (cost : float) (out : string) : multi_hop_router.Quote :=
  {| multi_hop_router.bridge_name := None;
     multi_hop_router.estimated_cost_usd := Some cost;
     multi_hop_router.estimated_time_minutes := Some 5;
     multi_hop_router.amount_out := Some out;
     multi_hop_router.gas_cost_usd := Some 1%float;
     multi_hop_router.gas_cost_native := Some "0.001";
     multi_hop_router.slippage := Some 0.1%float;
     multi_hop_router.route_type := Some "direct" |}.

Definition fixed_client (direct : float) : multi_hop_router.BridgeClient :=
  {| multi_hop_router.get_quote := fun source destination token amount =>
       multi_hop_router.Returned
         (if String.eqb source "avalanche" && String.eqb destination "fantom"
          then Some (leg direct "999000")
          else if String.eqb source "avalanche" && String.eqb destination "ethereum"
          then Some (leg 3%float "998000")
          else if String.eqb source "ethereum" && String.eqb destination "fantom"
          then Some (leg 4%float "996000")
          else None) |}.

Definition router (direct : float) : multi_hop_router.MultiHopRouter :=
  {| multi_hop_router.bridges := [("fixed", fixed_client direct)];
     multi_hop_router.intermediate_chains :=
       multi_hop_router.default_intermediate_chains |}.

(** A client whose quotes deliver nothing: the output amount is ["0"]. *)
Definition drained_client : multi_hop_router.BridgeClient :=
  {| multi_hop_router.get_quote := fun source destination token amount =>
       multi_hop_router.Returned (Some (leg 3%float "0")) |}.

Definition drained_router : multi_hop_router.MultiHopRouter :=
  {| multi_hop_router.bridges := [("drained", drained_client)];
     multi_hop_router.intermediate_chains :=
       multi_hop_router.default_intermediate_chains |}.

Definition transaction (minutes : Z) : reliability_scorer.TransactionHistory :=
  {| reliability_scorer.selected_bridge := Some "hop";
     reliability_scorer.status := Some "completed";
     reliability_scorer.actual_cost_usd := Some 2%float;
     reliability_scorer.actual_time_minutes := Some minutes |}.

(** Four completed transfers of 3, 5, 3 and 5 minutes: mean 4, standard
    deviation 1. *)
Definition window : list reliability_scorer.TransactionHistory :=
  map transaction [3; 5; 3; 5].

(** An adapter that always answers with the quote [q]; an engine with one
    such adapter for each of the three sample quotes. *)
Definition quoting_bridge (q : base.BridgeQuote) : base.BaseBridge :=
  {| base.name := base.bridge_name q;
     base.get_quote := fun _ => base.Returned (Some q) |}.

Definition quoting_engine : route_discovery.RouteDiscoveryEngine :=
  {| route_discovery.bridges := map quoting_bridge three_quotes;
     route_discovery.quote_cache := [];
     route_discovery.cache_ttl_seconds := 30 |}.

(** An engine whose cache is full: 1000 entries, stored at seconds 1 to 1000. *)
Definition full_engine : route_discovery.RouteDiscoveryEngine :=
  {| route_discovery.bridges := [declining_bridge];
     route_discovery.quote_cache :=
       map (fun i => (str_of_int (Z.of_nat i),
                      {| route_discovery.timestamp := Z.of_nat i * 1000000;
                         route_discovery.quotes := [] |}))
           (seq 1 1000);
     route_discovery.cache_ttl_seconds := 30 |}.

(** An adapter whose request fails. *)
Definition failing_bridge : base.BaseBridge :=
  {| base.name := "Failing"; base.get_quote := fun _ => base.Raised TypeError |}.

(** A router with no client at all. *)
Definition empty_router : multi_hop_router.MultiHopRouter :=
  {| multi_hop_router.bridges := [];
     multi_hop_router.intermediate_chains :=
       multi_hop_router.default_intermediate_chains |}.

(** A transaction of the bridge with its status and, when it completed,
    its cost and its time. *)
Definition outcome (status : string) (cost : option float) (minutes : option Z)
  : reliability_scorer.TransactionHistory :=
  {| reliability_scorer.selected_bridge := Some "hop";
     reliability_scorer.status := Some status;
     reliability_scorer.actual_cost_usd := cost;
     reliability_scorer.actual_time_minutes := minutes |}.

(** Completed transfers of 0, 3 and 5 minutes. *)
Definition instant_window : list reliability_scorer.TransactionHistory :=
  map transaction [0; 3; 5].

(** A C library whose [pow] is correctly rounded at the two exponents the
    scorer uses, and leaves [errno] alone. *)
Definition libm_pow (x y : float) : float * Z :=
  if (y =? 2)%float then ((x * x)%float, 0) else (sqrt x, 0).


(** Three completed transfers and one failed one. *)
Definition mixed_window : list reliability_scorer.TransactionHistory :=
  [ outcome "completed" (Some 2%float) (Some 4);
    outcome "failed" None None;
    outcome "completed" (Some 2.5%float) (Some 6);
    outcome "completed" (Some 3%float) (Some 5) ].

End samples.

(** The quote cache as a dictionary. *)
Module cache_spec.

Import Py base route_discovery.

(** A dictionary holds a key once. *)
Definition dict_wf {V : Type} (d : dict V) : Prop := NoDup (map fst d).

(** No entry was stored after the reading [now] of the clock. *)
Definition stored_by (now : Z) (cache : dict cache_entry) : Prop :=
  Forall (fun kv => timestamp (snd kv) <= now) cache.

(** The engine with other adapters registered. *)
Definition with_bridges (self : RouteDiscoveryEngine) (bs : list BaseBridge)
  : RouteDiscoveryEngine :=
  {| bridges := bs; quote_cache := quote_cache self;
     cache_ttl_seconds := cache_ttl_seconds self |}.

(** [del d[k]] for each key of a list, in order. *)
Definition del_many {V : Type} (ks : list string) (d : dict V) : dict V :=
  fold_left (fun c k => dict_del k c) ks d.

(** A digit of a lower-case hexadecimal number. *)
Definition hex_char (c : ascii) : bool :=
  is_digit c || ((97 <=? ord c) && (ord c <=? 102))%N.

End cache_spec.

(** The shape of the answers of the multi-hop router. *)
Module route_shape_spec.

Import Py multi_hop_router.


(** The cost the comparison reads off a route of the answer. *)
Definition route_cost (r : route_value) : float :=
  match r with
  | Direct q => cost_or_inf q
  | MultiHop f => fr_total_cost_usd f
  end.

(** The client registered as [entry] answers the request with [answer]. *)
Definition answers (source destination token amount : string)
  (entry : string * BridgeClient) (answer : Quote) : Prop :=
  get_quote (snd entry) source destination token amount = Returned (Some answer).

(** The same as a test: the client returns a quote, neither [None] nor an
    exception. *)
Definition has_answer (source destination token amount : string)
  (entry : string * BridgeClient) : bool :=
  match get_quote (snd entry) source destination token amount with
  | Returned (Some _) => true
  | _ => false
  end.

(** [q] is [answer] under the name [name]: every field of [answer] but
    ["bridge_name"], which is [name]; an answer without any key stays as
    it is. *)
Definition renamed (name : string) (answer q : Quote) : Prop :=
  if quote_truthy answer then q = set_bridge_name answer name else q = answer.

End route_shape_spec.

(** What every quote of an adapter has in common. *)
Module adapter_spec.

Import Py base.

(** A quote of the adapter [name]: a direct route under the adapter's
    name and protocol, with a positive time estimate. *)
Definition quoted_by (name protocol : string) (q : BridgeQuote) : Prop :=
  bridge_name q = name
  /\ base.protocol q = protocol
  /\ route_type q = "direct"%string
  /\ 0 < estimated_time_seconds q.

(** The route parameters name the same chain twice, in whatever case. *)
Definition same_chain (route_params : RouteParams) : Prop :=
  lower (source_chain route_params) = lower (destination_chain route_params).

(** The time of a quote lies in the range of a time estimate. *)
Definition within (estimate : TimeEstimate) (q : BridgeQuote) : Prop :=
  min_seconds estimate <= estimated_time_seconds q <= max_seconds estimate.

(** The estimate is in its own range. *)
Definition well_ordered (estimate : TimeEstimate) : Prop :=
  0 < min_seconds estimate
  /\ min_seconds estimate <= estimated_seconds estimate <= max_seconds estimate.

End adapter_spec.

(** Ratings in order and the recommendations that go with them. *)
Module rating_spec.

Import Py reliability_scorer.

(** The place of a rating on the scale, the best first. *)
Definition rating_rank (rating : string) : Z :=
  if String.eqb rating "A+" then 0
  else if String.eqb rating "A" then 1
  else if String.eqb rating "A-" then 2
  else if String.eqb rating "B+" then 3
  else if String.eqb rating "B" then 4
  else if String.eqb rating "B-" then 5
  else if String.eqb rating "C+" then 6
  else if String.eqb rating "C" then 7
  else if String.eqb rating "C-" then 8
  else 9.

(** The first word of a recommendation tells its kind. *)
Definition says (word recommendation : string) : Prop :=
  String.prefix word recommendation = true.

End rating_spec.

(* ================================================================== *)
(** * [app/schemas/route.py] *)
(* ================================================================== *)

Module schemas_route.

Import Py.

Definition allowed_chains : list string :=
  ["ethereum"; "arbitrum"; "optimism"; "polygon"; "base"].

(** [x in l] on a list of [str]s. *)
Definition str_in (x : string) (l : list string) : bool := existsb (String.eqb x) l.

(** The validator of [source_chain] and [destination_chain]. *)
Definition validate_chain (v : string) : result string :=
  if negb (str_in (lower v) allowed_chains) then Raise ValueError
  else Ok (lower v).

Record RouteQuoteRequest : Type := {
  source_chain : string;
  destination_chain : string;
  source_token : string;
  destination_token : string;
  amount : string;
  user_address : option string
}.

(** Building the model from the fields of the request body: the two chain
    names go through the validator, the other fields are taken as they
    are; a validator that raises makes the request invalid. *)
Definition parse_request (body : RouteQuoteRequest) : result RouteQuoteRequest :=
  source <- validate_chain (source_chain body) ;;
  destination <- validate_chain (destination_chain body) ;;
  Ok {| source_chain := source;
        destination_chain := destination;
        source_token := source_token body;
        destination_token := destination_token body;
        amount := amount body;
        user_address := user_address body |}.

Record CostBreakdown : Type := {
  bridge_fee_usd : float;
  gas_cost_source_usd : float;
  gas_cost_destination_usd : float;
  total_cost_usd : float;
  slippage_percentage : option float
}.

Record RouteOption : Type := {
  bridge_name : string;
  route_type : string;
  estimated_time_seconds : Z;
  cost_breakdown : CostBreakdown;
  success_rate : float;
  steps : list (dict string);
  requires_approval : bool;
  minimum_amount : option string;
  maximum_amount : option string
}.

Record RouteQuoteResponse : Type := {
  routes : list RouteOption;
  quote_id : string;
  expires_at : Z
}.

End schemas_route.

(* ================================================================== *)
(** * [app/api/v1/routes.py] *)
(* ================================================================== *)

Module api_routes.

Import Py.

(** What a handler ends in: the body of a 200 response, or an
    [HTTPException]. *)
Inductive outcome (A : Type) : Type :=
| Response (body : A)
| HTTPException (status_code : Z) (detail : string).

Arguments Response {A} body.
Arguments HTTPException {A} status_code detail.

(** What an [except Exception as e] clause of a handler can catch: an
    exception of the interpreter, or an [HTTPException] raised further up
    in the same [try]. *)
Inductive caught : Type :=
| Python (e : exn)
| Http (status_code : Z) (detail : string).

(** [bool(d)] for a [Decimal]: anything but a zero. *)
Definition Decimal_truthy (d : Decimal) : bool :=
  match d with
  | DFinite _ c _ => negb (c =? 0)%N
  | _ => true
  end.

Definition to_route_option (bridge_quote : base.BridgeQuote) : schemas_route.RouteOption :=
  let fb := base.fee_breakdown bridge_quote in
  {| schemas_route.bridge_name := base.bridge_name bridge_quote;
     schemas_route.route_type := base.route_type bridge_quote;
     schemas_route.estimated_time_seconds := base.estimated_time_seconds bridge_quote;
     schemas_route.cost_breakdown :=
       {| schemas_route.bridge_fee_usd := float_of_Decimal (base.bridge_fee_usd fb);
          schemas_route.gas_cost_source_usd :=
            float_of_Decimal (base.gas_cost_source_usd fb);
          schemas_route.gas_cost_destination_usd :=
            float_of_Decimal (base.gas_cost_destination_usd fb);
          schemas_route.total_cost_usd := float_of_Decimal (base.total_cost_usd fb);
          schemas_route.slippage_percentage :=
            match base.slippage_percentage fb with
            | Some s => if Decimal_truthy s then Some (float_of_Decimal s) else None
            | None => None
            end |};
     schemas_route.success_rate := float_of_Decimal (base.success_rate bridge_quote);
     schemas_route.steps := base.steps bridge_quote;
     schemas_route.requires_approval := base.requires_approval bridge_quote;
     schemas_route.minimum_amount := base.minimum_amount bridge_quote;
     schemas_route.maximum_amount := base.maximum_amount bridge_quote |}.

Section Handlers.

(** [str(e)] for what the handler caught, as the framework and the
    interpreter word it. *)
Variable str : caught -> string.

(** The body of [get_route_quote], for a request the framework has
    validated and a call its dependencies (database session, API key) have
    let through: [uuid_hex] is [uuid.uuid4().hex] and [now_seconds] the
    clock in whole seconds at the end; the engine comes back with its cache
    as the call left it. *)
Definition get_route_quote (engine : route_discovery.RouteDiscoveryEngine)
  (now_lookup now_store : Z) (uuid_hex : string) (now_seconds : Z)
  (request : schemas_route.RouteQuoteRequest)
  : outcome schemas_route.RouteQuoteResponse * route_discovery.RouteDiscoveryEngine :=
  let route_params :=
    {| base.source_chain := schemas_route.source_chain request;
       base.destination_chain := schemas_route.destination_chain request;
       base.source_token := schemas_route.source_token request;
       base.destination_token := schemas_route.destination_token request;
       base.amount := schemas_route.amount request;
       base.user_address := schemas_route.user_address request |} in
  let '(bridge_quotes, engine) :=
    route_discovery.discover_routes engine now_lookup now_store route_params None in
  let failed (e : caught) :=
    HTTPException 500 ("Failed to get route quote: " +++ str e) in
  match bridge_quotes with
  | Raise e => (failed (Python e), engine)
  | Ok [] =>
      (failed (Http 404
                 ("No routes found for " +++ schemas_route.source_chain request
                  +++ " -> " +++ schemas_route.destination_chain request)),
       engine)
  | Ok quotes =>
      (Response
         {| schemas_route.routes := map to_route_option quotes;
            schemas_route.quote_id := "quote_" +++ String.substring 0 16 uuid_hex;
            schemas_route.expires_at := now_seconds + 300 |},
       engine)
  end.

(** [get_multi_hop_routes]: an [HTTPException] of the body is raised
    again as it is. *)
Definition get_multi_hop_routes (router : multi_hop_router.MultiHopRouter)
  (source_chain destination_chain token amount : string) (max_hops : Z)
  (include_direct : bool) : outcome multi_hop_router.BestRoute :=
  if (max_hops <? 1) || (3 <? max_hops) then
    HTTPException 400 "max_hops must be between 1 and 3"
  else
    Response
      (multi_hop_router.find_best_route router source_chain destination_chain token
         amount max_hops (1 <? max_hops)).

End Handlers.

End api_routes.

(** The request on its way from the schema to the engine. *)
Module api_spec.

Import Py.

(** The route parameters the handler builds from a request. *)
Definition params_of (request : schemas_route.RouteQuoteRequest) : base.RouteParams :=
  {| base.source_chain := schemas_route.source_chain request;
     base.destination_chain := schemas_route.destination_chain request;
     base.source_token := schemas_route.source_token request;
     base.destination_token := schemas_route.destination_token request;
     base.amount := schemas_route.amount request;
     base.user_address := schemas_route.user_address request |}.

(** Two request bodies that differ at most in the letter case of their
    chain names and in the user address. *)
Definition same_but_chain_case (a b : schemas_route.RouteQuoteRequest) : Prop :=
  lower (schemas_route.source_chain a) = lower (schemas_route.source_chain b)
  /\ lower (schemas_route.destination_chain a) = lower (schemas_route.destination_chain b)
  /\ schemas_route.source_token a = schemas_route.source_token b
  /\ schemas_route.destination_token a = schemas_route.destination_token b
  /\ schemas_route.amount a = schemas_route.amount b.

End api_spec.

(** Sample requests. *)
Module api_samples.

Import Py.

(** The request body of the schema's example, with the chain names as
    given. *)
Definition request_body (source_chain destination_chain : string)
  : schemas_route.RouteQuoteRequest :=
  {| schemas_route.source_chain := source_chain;
     schemas_route.destination_chain := destination_chain;
     schemas_route.source_token := "0xA0b86991c6218b36c1d19D4a2e9Eb0cE3606eB48";
     schemas_route.destination_token := "0xFF970A61A04b1cA14834A43f5dE4533eBDDB5CC8";
     schemas_route.amount := "1000000000";
     schemas_route.user_address := None |}.

(** The wording of a caught exception, made up for the examples. *)
Definition wording (e : api_routes.caught) : string :=
  match e with
  | api_routes.Python _ => "error"
  | api_routes.Http status_code detail => str_of_int status_code +++ ": " +++ detail
  end.

End api_samples.

(** * Orders used in the statements *)

Module FloatOrder.

(** A non-NaN value as a point of a lexicographic order on triples: the
    class (infinities, signed finite values, zeros), then exponent and
    mantissa, both negated on the negative side. *)
Definition key (a : spec_float) : Z * Z * Z :=
  match a with
  | S754_nan => (0, 0, 0)
  | S754_zero _ => (0, 0, 0)
  | S754_infinity s => (if s then -2 else 2, 0, 0)
  | S754_finite s m e => if s then (-1, - e, - Zpos m) else (1, e, Zpos m)
  end.

Definition lt3 (p q : Z * Z * Z) : Prop :=
  let '(a1, a2, a3) := p in
  let '(b1, b2, b3) := q in
  a1 < b1 \/ (a1 = b1 /\ (a2 < b2 \/ (a2 = b2 /\ a3 < b3))).

Definition le3 (p q : Z * Z * Z) : Prop := lt3 p q \/ p = q.

Definition not_nan (a : spec_float) : Prop := a <> S754_nan.

(** The point of a primitive float. *)
Definition fkey (x : float) : Z * Z * Z := key (Prim2SF x).

End FloatOrder.

Module SortOrder.

Section Keyed.

Context {A : Type}.
Variable key : A -> float.

(** [a] may stand before [b] in a list sorted largest first. *)
Definition ge_key (a b : A) : Prop := (key b <=? key a)%float = true.

(** [a] may stand before [b] in a list sorted smallest first. *)
Definition le_key (a b : A) : Prop := (key a <=? key b)%float = true.

(** No key of the list is a NaN. *)
Definition numbers (l : list A) : Prop :=
  Forall (fun a => is_nan (key a) = false) l.

(** The elements whose key equals [s]. *)
Definition has_key (s : float) (a : A) : bool := (key a =? s)%float.

End Keyed.

End SortOrder.

(** * Facts *)

(** ** The runtime on known values *)

Module RuntimeFacts.

Import Py.

Example repr_tenth : float_repr 0.1 = "0.1"%string.
Proof. vm_compute. reflexivity. Qed.

Example repr_sum : float_repr (0.1 + 0.2) = "0.30000000000000004"%string.
Proof. vm_compute. reflexivity. Qed.

Example repr_large : float_repr 1e16 = "1e+16"%string.
Proof. vm_compute. reflexivity. Qed.

Example round_below_half : round 2.675 2 = 2.67%float.
Proof. vm_compute. reflexivity. Qed.

Example round_half_to_even : round 0.125 2 = 0.12%float.
Proof. vm_compute. reflexivity. Qed.

Example float_of_padded : float_of_str " 1_000.5e-3 " = Ok 1.0005%float.
Proof. vm_compute. reflexivity. Qed.

Example float_of_word : float_of_str "ten" = Raise ValueError.
Proof. vm_compute. reflexivity. Qed.

Example decimal_of_float : Decimal_of_float_str 0.25 = Ok (DFinite false 25 (-2)).
Proof. vm_compute. reflexivity. Qed.

Example decimal_sum :
  base.dec_sum3 (Decimal_lit "1.0") (Decimal_lit "5.0") (Decimal_lit "0.05")
  = Ok (DFinite false 605 (-2)).
Proof. vm_compute. reflexivity. Qed.

Example md5_empty : Hashlib.md5_hexdigest "" = "d41d8cd98f00b204e9800998ecf8427e"%string.
Proof. vm_compute. reflexivity. Qed.

Example md5_abc : Hashlib.md5_hexdigest "abc" = "900150983cd24fb0d6963f7d28e17f72"%string.
Proof. vm_compute. reflexivity. Qed.

Example sorted_largest_first :
  sort_reverse fst [(1%float, "a"); (3%float, "b"); (1%float, "c"); (2%float, "d")]%string
  = [(3%float, "b"); (2%float, "d"); (1%float, "a"); (1%float, "c")]%string.
Proof. vm_compute. reflexivity. Qed.

End RuntimeFacts.

Module FloatFacts.

Import FloatOrder.

Lemma SFcompare_key (a b : spec_float) :
  not_nan a -> not_nan b ->
  match SFcompare a b with
  | Some Lt => lt3 (key a) (key b)
  | Some Eq => key a = key b
  | Some Gt => lt3 (key b) (key a)
  | None => False
  end.
Proof.
  unfold not_nan; intros Ha Hb.
  destruct a as [sa|sa| |sa ma ea], b as [sb|sb| |sb mb eb];
    try congruence; cbn;
    try (destruct sa); try (destruct sb); cbn; try lia; try reflexivity.
  - destruct (Z.compare_spec ea eb); cbn; try lia.
    rewrite Pos.compare_cont_spec; cbn.
    destruct (Pos.compare_spec ma mb); cbn; subst; try lia. reflexivity.
  - destruct (Z.compare_spec ea eb); cbn; try lia.
    rewrite Pos.compare_cont_spec; cbn.
    destruct (Pos.compare_spec ma mb); cbn; subst; try lia. reflexivity.
Qed.


Lemma SFcompare_refl (a : spec_float) : not_nan a -> SFcompare a a = Some Eq.
Proof.
  intros Ha. pose proof (SFcompare_key a a Ha Ha) as H.
  destruct (SFcompare a a) as [[ | | ]|]; try reflexivity; try contradiction;
    exfalso; destruct (key a) as [[k1 k2] k3]; cbn in H; lia.
Qed.

Lemma lt3_irrefl p : ~ lt3 p p.
Proof. destruct p as [[a1 a2] a3]; cbn; lia. Qed.

Lemma lt3_trans p q r : lt3 p q -> lt3 q r -> lt3 p r.
Proof.
  destruct p as [[a1 a2] a3], q as [[b1 b2] b3], r as [[c1 c2] c3]; cbn; lia.
Qed.

Lemma lt3_asym p q : lt3 p q -> ~ lt3 q p.
Proof. intros H H'. exact (lt3_irrefl p (lt3_trans _ _ _ H H')). Qed.

Lemma lt3_total p q : lt3 p q \/ p = q \/ lt3 q p.
Proof.
  destruct p as [[a1 a2] a3], q as [[b1 b2] b3]; cbn.
  destruct (Z.lt_total a1 b1) as [H|[H|H]]; [lia| |lia].
  destruct (Z.lt_total a2 b2) as [H2|[H2|H2]]; [lia| |lia].
  destruct (Z.lt_total a3 b3) as [H3|[H3|H3]]; [lia| |lia].
  subst. right; left; reflexivity.
Qed.

Lemma le3_trans p q r : le3 p q -> le3 q r -> le3 p r.
Proof.
  unfold le3; intros [H|H] [H'|H']; subst; auto.
  left; eapply lt3_trans; eauto.
Qed.

(** ** The comparisons of primitive floats through [key] *)

Lemma is_nan_false (x : float) : is_nan x = false <-> not_nan (Prim2SF x).
Proof.
  unfold is_nan, not_nan. rewrite eqb_spec. unfold SFeqb. split.
  - intros H E. rewrite E in H. discriminate.
  - intros H. rewrite (SFcompare_refl _ H). reflexivity.
Qed.

Lemma is_nan_true (x : float) : is_nan x = true <-> Prim2SF x = S754_nan.
Proof.
  split; intros H.
  - destruct (Prim2SF x) eqn:E; try reflexivity;
      assert (N : is_nan x = false)
        by (apply is_nan_false; unfold not_nan; rewrite E; discriminate);
      congruence.
  - destruct (is_nan x) eqn:E; [reflexivity|].
    apply is_nan_false in E. contradiction.
Qed.

Section Compare.

Variables x y : float.
Hypothesis Hx : is_nan x = false.
Hypothesis Hy : is_nan y = false.

Lemma ltb_lt3 : (x <? y)%float = true <-> lt3 (fkey x) (fkey y).
Proof.
  rewrite ltb_spec. unfold SFltb, fkey.
  apply is_nan_false in Hx. apply is_nan_false in Hy.
  pose proof (SFcompare_key _ _ Hx Hy) as H.
  destruct (SFcompare (Prim2SF x) (Prim2SF y)) as [[ | | ]|]; split; intros G;
    try reflexivity; try discriminate; try assumption; try contradiction.
  - rewrite H in G. destruct (lt3_irrefl _ G).
  - destruct (lt3_asym _ _ H G).
Qed.

Lemma leb_le3 : (x <=? y)%float = true <-> le3 (fkey x) (fkey y).
Proof.
  rewrite leb_spec. unfold SFleb, fkey, le3.
  apply is_nan_false in Hx. apply is_nan_false in Hy.
  pose proof (SFcompare_key _ _ Hx Hy) as H.
  destruct (SFcompare (Prim2SF x) (Prim2SF y)) as [[ | | ]|]; split; intros G;
    try reflexivity; try discriminate; auto; try contradiction.
  destruct G as [G|G].
  - destruct (lt3_asym _ _ H G).
  - rewrite G in H. destruct (lt3_irrefl _ H).
Qed.

Lemma eqb_fkey : (x =? y)%float = true <-> fkey x = fkey y.
Proof.
  rewrite eqb_spec. unfold SFeqb, fkey.
  apply is_nan_false in Hx. apply is_nan_false in Hy.
  pose proof (SFcompare_key _ _ Hx Hy) as H.
  destruct (SFcompare (Prim2SF x) (Prim2SF y)) as [[ | | ]|]; split; intros G;
    try reflexivity; try discriminate; auto; try contradiction.
  - rewrite G in H. destruct (lt3_irrefl _ H).
  - rewrite G in H. destruct (lt3_irrefl _ H).
Qed.

End Compare.

(** A comparison that holds has no NaN on either side. *)
Lemma SFcompare_nan_l b : SFcompare S754_nan b = None.
Proof. reflexivity. Qed.

Lemma SFcompare_nan_r a : SFcompare a S754_nan = None.
Proof. destruct a; reflexivity. Qed.

Lemma eqb_not_nan x y : (x =? y)%float = true -> is_nan x = false /\ is_nan y = false.
Proof.
  rewrite eqb_spec. unfold SFeqb. intros H.
  split; destruct (is_nan _) eqn:E; auto; apply is_nan_true in E; rewrite E in H;
    [rewrite SFcompare_nan_l in H|rewrite SFcompare_nan_r in H]; discriminate.
Qed.

Lemma ltb_not_nan x y : (x <? y)%float = true -> is_nan x = false /\ is_nan y = false.
Proof.
  rewrite ltb_spec. unfold SFltb. intros H.
  split; destruct (is_nan _) eqn:E; auto; apply is_nan_true in E; rewrite E in H;
    [rewrite SFcompare_nan_l in H|rewrite SFcompare_nan_r in H]; discriminate.
Qed.

Lemma leb_not_nan x y : (x <=? y)%float = true -> is_nan x = false /\ is_nan y = false.
Proof.
  rewrite leb_spec. unfold SFleb. intros H.
  split; destruct (is_nan _) eqn:E; auto; apply is_nan_true in E; rewrite E in H;
    [rewrite SFcompare_nan_l in H|rewrite SFcompare_nan_r in H]; discriminate.
Qed.

(** ** The order facts the sorting proofs use *)

Lemma ltb_leb x y : (x <? y)%float = true -> (x <=? y)%float = true.
Proof.
  intros H. destruct (ltb_not_nan _ _ H) as [Hx Hy].
  apply (leb_le3 x y Hx Hy). left. apply (ltb_lt3 x y Hx Hy). exact H.
Qed.

Lemma not_ltb_leb x y :
  is_nan x = false -> is_nan y = false ->
  (x <? y)%float = false -> (y <=? x)%float = true.
Proof.
  intros Hx Hy H. apply (leb_le3 y x Hy Hx).
  destruct (lt3_total (fkey y) (fkey x)) as [G|[G|G]].
  - left; exact G.
  - right; exact G.
  - apply (ltb_lt3 x y Hx Hy) in G. congruence.
Qed.

Lemma leb_trans x y z :
  (x <=? y)%float = true -> (y <=? z)%float = true -> (x <=? z)%float = true.
Proof.
  intros H1 H2.
  destruct (leb_not_nan _ _ H1) as [Hx Hy]. destruct (leb_not_nan _ _ H2) as [_ Hz].
  apply (leb_le3 x z Hx Hz).
  apply (le3_trans _ (fkey y)); [apply (leb_le3 x y Hx Hy)|apply (leb_le3 y z Hy Hz)];
    assumption.
Qed.

Lemma ltb_not_eqb x y : (x <? y)%float = true -> (y =? x)%float = false.
Proof.
  intros H. destruct (ltb_not_nan _ _ H) as [Hx Hy].
  destruct (y =? x)%float eqn:E; [|reflexivity].
  apply (eqb_fkey y x Hy Hx) in E. apply (ltb_lt3 x y Hx Hy) in H.
  rewrite E in H. destruct (lt3_irrefl _ H).
Qed.

Lemma eqb_not_ltb x y s :
  (x =? s)%float = true -> (y =? s)%float = true -> (x <? y)%float = false.
Proof.
  intros H1 H2.
  destruct (eqb_not_nan _ _ H1) as [Hx Hs]. destruct (eqb_not_nan _ _ H2) as [Hy _].
  apply (eqb_fkey x s Hx Hs) in H1. apply (eqb_fkey y s Hy Hs) in H2.
  destruct (x <? y)%float eqn:E; [|reflexivity].
  apply (ltb_lt3 x y Hx Hy) in E. rewrite H1, H2 in E. destruct (lt3_irrefl _ E).
Qed.

End FloatFacts.

Module SortFacts.

Import Py FloatOrder FloatFacts.

(** ** Lists cut at a position *)

Lemma split_at {A : Type} (p : nat) (a : list A) (d : A) :
  (p < List.length a)%nat ->
  firstn (S p) a = firstn p a ++ [nth p a d]
  /\ skipn p a = nth p a d :: skipn (S p) a.
Proof.
  revert a. induction p as [|p IH]; intros [|x a] H; cbn in H; try lia.
  - split; reflexivity.
  - destruct (IH a ltac:(lia)) as [H1 H2]. split.
    + change (x :: firstn (S p) a = (x :: firstn p a) ++ [nth p a d]).
      rewrite H1. reflexivity.
    + exact H2.
Qed.

Lemma sorted_app {A : Type} (R : A -> A -> Prop) (l1 l2 : list A) :
  StronglySorted R (l1 ++ l2)
  <-> StronglySorted R l1 /\ StronglySorted R l2
      /\ Forall (fun x => Forall (R x) l2) l1.
Proof.
  induction l1 as [|x l1 IH]; cbn [app].
  - split.
    + intros H. repeat split; [constructor|exact H|constructor].
    + intros (_ & H & _). exact H.
  - split.
    + intros H. inversion H as [|? ? Hs Hf]; subst.
      apply IH in Hs. destruct Hs as (H1 & H2 & H3).
      apply Forall_app in Hf. destruct Hf as [Hf1 Hf2].
      repeat split; [constructor; assumption|assumption|constructor; assumption].
    + intros (H1 & H2 & H3).
      inversion H1 as [|? ? Hs Hf]; subst. inversion H3 as [|? ? Hx Hr]; subst.
      constructor.
      * apply IH. repeat split; assumption.
      * apply Forall_app. split; assumption.
Qed.

Lemma sorted_rev {A : Type} (R : A -> A -> Prop) (l : list A) :
  StronglySorted R l -> StronglySorted (fun a b => R b a) (rev l).
Proof.
  induction 1 as [|x l Hs IH Hf]; cbn [rev]; [constructor|].
  apply sorted_app. split; [exact IH|]. split; [repeat constructor|].
  apply Forall_forall. intros y Hy. constructor; [|constructor].
  rewrite Forall_forall in Hf. apply Hf. apply in_rev. exact Hy.
Qed.

(** ** The order on keys that are numbers *)

Lemma ltb_trans x y z :
  (x <? y)%float = true -> (y <? z)%float = true -> (x <? z)%float = true.
Proof.
  intros H1 H2.
  destruct (ltb_not_nan _ _ H1) as [Hx Hy]. destruct (ltb_not_nan _ _ H2) as [_ Hz].
  apply (ltb_lt3 x z Hx Hz).
  apply (lt3_trans _ (fkey y)); [apply (ltb_lt3 x y Hx Hy)|apply (ltb_lt3 y z Hy Hz)];
    assumption.
Qed.

(** [x < y <= z] gives [x < z]: otherwise [z <= x], so [y <= x]. *)
Lemma ltb_leb_trans x y z :
  (x <? y)%float = true -> (y <=? z)%float = true -> (x <? z)%float = true.
Proof.
  intros H1 H2.
  destruct (ltb_not_nan _ _ H1) as [Hx Hy]. destruct (leb_not_nan _ _ H2) as [_ Hz].
  destruct (x <? z)%float eqn:E; [reflexivity|].
  pose proof (not_ltb_leb _ _ Hx Hz E) as H3.
  pose proof (leb_trans _ _ _ H2 H3) as H4.
  apply (leb_le3 y x Hy Hx) in H4. apply (ltb_lt3 x y Hx Hy) in H1.
  destruct H4 as [H4|H4].
  - destruct (lt3_asym _ _ H1 H4).
  - rewrite H4 in H1. destruct (lt3_irrefl _ H1).
Qed.

Lemma leb_self x : is_nan x = false -> (x <=? x)%float = true.
Proof.
  intros H. apply (leb_le3 x x H H). right. reflexivity.
Qed.

Section Desc.

Context {A : Type}.
Variable key : A -> float.

Local Abbreviation ge_key := (SortOrder.ge_key key).
Local Abbreviation le_key := (SortOrder.le_key key).
Local Abbreviation numbers := (SortOrder.numbers key).
Local Abbreviation has_key := (SortOrder.has_key key).

(** *** The result is a permutation, whatever the keys *)

Lemma binary_insert_perm (a : list A) (x : A) :
  Permutation (binary_insert key a x) (x :: a).
Proof.
  unfold binary_insert.
  set (l := bisect key _ x a 0 _).
  apply Permutation_sym.
  rewrite <- (firstn_skipn l a) at 1.
  apply Permutation_middle.
Qed.

Lemma binarysort_perm (rest run : list A) :
  Permutation (binarysort key run rest) (run ++ rest).
Proof.
  unfold binarysort. revert run.
  induction rest as [|x rest IH]; intros run; cbn [fold_left].
  - rewrite app_nil_r. apply Permutation_refl.
  - eapply Permutation_trans; [apply IH|].
    eapply Permutation_trans;
      [apply Permutation_app_tail, binary_insert_perm|].
    cbn [app]. apply Permutation_middle.
Qed.

Lemma sort_run_perm (l : list A) : Permutation (sort_run key l) l.
Proof.
  destruct l as [|x [|y r]]; try apply Permutation_refl.
  unfold sort_run. destruct (count_run key (x :: y :: r)) as [n descending].
  eapply Permutation_trans; [apply binarysort_perm|].
  apply (Permutation_trans (l' := firstn n (x :: y :: r) ++ skipn n (x :: y :: r))).
  - apply Permutation_app_tail.
    destruct descending; [apply Permutation_sym, Permutation_rev|apply Permutation_refl].
  - rewrite firstn_skipn. apply Permutation_refl.
Qed.

Lemma sort_reverse_perm (l : list A) : Permutation (sort_reverse key l) l.
Proof.
  unfold sort_reverse.
  eapply Permutation_trans; [apply Permutation_sym, Permutation_rev|].
  eapply Permutation_trans; [apply sort_run_perm|].
  apply Permutation_sym, Permutation_rev.
Qed.

(** *** The binary search in a sorted part *)

(** Below [l] nothing is greater than the pivot, from [r] on everything is. *)
Definition brackets (pivot : A) (a : list A) (l r : nat) : Prop :=
  Forall (fun e => (key pivot <? key e)%float = false) (firstn l a)
  /\ Forall (fun e => (key pivot <? key e)%float = true) (skipn r a).

Lemma bisect_brackets (pivot : A) (a : list A) :
  StronglySorted le_key a -> numbers a ->
  forall fuel l r,
    (r - l <= fuel)%nat -> (l <= r <= List.length a)%nat ->
    brackets pivot a l r ->
    brackets pivot a (bisect key fuel pivot a l r) (bisect key fuel pivot a l r).
Proof.
  intros Hs Hn. induction fuel as [|fuel IH]; intros l r Hf Hlr [Hl Hr]; cbn [bisect].
  - assert (l = r) by lia. subst. split; assumption.
  - destruct (l <? r)%nat eqn:E.
    2:{ apply Nat.ltb_ge in E. assert (l = r) by lia. subst. split; assumption. }
    apply Nat.ltb_lt in E.
    pose proof (Nat.lt_div2 (r - l) ltac:(lia)) as Hhalf.
    remember (Nat.div2 (r - l)) as half eqn:Eh. clear Eh.
    set (p := (l + half)%nat).
    assert (Hp : (l <= p < r)%nat) by (unfold p; lia).
    assert (Hpa : (p < List.length a)%nat) by lia.
    destruct (split_at p a pivot Hpa) as [Hfirst Hskip].
    assert (Hcut : a = firstn p a ++ nth p a pivot :: skipn (S p) a).
    { rewrite <- Hskip. symmetry. apply firstn_skipn. }
    assert (Hmid : is_nan (key (nth p a pivot)) = false).
    { unfold SortOrder.numbers in Hn. rewrite Forall_forall in Hn.
      apply Hn. apply nth_In. exact Hpa. }
    rewrite Hcut in Hs. apply sorted_app in Hs. destruct Hs as (_ & Hs2 & Hs3).
    inversion Hs2 as [|? ? _ Hafter]; subst.
    destruct (key pivot <? key (nth p a pivot))%float eqn:Ec.
    + apply IH; [lia|lia|]. split; [exact Hl|].
      rewrite Hskip. constructor; [exact Ec|].
      eapply Forall_impl; [|exact Hafter].
      intros e He. eapply ltb_leb_trans; [exact Ec|exact He].
    + apply IH; [lia|lia|]. split; [|exact Hr].
      rewrite Hfirst. apply Forall_app. split; [|constructor; [exact Ec|constructor]].
      rewrite Forall_forall in Hs3 |- *. intros e He.
      specialize (Hs3 e He). inversion Hs3 as [|? ? Hle _]; subst.
      destruct (key pivot <? key e)%float eqn:Ee; [|reflexivity].
      rewrite (ltb_leb_trans _ _ _ Ee Hle) in Ec. discriminate.
Qed.

Lemma bisect_range (pivot : A) (a : list A) :
  forall fuel l r, (l <= r)%nat -> (l <= bisect key fuel pivot a l r <= r)%nat.
Proof.
  induction fuel as [|fuel IH]; intros l r H; cbn [bisect]; [lia|].
  destruct (l <? r)%nat eqn:E; [|lia].
  apply Nat.ltb_lt in E.
  pose proof (Nat.lt_div2 (r - l) ltac:(lia)) as Hhalf.
  remember (Nat.div2 (r - l)) as half eqn:Eh. clear Eh.
  destruct (key pivot <? key _)%float.
  - specialize (IH l (l + half)%nat ltac:(lia)). lia.
  - specialize (IH (S (l + half)) r ltac:(lia)). lia.
Qed.

(** The place of the pivot in a sorted part of numbers: after everything
    that is not greater, before everything that is. *)
Lemma binary_insert_place (a : list A) (pivot : A) :
  StronglySorted le_key a -> numbers a ->
  exists before after,
    a = before ++ after
    /\ binary_insert key a pivot = before ++ pivot :: after
    /\ Forall (fun e => (key pivot <? key e)%float = false) before
    /\ Forall (fun e => (key pivot <? key e)%float = true) after.
Proof.
  intros Hs Hn. unfold binary_insert.
  set (k := bisect key (List.length a) pivot a 0 (List.length a)).
  exists (firstn k a), (skipn k a).
  split; [symmetry; apply firstn_skipn|]. split; [reflexivity|].
  apply (bisect_brackets pivot a Hs Hn (List.length a) 0%nat (List.length a));
    [lia|lia|].
  split; [constructor|]. rewrite skipn_all. constructor.
Qed.

Lemma binary_insert_sorted (a : list A) (pivot : A) :
  StronglySorted le_key a -> numbers a -> is_nan (key pivot) = false ->
  StronglySorted le_key (binary_insert key a pivot).
Proof.
  intros Hs Hn Hp.
  destruct (binary_insert_place a pivot Hs Hn) as (before & after & E & -> & Hb & Ha).
  subst a. apply sorted_app in Hs. destruct Hs as (H1 & H2 & H3).
  apply Forall_app in Hn. destruct Hn as [Hn1 Hn2].
  apply sorted_app. split; [exact H1|]. split.
  - constructor; [exact H2|].
    eapply Forall_impl; [|exact Ha]. intros e He. apply ltb_leb. exact He.
  - rewrite Forall_forall in H3, Hb, Hn1 |- *. intros e He. constructor.
    + apply not_ltb_leb; [exact Hp|apply Hn1; exact He|apply Hb; exact He].
    + apply H3. exact He.
Qed.

Lemma binary_insert_filter (s : float) (a : list A) (pivot : A) :
  StronglySorted le_key a -> numbers a ->
  filter (has_key s) (binary_insert key a pivot) = filter (has_key s) (a ++ [pivot]).
Proof.
  intros Hs Hn.
  destruct (binary_insert_place a pivot Hs Hn) as (before & after & E & -> & Hb & Ha).
  subst a. rewrite !filter_app. cbn [filter].
  destruct (has_key s pivot) eqn:Ep; [|rewrite app_nil_r; reflexivity].
  assert (G : filter (has_key s) after = []).
  { clear - Ha Ep. induction Ha as [|e after He Ha IH]; [reflexivity|].
    cbn [filter]. destruct (has_key s e) eqn:Ee; [|exact IH].
    unfold SortOrder.has_key in Ep, Ee.
    rewrite (eqb_not_ltb _ _ _ Ep Ee) in He. discriminate. }
  rewrite G, app_nil_r. reflexivity.
Qed.

Lemma binary_insert_numbers (a : list A) (pivot : A) :
  numbers a -> is_nan (key pivot) = false -> numbers (binary_insert key a pivot).
Proof.
  intros Hn Hp.
  apply (Permutation_Forall (Permutation_sym (binary_insert_perm a pivot))).
  constructor; assumption.
Qed.

Lemma binarysort_sorted (rest run : list A) :
  StronglySorted le_key run -> numbers run -> numbers rest ->
  StronglySorted le_key (binarysort key run rest)
  /\ forall s, filter (has_key s) (binarysort key run rest)
               = filter (has_key s) (run ++ rest).
Proof.
  unfold binarysort. revert run.
  induction rest as [|x rest IH]; intros run Hs Hn Hr; cbn [fold_left].
  - split; [exact Hs|]. intros s. rewrite app_nil_r. reflexivity.
  - inversion Hr as [|? ? Hx Hrest]; subst.
    destruct (IH (binary_insert key run x)) as [H1 H2].
    + apply binary_insert_sorted; assumption.
    + apply binary_insert_numbers; assumption.
    + exact Hrest.
    + split; [exact H1|]. intros s. rewrite H2, !filter_app.
      rewrite (binary_insert_filter s run x Hs Hn), filter_app.
      rewrite <- app_assoc. change (x :: rest) with ([x] ++ rest).
      rewrite filter_app. reflexivity.
Qed.

(** *** The leading run *)

Lemma run_ascending_sorted (l : list A) (prev : A) :
  numbers (prev :: l) ->
  Sorted le_key (prev :: firstn (run_ascending key prev l) l).
Proof.
  revert prev. induction l as [|x r IH]; intros prev Hn; cbn [run_ascending].
  - cbn [firstn]. repeat constructor.
  - inversion Hn as [|? ? Hp Hl]; subst. inversion Hl as [|? ? Hx Hr]; subst.
    destruct (key x <? key prev)%float eqn:E; cbn [firstn].
    + repeat constructor.
    + constructor; [apply IH; exact Hl|].
      constructor. apply not_ltb_leb; assumption.
Qed.

Lemma run_descending_sorted (l : list A) (prev : A) :
  Sorted (fun a b => (key b <? key a)%float = true)
    (prev :: firstn (run_descending key prev l) l).
Proof.
  revert prev. induction l as [|x r IH]; intros prev; cbn [run_descending].
  - cbn [firstn]. repeat constructor.
  - destruct (key x <? key prev)%float eqn:E; cbn [firstn].
    + constructor; [apply IH|]. constructor. exact E.
    + repeat constructor.
Qed.

(** A strictly descending run has one item of each key at most: turning it
    round moves no two items of equal key. *)
Lemma descending_filter (s : float) (l : list A) :
  StronglySorted (fun a b => (key b <? key a)%float = true) l ->
  filter (has_key s) (rev l) = filter (has_key s) l.
Proof.
  induction 1 as [|x l Hs IH Hf]; [reflexivity|].
  cbn [rev]. rewrite filter_app, IH. cbn [filter].
  destruct (has_key s x) eqn:Ex; [|apply app_nil_r].
  assert (G : filter (has_key s) l = []).
  { clear - Hf Ex. induction Hf as [|e l He Hf IH]; [reflexivity|].
    cbn [filter]. destruct (has_key s e) eqn:Ee; [|exact IH].
    unfold SortOrder.has_key in Ex, Ee.
    rewrite (eqb_not_ltb _ _ _ Ee Ex) in He. discriminate. }
  rewrite G. reflexivity.
Qed.

Lemma count_run_sorted (l : list A) (n : nat) (descending : bool) :
  numbers l -> count_run key l = (n, descending) ->
  StronglySorted le_key (if descending then rev (firstn n l) else firstn n l)
  /\ forall s,
       filter (has_key s) (if descending then rev (firstn n l) else firstn n l)
       = filter (has_key s) (firstn n l).
Proof.
  intros Hn. destruct l as [|x [|y r]]; cbn [count_run].
  - intros H. inversion H; subst. cbn. split; [constructor|reflexivity].
  - intros H. inversion H; subst. cbn [firstn].
    split; [repeat constructor|reflexivity].
  - inversion Hn as [|? ? Hx Hl]; subst.
    destruct (key y <? key x)%float eqn:E; intros H; inversion H; subst; cbn [firstn].
    + assert (G : StronglySorted (fun a b => (key b <? key a)%float = true)
                    (x :: y :: firstn (run_descending key y r) r)).
      { apply Sorted_StronglySorted.
        - intros a b c Hab Hbc. eapply ltb_trans; eassumption.
        - constructor; [apply run_descending_sorted|]. constructor. exact E. }
      split.
      * apply sorted_rev in G.
        eapply StronglySorted_ind with (P := StronglySorted le_key) in G.
        -- exact G.
        -- constructor.
        -- intros a l _ IH Hf. constructor; [exact IH|].
           eapply Forall_impl; [|exact Hf]. intros e He. apply ltb_leb. exact He.
      * intros s. apply descending_filter. exact G.
    + split; [|reflexivity].
      apply Sorted_StronglySorted.
      * intros a b c Hab Hbc. eapply leb_trans; eassumption.
      * constructor; [apply run_ascending_sorted; exact Hl|].
        constructor. apply not_ltb_leb; [|assumption|exact E].
        inversion Hl; assumption.
Qed.

(** *** The forward sort and the sort *)

Lemma firstn_numbers (n : nat) (l : list A) : numbers l -> numbers (firstn n l).
Proof.
  intros H. unfold SortOrder.numbers in *.
  rewrite <- (firstn_skipn n l) in H. apply Forall_app in H. apply H.
Qed.

Lemma sort_run_sorted (l : list A) :
  numbers l ->
  StronglySorted le_key (sort_run key l)
  /\ forall s, filter (has_key s) (sort_run key l) = filter (has_key s) l.
Proof.
  intros Hn. destruct l as [|x [|y r]].
  - split; [constructor|reflexivity].
  - split; [repeat constructor|reflexivity].
  - unfold sort_run.
    destruct (count_run key (x :: y :: r)) as [n descending] eqn:E.
    destruct (count_run_sorted _ _ _ Hn E) as [H1 H2].
    set (l := x :: y :: r) in *.
    assert (Hrun : numbers (if descending then rev (firstn n l) else firstn n l)).
    { destruct descending; [|apply firstn_numbers; exact Hn].
      apply (Permutation_Forall (Permutation_rev _)). apply firstn_numbers. exact Hn. }
    assert (Hrest : numbers (skipn n l)).
    { rewrite <- (firstn_skipn n l) in Hn. apply Forall_app in Hn. apply Hn. }
    destruct (binarysort_sorted (skipn n l) _ H1 Hrun Hrest) as [G1 G2].
    split; [exact G1|]. intros s.
    rewrite G2, filter_app, H2, <- filter_app, firstn_skipn. reflexivity.
Qed.

Lemma rev_numbers (l : list A) : numbers l -> numbers (rev l).
Proof. apply Permutation_Forall, Permutation_rev. Qed.

Lemma sort_reverse_sorted (l : list A) :
  numbers l -> StronglySorted ge_key (sort_reverse key l).
Proof.
  intros Hn. unfold sort_reverse.
  destruct (sort_run_sorted (rev l) (rev_numbers l Hn)) as [H _].
  apply sorted_rev in H. exact H.
Qed.


End Desc.

(** *** Sorting under a map that keeps the keys *)

Section Mapped.

Context {A B : Type}.
Variable key : A -> float.
Variable key' : B -> float.
Variable g : A -> B.
Hypothesis Hg : forall a, key' (g a) = key a.

Lemma run_descending_map (l : list A) (prev : A) :
  run_descending key' (g prev) (map g l) = run_descending key prev l.
Proof.
  revert prev. induction l as [|x r IH]; intros prev; cbn; [reflexivity|].
  rewrite !Hg, IH. reflexivity.
Qed.

Lemma run_ascending_map (l : list A) (prev : A) :
  run_ascending key' (g prev) (map g l) = run_ascending key prev l.
Proof.
  revert prev. induction l as [|x r IH]; intros prev; cbn; [reflexivity|].
  rewrite !Hg, IH. reflexivity.
Qed.

Lemma count_run_map (l : list A) : count_run key' (map g l) = count_run key l.
Proof.
  destruct l as [|x [|y r]]; cbn [map count_run]; try reflexivity.
  rewrite !Hg, run_descending_map, run_ascending_map. reflexivity.
Qed.

Lemma bisect_map (fuel : nat) (pivot : A) (a : list A) (l r : nat) :
  bisect key' fuel (g pivot) (map g a) l r = bisect key fuel pivot a l r.
Proof.
  revert l r. induction fuel as [|fuel IH]; intros l r; cbn [bisect]; [reflexivity|].
  rewrite map_nth, !Hg, !IH. reflexivity.
Qed.

Lemma binary_insert_map (a : list A) (pivot : A) :
  binary_insert key' (map g a) (g pivot) = map g (binary_insert key a pivot).
Proof.
  unfold binary_insert.
  rewrite length_map, bisect_map, map_app, firstn_map. cbn [map].
  rewrite skipn_map. reflexivity.
Qed.

Lemma binarysort_map (rest run : list A) :
  binarysort key' (map g run) (map g rest) = map g (binarysort key run rest).
Proof.
  unfold binarysort. revert run.
  induction rest as [|x rest IH]; intros run; cbn [map fold_left]; [reflexivity|].
  rewrite binary_insert_map. apply IH.
Qed.

Lemma sort_run_map (l : list A) : sort_run key' (map g l) = map g (sort_run key l).
Proof.
  destruct l as [|x [|y r]]; try reflexivity.
  unfold sort_run.
  change (map g (x :: y :: r)) with (g x :: g y :: map g r).
  change (g x :: g y :: map g r) with (map g (x :: y :: r)).
  rewrite count_run_map.
  destruct (count_run key (x :: y :: r)) as [n descending].
  rewrite <- binarysort_map, skipn_map, firstn_map.
  destruct descending; [rewrite map_rev|]; reflexivity.
Qed.

Lemma sort_reverse_map (l : list A) :
  sort_reverse key' (map g l) = map g (sort_reverse key l).
Proof.
  unfold sort_reverse. rewrite <- map_rev, sort_run_map, map_rev. reflexivity.
Qed.

End Mapped.

(** Sorting pairs on their first component, then dropping it, sorts the
    second components on the function that produced the first. *)
Lemma sort_reverse_scored {A : Type} (f : A -> float) (l : list A) :
  map snd (sort_reverse fst (map (fun a => (f a, a)) l)) = sort_reverse f l.
Proof.
  rewrite (sort_reverse_map f fst (fun a => (f a, a))) by reflexivity.
  rewrite map_map. cbn. apply map_id.
Qed.

Lemma mapM_ok {A B : Type} (g : A -> result B) (f : A -> B) (l : list A) :
  Forall (fun a => g a = Ok (f a)) l -> mapM g l = Ok (map f l).
Proof.
  induction 1 as [|x r Hx Hr IH]; cbn.
  - reflexivity.
  - rewrite Hx. cbn. rewrite IH. reflexivity.
Qed.


End SortFacts.

Module RankingFacts.

Import Py base route_discovery ranking_spec FloatOrder FloatFacts SortFacts.

Lemma fold_max_ge (l : list Z) (a : Z) : a <= fold_left Z.max l a.
Proof.
  revert a. induction l as [|x r IH]; cbn; intros a; [lia|].
  specialize (IH (Z.max a x)). lia.
Qed.

Lemma fold_max_In (l : list Z) (a t : Z) : In t l -> t <= fold_left Z.max l a.
Proof.
  revert a. induction l as [|x r IH]; cbn; intros a H; [contradiction|].
  destruct H as [H|H].
  - subst. pose proof (fold_max_ge r (Z.max a t)). lia.
  - apply IH. exact H.
Qed.

Lemma int_max_ge (l : list Z) (m t : Z) : int_max l = Some m -> In t l -> t <= m.
Proof.
  destruct l as [|x r]; cbn; intros H Ht; [discriminate|].
  inversion H; subst. destruct Ht as [Ht|Ht].
  - subst. apply fold_max_ge.
  - apply fold_max_In. exact Ht.
Qed.

Lemma max_time_ge (batch : list BridgeQuote) (q : BridgeQuote) :
  In q batch -> estimated_time_seconds q <= max_time batch.
Proof.
  intros H. unfold max_time.
  destruct (int_max (map estimated_time_seconds batch)) as [m|] eqn:E.
  - apply (int_max_ge _ _ _ E). apply in_map. exact H.
  - destruct batch; [contradiction|discriminate].
Qed.

Lemma overflow_bound_big : 1 < float_overflow_bound.
Proof. apply Z.ltb_lt. vm_compute. reflexivity. Qed.

(** Within [0 <= t <= m] the quotient of two [int]s is the rounded ratio. *)
Lemma int_truediv_ratio (t m : Z) :
  0 <= t <= m -> m <> 0 -> int_truediv t m = Ok (float_of_ratio t m).
Proof.
  intros Ht Hm. unfold int_truediv.
  destruct (m =? 0) eqn:E; [apply Z.eqb_eq in E; contradiction|].
  destruct (float_overflow_bound * Z.abs m <=? Z.abs t) eqn:E'; [|reflexivity].
  apply Z.leb_le in E'. pose proof overflow_bound_big. nia.
Qed.

(** The loop body computes the score the specification defines. *)
Lemma score_quote_spec (batch : list BridgeQuote) (prefs : dict float) (q : BridgeQuote) :
  (max_cost batch =? 0)%float = false ->
  max_time batch <> 0 ->
  0 <= estimated_time_seconds q ->
  In q batch ->
  score_quote (cost_weight prefs) (speed_weight prefs) (reliability_weight prefs)
    (liquidity_weight prefs) (max_cost batch) (max_time batch) q
  = Ok (weighted_score batch prefs q, q).
Proof.
  intros Hc Hm Ht Hin. unfold score_quote, float_truediv.
  rewrite Hc. cbn [bind].
  rewrite (int_truediv_ratio _ _ (conj Ht (max_time_ge _ _ Hin)) Hm).
  reflexivity.
Qed.


Lemma rank_routes_unfold (q : BridgeQuote) (r : list BridgeQuote) (prefs : dict float) :
  _rank_routes (q :: r) prefs =
  (scored <- mapM (score_quote (cost_weight prefs) (speed_weight prefs)
                     (reliability_weight prefs) (liquidity_weight prefs)
                     (max_cost (q :: r)) (max_time (q :: r))) (q :: r) ;;
   Ok (map snd (sort_reverse fst scored))).
Proof. reflexivity. Qed.



Lemma rank_routes_ok (batch : list BridgeQuote) (prefs : dict float) :
  batch <> [] ->
  (max_cost batch =? 0)%float = false ->
  max_time batch <> 0 ->
  Forall (fun q => 0 <= estimated_time_seconds q) batch ->
  _rank_routes batch prefs = Ok (sort_reverse (weighted_score batch prefs) batch).
Proof.
  intros Hne Hc Hm Ht. destruct batch as [|q r]; [congruence|].
  rewrite rank_routes_unfold.
  rewrite (mapM_ok _ (fun a => (weighted_score (q :: r) prefs a, a))).
  - cbn [bind]. rewrite sort_reverse_scored. reflexivity.
  - apply Forall_forall. intros a Ha.
    apply score_quote_spec; try assumption.
    rewrite Forall_forall in Ht. apply Ht. exact Ha.
Qed.

End RankingFacts.

Import Py base route_discovery ranking_spec.

(** X27.  For every non-empty batch of quotes with non-negative times whose
    largest cost and largest time are not zero, ranking returns a list, a
    permutation of the batch.  As long as no score is a NaN the list is the
    batch sorted on [weighted_score], that is [cost_score * w_cost +
    speed_score * w_speed + reliability_score * w_reliability +
    liquidity_score * w_liquidity] with the scores of section 4.2 and the
    weights of the preferences (0.40, 0.30, 0.20, 0.10 by default), best
    first. *)
Theorem rank_routes_sorted (batch : list BridgeQuote) (prefs : dict float) :
  batch <> [] ->
  (max_cost batch =? 0)%float = false ->
  max_time batch <> 0 ->
  Forall (fun q => 0 <= estimated_time_seconds q) batch ->
  exists ranked,
    _rank_routes batch prefs = Ok ranked
    /\ Permutation ranked batch
    /\ (Forall (fun q => is_nan (weighted_score batch prefs q) = false) batch ->
        StronglySorted (outranks batch prefs) ranked).
Proof.
  intros Hne Hc Hm Ht.
  exists (Py.sort_reverse (weighted_score batch prefs) batch).
  split; [apply RankingFacts.rank_routes_ok; assumption|].
  split; [apply SortFacts.sort_reverse_perm|].
  intros Hn. apply (SortFacts.sort_reverse_sorted (weighted_score batch prefs)). exact Hn.
Qed.

(** The scenario of section 8 under the default weights: the $5 quote
    comes first, then the $8 one, then the $6 one. *)
Lemma rank_routes_sorted_witness :
  exists ranked,
    _rank_routes samples.three_quotes [] = Ok ranked
    /\ Permutation ranked samples.three_quotes
    /\ (Forall (fun q => is_nan (weighted_score samples.three_quotes [] q) = false)
          samples.three_quotes ->
        StronglySorted (outranks samples.three_quotes []) ranked).
Proof.
  apply (rank_routes_sorted samples.three_quotes []).
  - discriminate.
  - vm_compute. reflexivity.
  - vm_compute. discriminate.
  - repeat constructor; vm_compute; discriminate.
Defined.

Example three_quotes_ranking :
  option_map (map bridge_name) (to_option (_rank_routes samples.three_quotes []))
  = Some ["A"; "B"; "C"]%string.
Proof. vm_compute. reflexivity. Qed.





Module BaseFacts.

Import base.

Lemma contains_In (l : list Z) (x : Z) : contains l x = true <-> In x l.
Proof.
  unfold contains. rewrite existsb_exists. split.
  - intros [y [Hy E]]. apply Z.eqb_eq in E. subst. exact Hy.
  - intros H. exists x. split; [exact H|apply Z.eqb_refl].
Qed.

End BaseFacts.

(** C9.  An adapter supports a route exactly when both chain IDs are in its
    list of supported chains and they differ; a route from a chain to
    itself is never supported. *)
Theorem supports_route_iff :
  (forall (supported_chains : list Z) (source_chain_id dest_chain_id : Z),
     base.supports_route supported_chains source_chain_id dest_chain_id = true
     <-> (In source_chain_id supported_chains
          /\ In dest_chain_id supported_chains
          /\ source_chain_id <> dest_chain_id))
  /\ (forall (supported_chains : list Z) (chain_id : Z),
        base.supports_route supported_chains chain_id chain_id = false).
Proof.
  split.
  - intros l s d. unfold base.supports_route.
    rewrite !andb_true_iff, negb_true_iff, Z.eqb_neq, !BaseFacts.contains_In.
    tauto.
  - intros l c. unfold base.supports_route.
    rewrite Z.eqb_refl. cbn. apply andb_false_r.
Qed.

(** Every adapter of the repository calls the same method with its own
    list: Across between Ethereum and Arbitrum, and never from Ethereum to
    Ethereum. *)
Example across_supports :
  base.supports_route across.supported_chains 1 42161 = true
  /\ base.supports_route across.supported_chains 1 1 = false
  /\ base.supports_route across.supported_chains 1 56 = false.
Proof. repeat split. Qed.

Import reliability_scorer scoring_spec.

Module RatingFacts.

Import FloatOrder FloatFacts.

Lemma ltb_not_leb (x y : float) : (x <? y)%float = true -> (y <=? x)%float = false.
Proof.
  intros H. destruct (ltb_not_nan _ _ H) as [Hx Hy].
  destruct (y <=? x)%float eqn:E; [|reflexivity].
  apply (ltb_lt3 x y Hx Hy) in H. apply (leb_le3 y x Hy Hx) in E.
  destruct E as [E|E].
  - destruct (lt3_asym _ _ H E).
  - rewrite E in H. destruct (lt3_irrefl _ H).
Qed.

(** A score within a band gets the rating of the band. *)
Lemma rating_band (score lo : float) (r : string)
  (before after : list (float * string)) :
  rating_thresholds = before ++ (lo, r) :: after ->
  Forall (fun t => (score <? fst t)%float = true) before ->
  (lo <=? score)%float = true ->
  first_reached score rating_thresholds = r.
Proof.
  intros -> Hb Hlo. induction Hb as [|[t r'] rest Ht Hrest IH]; cbn.
  - rewrite Hlo. reflexivity.
  - cbn in Ht. rewrite (ltb_not_leb _ _ Ht). exact IH.
Qed.

Lemma rating_below (score : float) :
  (score <? 50)%float = true -> _get_rating score = "D"%string.
Proof.
  intros H. unfold _get_rating.
  assert (L : forall t, (50 <=? t)%float = true -> (t <=? score)%float = false).
  { intros t Ht. destruct (t <=? score)%float eqn:E; [|reflexivity].
    pose proof (leb_trans _ _ _ Ht E) as G. rewrite (ltb_not_leb _ _ H) in G.
    discriminate. }
  rewrite !L by (vm_compute; reflexivity). reflexivity.
Qed.

Lemma rating_nan (score : float) : is_nan score = true -> _get_rating score = "D"%string.
Proof.
  intros H. unfold _get_rating.
  assert (L : forall t, (t <=? score)%float = false).
  { intros t. destruct (t <=? score)%float eqn:E; [|reflexivity].
    destruct (leb_not_nan _ _ E) as [_ G]. congruence. }
  rewrite !L. reflexivity.
Qed.

End RatingFacts.

(** C7.  The letter rating is the one of the first threshold the score
    reaches among 90, 85, 80, 75, 70, 65, 60, 55, 50 (A+, A, A-, B+, B, B-,
    C+, C, C-): a score that reaches a threshold and stays below every
    higher one gets the rating of that threshold, a score below 50 gets D;
    90.0, 89.9, 80.0 and 79.9 are rated A+, A, A- and B+. *)
Theorem get_rating_thresholds :
  (forall score : float, _get_rating score = first_reached score rating_thresholds)
  /\ (forall (score lo : float) (r : string) (higher lower : list (float * string)),
        rating_thresholds = higher ++ (lo, r) :: lower ->
        Forall (fun t => (score <? fst t)%float = true) higher ->
        (lo <=? score)%float = true ->
        _get_rating score = r)
  /\ (forall score : float, (score <? 50)%float = true -> _get_rating score = "D"%string)
  /\ _get_rating 90.0%float = "A+"%string
  /\ _get_rating 89.9%float = "A"%string
  /\ _get_rating 80.0%float = "A-"%string
  /\ _get_rating 79.9%float = "B+"%string.
Proof.
  split; [intros score; reflexivity|].
  split; [intros score lo r higher lower; apply RatingFacts.rating_band|].
  split; [apply RatingFacts.rating_below|].
  repeat split; vm_compute; reflexivity.
Qed.

(** A score of 87.5 reaches 85 and stays below 90: it is rated A. *)
Lemma get_rating_thresholds_witness : _get_rating 87.5%float = "A"%string.
Proof.
  apply (proj1 (proj2 get_rating_thresholds) 87.5%float 85%float "A"%string
           [(90%float, "A+"%string)]
           [ (80%float, "A-"); (75%float, "B+"); (70%float, "B"); (65%float, "B-");
             (60%float, "C+"); (55%float, "C"); (50%float, "C-") ]%string).
  - reflexivity.
  - repeat constructor.
  - vm_compute. reflexivity.
Defined.

Import Py base route_discovery.

Module DiscoveryFacts.

Import discovery_spec.

Lemma query_all_none (bs : list BaseBridge) (route_params : RouteParams) :
  Forall (fun bridge => _query_bridge_with_timeout bridge route_params = None) bs ->
  _query_all_bridges bs route_params = [].
Proof.
  induction 1 as [|b r Hb Hr IH]; cbn; [reflexivity|].
  rewrite Hb. exact IH.
Qed.

(** The lookup changes nothing but the cache. *)
Lemma cached_quote_bridges (self : RouteDiscoveryEngine) (now : Z) (k : string) :
  bridges (snd (_get_cached_quote self now k)) = bridges self.
Proof.
  unfold _get_cached_quote.
  destruct (dict_lookup k (quote_cache self)); [|reflexivity].
  destruct (_ <? _); reflexivity.
Qed.

End DiscoveryFacts.

Import discovery_spec.

(** C4 (amended).  A discovery call that misses the cache and gets no quote
    from any adapter returns the empty list, an ordinary return value and
    neither an exception nor a typed signal, and stores nothing in the
    cache. *)
Theorem discover_routes_no_quotes (self : RouteDiscoveryEngine) (now_lookup now_store : Z)
  (route_params : RouteParams) (preferences : option (dict float)) :
  cache_miss self now_lookup route_params ->
  no_quotes self route_params ->
  discover_routes self now_lookup now_store route_params preferences
  = (Ok [], after_lookup self now_lookup route_params).
Proof.
  unfold cache_miss, no_quotes, after_lookup, discover_routes.
  intros Hmiss Hnone.
  pose proof (DiscoveryFacts.cached_quote_bridges self now_lookup
                (_get_cache_key route_params)) as Hb.
  destruct (_get_cached_quote self now_lookup (_get_cache_key route_params))
    as [cached self'].
  cbn in Hmiss, Hb |- *. subst cached. rewrite Hb.
  rewrite (DiscoveryFacts.query_all_none _ _ Hnone). reflexivity.
Qed.

Lemma discover_routes_no_quotes_witness :
  discover_routes samples.idle_engine 0 0
    (samples.usdc_request "0xA0b86991c6218b36c1d19D4a2e9Eb0cE3606eB48") None
  = (Ok [], after_lookup samples.idle_engine 0
              (samples.usdc_request "0xA0b86991c6218b36c1d19D4a2e9Eb0cE3606eB48")).
Proof.
  apply (discover_routes_no_quotes samples.idle_engine 0 0).
  - reflexivity.
  - repeat constructor.
Defined.

(** C4 as stated fails: with no quote at all the call does not end in an
    error, it returns a list like any other call. *)
Lemma discover_routes_returns_empty :
  exists self route_params,
    cache_miss self 0 route_params
    /\ no_quotes self route_params
    /\ fst (discover_routes self 0 0 route_params None) = Ok []
    /\ ~ signals_error (fst (discover_routes self 0 0 route_params None)).
Proof.
  exists samples.idle_engine,
         (samples.usdc_request "0xA0b86991c6218b36c1d19D4a2e9Eb0cE3606eB48").
  split; [reflexivity|]. split; [repeat constructor|].
  assert (H : fst (discover_routes samples.idle_engine 0 0
                     (samples.usdc_request "0xA0b86991c6218b36c1d19D4a2e9Eb0cE3606eB48")
                     None) = Ok [])
    by (vm_compute; reflexivity).
  split; [exact H|]. intros [e He]. rewrite H in He. discriminate.
Qed.

Import fingerprint_spec.

(** C5 (amended).  The cache key is computed from the route parameters as
    they are given, without any change of letter case: two requests whose
    chain names, token addresses and amount agree letter for letter have
    the same key, whatever their user address. *)
Theorem cache_key_same_fields (p q : RouteParams) :
  same_fields p q -> _get_cache_key p = _get_cache_key q.
Proof.
  intros (H1 & H2 & H3 & H4 & H5). unfold _get_cache_key.
  rewrite H1, H2, H3, H4, H5. reflexivity.
Qed.

Lemma cache_key_same_fields_witness :
  _get_cache_key (samples.usdc_request "0xA0b86991c6218b36c1d19D4a2e9Eb0cE3606eB48")
  = _get_cache_key
      {| source_chain := "ethereum";
         destination_chain := "arbitrum";
         source_token := "0xA0b86991c6218b36c1d19D4a2e9Eb0cE3606eB48";
         destination_token := "0xFF970A61A04b1cA14834A43f5dE4533eBDDB5CC8";
         amount := "1000000000";
         user_address := Some "0x742d35Cc6634C0532925a3b844Bc9e7595f0bEb"%string |}.
Proof.
  apply cache_key_same_fields. repeat split.
Defined.

Example cache_key_example :
  _get_cache_key (samples.usdc_request "0xA0b86991c6218b36c1d19D4a2e9Eb0cE3606eB48")
  = "route_quote:5520a63bc6b40a2389e83644215469fe"%string.
Proof. vm_compute. reflexivity. Qed.

(** C5 as stated fails: the same token address in lower case gives another
    key. *)
Lemma cache_key_case_sensitive :
  exists p q, same_up_to_case p q /\ _get_cache_key p <> _get_cache_key q.
Proof.
  exists (samples.usdc_request "0xA0b86991c6218b36c1d19D4a2e9Eb0cE3606eB48"),
         (samples.usdc_request "0xa0b86991c6218b36c1d19d4a2e9eb0ce3606eb48").
  split; [repeat split|].
  intros H. vm_compute in H. discriminate.
Qed.

Import Py.

Module AdapterFacts.

Import base invariants.

(** Splits the first [bind] of the goal on its outcome; a raised exception
    cannot be the quote of the hypothesis. *)
Ltac bind_ok :=
  match goal with
  | |- context [bind ?m _] =>
      let E := fresh "E" in
      destruct m eqn:E; cbn [bind]; [|intros; discriminate]
  end.

(** A builder that returns has stored the sum it computed. *)
Ltac builder_inv :=
  intros;
  match goal with
  | H : _ = Ok _ |- _ => revert H
  end;
  repeat bind_ok;
  repeat match goal with
         | |- context [let '(_, _) := ?p in _] => destruct p
         end;
  repeat bind_ok;
  let H := fresh "H" in
  intros H; inversion H; subst; unfold fees_add_up;
  cbn [fee_breakdown bridge_fee_usd gas_cost_source_usd gas_cost_destination_usd
       total_cost_usd];
  assumption.

Lemma across_parse (now : Z) (data : json) (rp : RouteParams) (q : BridgeQuote) :
  across._parse_across_response now data rp = Ok q -> fees_add_up q.
Proof. unfold across._parse_across_response. builder_inv. Qed.

Lemma across_mock (now : Z) (rp : RouteParams) (q : BridgeQuote) :
  across._generate_mock_quote now rp = Ok q -> fees_add_up q.
Proof. unfold across._generate_mock_quote. builder_inv. Qed.

Lemma stargate_estimated (now : Z) (rp : RouteParams) (q : BridgeQuote) :
  stargate._generate_estimated_quote now rp = Ok q -> fees_add_up q.
Proof. unfold stargate._generate_estimated_quote. builder_inv. Qed.

Lemma hop_parse (now : Z) (data : json) (rp : RouteParams) (q : BridgeQuote) :
  hop._parse_hop_response now data rp = Ok q -> fees_add_up q.
Proof. unfold hop._parse_hop_response. builder_inv. Qed.

Lemma hop_estimated (now : Z) (rp : RouteParams) (q : BridgeQuote) :
  hop._generate_estimated_quote now rp = Ok q -> fees_add_up q.
Proof. unfold hop._generate_estimated_quote. builder_inv. Qed.

Lemma synapse_parse (now : Z) (data : json) (rp : RouteParams) (q : BridgeQuote) :
  synapse._parse_synapse_response now data rp = Ok q -> fees_add_up q.
Proof. unfold synapse._parse_synapse_response. builder_inv. Qed.

Lemma synapse_estimated (now : Z) (rp : RouteParams) (q : BridgeQuote) :
  synapse._generate_estimated_quote now rp = Ok q -> fees_add_up q.
Proof. unfold synapse._generate_estimated_quote. builder_inv. Qed.

Lemma celer_parse (now : Z) (data : json) (rp : RouteParams) (q : BridgeQuote) :
  celer._parse_celer_response now data rp = Ok q -> fees_add_up q.
Proof. unfold celer._parse_celer_response. builder_inv. Qed.

Lemma celer_estimated (now : Z) (rp : RouteParams) (q : BridgeQuote) :
  celer._generate_estimated_quote now rp = Ok q -> fees_add_up q.
Proof. unfold celer._generate_estimated_quote. builder_inv. Qed.

Lemma orbiter_estimated (now : Z) (rp : RouteParams) (q : BridgeQuote) :
  orbiter._generate_estimated_quote now rp = Ok q -> fees_add_up q.
Proof. unfold orbiter._generate_estimated_quote. builder_inv. Qed.

Lemma debridge_parse (now : Z) (data : json) (rp : RouteParams) (q : BridgeQuote) :
  debridge._parse_debridge_response now data rp = Ok q -> fees_add_up q.
Proof. unfold debridge._parse_debridge_response. builder_inv. Qed.

Lemma debridge_estimated (now : Z) (rp : RouteParams) (q : BridgeQuote) :
  debridge._generate_estimated_quote now rp = Ok q -> fees_add_up q.
Proof. unfold debridge._generate_estimated_quote. builder_inv. Qed.

Lemma layerzero_estimated (now : Z) (rp : RouteParams) (q : BridgeQuote) :
  layerzero._generate_estimated_quote now rp = Ok q -> fees_add_up q.
Proof. unfold layerzero._generate_estimated_quote. builder_inv. Qed.

Lemma wormhole_estimated (now : Z) (rp : RouteParams) (q : BridgeQuote) :
  wormhole._generate_estimated_quote now rp = Ok q -> fees_add_up q.
Proof. unfold wormhole._generate_estimated_quote. builder_inv. Qed.

Lemma to_option_some {A : Type} (m : result A) (a : A) : to_option m = Some a -> m = Ok a.
Proof. destruct m; cbn; intros H; inversion H; reflexivity. Qed.

(** Closes the goal with the lemma of the builder named in a hypothesis. *)
Ltac by_builder :=
  match goal with
  | H : across._parse_across_response _ _ _ = Ok _ |- _ => exact (across_parse _ _ _ _ H)
  | H : across._generate_mock_quote _ _ = Ok _ |- _ => exact (across_mock _ _ _ H)
  | H : stargate._generate_estimated_quote _ _ = Ok _ |- _ =>
      exact (stargate_estimated _ _ _ H)
  | H : hop._parse_hop_response _ _ _ = Ok _ |- _ => exact (hop_parse _ _ _ _ H)
  | H : hop._generate_estimated_quote _ _ = Ok _ |- _ => exact (hop_estimated _ _ _ H)
  | H : synapse._parse_synapse_response _ _ _ = Ok _ |- _ =>
      exact (synapse_parse _ _ _ _ H)
  | H : synapse._generate_estimated_quote _ _ = Ok _ |- _ =>
      exact (synapse_estimated _ _ _ H)
  | H : celer._parse_celer_response _ _ _ = Ok _ |- _ => exact (celer_parse _ _ _ _ H)
  | H : celer._generate_estimated_quote _ _ = Ok _ |- _ =>
      exact (celer_estimated _ _ _ H)
  | H : orbiter._generate_estimated_quote _ _ = Ok _ |- _ =>
      exact (orbiter_estimated _ _ _ H)
  | H : debridge._parse_debridge_response _ _ _ = Ok _ |- _ =>
      exact (debridge_parse _ _ _ _ H)
  | H : debridge._generate_estimated_quote _ _ = Ok _ |- _ =>
      exact (debridge_estimated _ _ _ H)
  | H : layerzero._generate_estimated_quote _ _ = Ok _ |- _ =>
      exact (layerzero_estimated _ _ _ H)
  | H : wormhole._generate_estimated_quote _ _ = Ok _ |- _ =>
      exact (wormhole_estimated _ _ _ H)
  end.

(** [get_quote] returns what one of the builders of its adapter built. *)
Ltac get_quote_inv :=
  intros;
  match goal with
  | H : _ = Some _ |- _ => revert H
  end;
  repeat match goal with
         | |- context [if ?c then _ else _] => destruct c
         | |- context [match ?o with Some _ => _ | None => _ end] =>
             destruct o
         | |- context [match ?r with Ok _ => _ | Raise _ => _ end] =>
             let E := fresh "E" in destruct r eqn:E
         end;
  let H := fresh "H" in
  intros H;
  try discriminate;
  try (apply to_option_some in H);
  try (inversion H; subst);
  by_builder.

Lemma across_quote (api : option json) (now : Z) (rp : RouteParams) (q : BridgeQuote) :
  across.get_quote api now rp = Some q -> fees_add_up q.
Proof. unfold across.get_quote. get_quote_inv. Qed.

Lemma stargate_quote (now : Z) (rp : RouteParams) (q : BridgeQuote) :
  stargate.get_quote now rp = Some q -> fees_add_up q.
Proof. unfold stargate.get_quote. get_quote_inv. Qed.

Lemma hop_quote (api : option json) (now : Z) (rp : RouteParams) (q : BridgeQuote) :
  hop.get_quote api now rp = Some q -> fees_add_up q.
Proof. unfold hop.get_quote. get_quote_inv. Qed.

Lemma synapse_quote (api : option json) (now : Z) (rp : RouteParams) (q : BridgeQuote) :
  synapse.get_quote api now rp = Some q -> fees_add_up q.
Proof. unfold synapse.get_quote. get_quote_inv. Qed.

Lemma celer_quote (api : option json) (now : Z) (rp : RouteParams) (q : BridgeQuote) :
  celer.get_quote api now rp = Some q -> fees_add_up q.
Proof. unfold celer.get_quote. get_quote_inv. Qed.

Lemma orbiter_quote (now : Z) (rp : RouteParams) (q : BridgeQuote) :
  orbiter.get_quote now rp = Some q -> fees_add_up q.
Proof. unfold orbiter.get_quote. get_quote_inv. Qed.

Lemma debridge_quote (api : option json) (now : Z) (rp : RouteParams) (q : BridgeQuote) :
  debridge.get_quote api now rp = Some q -> fees_add_up q.
Proof. unfold debridge.get_quote. get_quote_inv. Qed.

Lemma layerzero_quote (now : Z) (rp : RouteParams) (q : BridgeQuote) :
  layerzero.get_quote now rp = Some q -> fees_add_up q.
Proof. unfold layerzero.get_quote. get_quote_inv. Qed.

Lemma wormhole_quote (now : Z) (rp : RouteParams) (q : BridgeQuote) :
  wormhole.get_quote now rp = Some q -> fees_add_up q.
Proof. unfold wormhole.get_quote. get_quote_inv. Qed.

End AdapterFacts.

Module MultiHopFacts.

Import multi_hop_router invariants.

Lemma two_hop_body_adds (self : MultiHopRouter)
  (source intermediate destination token amount : string) (route : MultiHopRoute) :
  two_hop_body self source intermediate destination token amount = Ok (Some route) ->
  hops_add_up route.
Proof.
  unfold two_hop_body.
  destruct (min_by cost_or_inf (_get_direct_quotes _ source _ _ _)) as [hop1_best|];
    [|intros H; discriminate].
  destruct (_ || _); [intros H; discriminate|].
  destruct (min_by cost_or_inf (_get_direct_quotes _ intermediate _ _ _)) as [hop2_best|];
    [|intros H; discriminate].
  destruct (float_of_str amount); cbn [bind]; [|intros H; discriminate].
  destruct (float_of_str _); cbn [bind]; [|intros H; discriminate].
  match goal with
  | |- bind ?m _ = _ -> _ => destruct m; cbn [bind]; [|intros H; discriminate]
  end.
  intros H. inversion H; subst. unfold hops_add_up. cbn [hops total_cost_usd].
  eexists; eexists; split; reflexivity.
Qed.

Lemma try_two_hop_adds (self : MultiHopRouter)
  (source intermediate destination token amount : string) (route : MultiHopRoute) :
  _try_two_hop_route self source intermediate destination token amount = Some route ->
  hops_add_up route.
Proof.
  unfold _try_two_hop_route, except.
  destruct (two_hop_body _ _ _ _ _ _) as [o|e] eqn:E; [|intros H; discriminate].
  intros H; subst. eapply two_hop_body_adds. exact E.
Qed.

Lemma two_hop_loop_adds (self : MultiHopRouter) (candidates : list string)
  (source destination token amount : string) :
  Forall hops_add_up (two_hop_loop self candidates source destination token amount).
Proof.
  induction candidates as [|c r IH]; cbn [two_hop_loop]; [constructor|].
  destruct (_ || _); [exact IH|].
  destruct (_try_two_hop_route _ _ _ _ _ _) as [route|] eqn:E; [|exact IH].
  constructor; [eapply try_two_hop_adds; exact E|exact IH].
Qed.

Lemma find_multi_hop_adds (self : MultiHopRouter)
  (source destination token amount : string) (max_hops : Z) :
  Forall hops_add_up
    (_find_multi_hop_routes self source destination token amount max_hops).
Proof.
  unfold _find_multi_hop_routes. destruct (2 <=? max_hops); [|constructor].
  apply two_hop_loop_adds.
Qed.

End MultiHopFacts.

Import invariants.

(** C2.  Every quote an adapter of the repository returns has a total cost
    equal to the [Decimal] sum of its bridge fee, source gas cost and
    destination gas cost, and every route the two-hop search constructs has
    a total cost equal to the sum of the costs of its two hops. *)
Theorem totals_add_up :
  (forall api now rp q, across.get_quote api now rp = Some q -> fees_add_up q)
  /\ (forall now rp q, stargate.get_quote now rp = Some q -> fees_add_up q)
  /\ (forall api now rp q, hop.get_quote api now rp = Some q -> fees_add_up q)
  /\ (forall api now rp q, synapse.get_quote api now rp = Some q -> fees_add_up q)
  /\ (forall api now rp q, celer.get_quote api now rp = Some q -> fees_add_up q)
  /\ (forall now rp q, orbiter.get_quote now rp = Some q -> fees_add_up q)
  /\ (forall api now rp q, debridge.get_quote api now rp = Some q -> fees_add_up q)
  /\ (forall now rp q, layerzero.get_quote now rp = Some q -> fees_add_up q)
  /\ (forall now rp q, wormhole.get_quote now rp = Some q -> fees_add_up q)
  /\ (forall self source destination token amount max_hops,
        Forall hops_add_up
          (multi_hop_router._find_multi_hop_routes self source destination token
             amount max_hops)).
Proof.
  repeat split.
  - apply AdapterFacts.across_quote.
  - apply AdapterFacts.stargate_quote.
  - apply AdapterFacts.hop_quote.
  - apply AdapterFacts.synapse_quote.
  - apply AdapterFacts.celer_quote.
  - apply AdapterFacts.orbiter_quote.
  - apply AdapterFacts.debridge_quote.
  - apply AdapterFacts.layerzero_quote.
  - apply AdapterFacts.wormhole_quote.
  - apply MultiHopFacts.find_multi_hop_adds.
Qed.

(** The mock quote of Across for 1000 USDC from Ethereum to Arbitrum costs
    1.0 + 5.0 + 0.05 = 6.05; the two-hop route of the sample router costs
    3 + 4 = 7. *)
Lemma totals_add_up_witness :
  (exists q,
     across.get_quote None 1700000000
       (samples.usdc_request "0xA0b86991c6218b36c1d19D4a2e9Eb0cE3606eB48") = Some q
     /\ base.total_cost_usd (base.fee_breakdown q) = DFinite false 605 (-2)
     /\ fees_add_up q)
  /\ (exists r,
        multi_hop_router._find_multi_hop_routes (samples.router 10)
          "avalanche" "fantom" "USDC" "1000000" 2 = [r]
        /\ multi_hop_router.total_cost_usd r = 7%float
        /\ hops_add_up r).
Proof.
  split.
  - eexists. split; [vm_compute; reflexivity|]. split; [reflexivity|].
    apply (proj1 totals_add_up None 1700000000
             (samples.usdc_request "0xA0b86991c6218b36c1d19D4a2e9Eb0cE3606eB48")).
    vm_compute. reflexivity.
  - eexists. split; [vm_compute; reflexivity|]. split; [reflexivity|].
    pose proof (proj2 (proj2 (proj2 (proj2 (proj2 (proj2 (proj2 (proj2 (proj2
                  totals_add_up))))))))
                  (samples.router 10) "avalanche" "fantom" "USDC" "1000000" 2)%string
      as H.
    vm_compute in H. inversion H; subst. assumption.
Defined.

Import Py multi_hop_router.

(** C3 (amended).  When the search is on, the cheapest direct quote is
    [direct] and the cheapest two-hop route is [best]: if the cost of
    [direct] is at most the total cost of [best], the answer is the direct
    route, with [best] as the one alternative and the cost difference,
    rounded to two decimals, as [direct_savings_usd]; otherwise the answer
    is [best], with [direct] as the one alternative and [savings_usd] the
    direct cost minus the two-hop cost rounded to two decimals ([None] when
    that difference is zero). *)
Theorem find_best_route_compare (self : MultiHopRouter)
  (source_chain destination_chain token amount : string) (max_hops : Z)
  (direct : Quote) (best : MultiHopRoute) :
  2 <= max_hops ->
  min_by cost_or_inf
    (_get_direct_quotes (bridges self) source_chain destination_chain token amount)
  = Some direct ->
  quote_truthy direct = true ->
  min_by total_cost_usd
    (_find_multi_hop_routes self source_chain destination_chain token amount max_hops)
  = Some best ->
  let answer :=
    find_best_route self source_chain destination_chain token amount max_hops true in
  let direct_cost := cost_or_inf direct in
  let multihop_cost := total_cost_usd best in
  if (direct_cost <=? multihop_cost)%float then
    res_route_type answer = "direct"%string
    /\ best_route answer = Some (Direct direct)
    /\ alternatives answer = [MultiHop (_format_multi_hop_route best)]
    /\ direct_savings_usd answer = Some (round (multihop_cost - direct_cost)%float 2)
    /\ res_savings_usd answer = None
  else
    res_route_type answer = "multi-hop"%string
    /\ best_route answer = Some (MultiHop (_format_multi_hop_route best))
    /\ alternatives answer = [Direct direct]
    /\ direct_savings_usd answer = None
    /\ res_savings_usd answer
       = Some (if (direct_cost - multihop_cost =? 0)%float then None
               else Some (round (direct_cost - multihop_cost)%float 2)).
Proof.
  intros Hhops Hdirect Htruthy Hbest. cbv zeta. unfold find_best_route.
  rewrite Hdirect, Hbest.
  assert (E : (max_hops <? 2) = false) by (apply Z.ltb_ge; exact Hhops).
  rewrite E, Htruthy. cbn [negb orb andb option_map].
  destruct (cost_or_inf direct <=? total_cost_usd best)%float;
    cbn [res_route_type best_route alternatives direct_savings_usd res_savings_usd];
    repeat split; reflexivity.
Qed.

(** The two scenarios of section 8: $10 direct against a $7 two-hop route
    gives the two-hop route with savings 3; $5 direct against $7 gives the
    direct route with the two-hop route as the alternative. *)
Lemma find_best_route_compare_witness :
  (let answer :=
     find_best_route (samples.router 10) "avalanche" "fantom" "USDC" "1000000" 2 true in
   res_route_type answer = "multi-hop"%string
   /\ alternatives answer = [Direct (set_bridge_name (samples.leg 10 "999000") "fixed")]
   /\ res_savings_usd answer = Some (Some 3%float))
  /\ (let answer :=
        find_best_route (samples.router 5) "avalanche" "fantom" "USDC" "1000000" 2 true in
      res_route_type answer = "direct"%string
      /\ best_route answer = Some (Direct (set_bridge_name (samples.leg 5 "999000") "fixed"))
      /\ direct_savings_usd answer = Some 2%float).
Proof.
  split.
  - eassert (Hb : min_by total_cost_usd
                    (_find_multi_hop_routes (samples.router 10)
                       "avalanche" "fantom" "USDC" "1000000" 2) = Some _)
      by (vm_compute; reflexivity).
    pose proof (find_best_route_compare (samples.router 10)
                  "avalanche" "fantom" "USDC" "1000000" 2
                  (set_bridge_name (samples.leg 10 "999000") "fixed") _
                  ltac:(lia) ltac:(vm_compute; reflexivity) eq_refl Hb) as H.
    cbv zeta in H.
    match type of H with
    | if ?c then _ else _ =>
        assert (C : c = false) by (vm_compute; reflexivity); rewrite C in H
    end.
    destruct H as (H1 & H2 & H3 & H4 & H5).
    cbv zeta. rewrite H1, H3, H5. repeat split; vm_compute; reflexivity.
  - eassert (Hb : min_by total_cost_usd
                    (_find_multi_hop_routes (samples.router 5)
                       "avalanche" "fantom" "USDC" "1000000" 2) = Some _)
      by (vm_compute; reflexivity).
    pose proof (find_best_route_compare (samples.router 5)
                  "avalanche" "fantom" "USDC" "1000000" 2
                  (set_bridge_name (samples.leg 5 "999000") "fixed") _
                  ltac:(lia) ltac:(vm_compute; reflexivity) eq_refl Hb) as H.
    cbv zeta in H.
    match type of H with
    | if ?c then _ else _ =>
        assert (C : c = true) by (vm_compute; reflexivity); rewrite C in H
    end.
    destruct H as (H1 & H2 & H3 & H4 & H5).
    cbv zeta. rewrite H1, H2, H4. repeat split; vm_compute; reflexivity.
Defined.

(** C3 as stated fails: [savings_usd] is the difference rounded to two
    decimals, not the difference.  With a direct quote of $10.004 against
    the $7 two-hop route the difference is 3.0039999999999996 and
    [savings_usd] is 3.0. *)
Lemma savings_are_rounded :
  let answer :=
    find_best_route (samples.router 10.004) "avalanche" "fantom" "USDC" "1000000" 2 true in
  let direct_cost := 10.004%float in
  let multihop_cost := 7%float in
  min_by cost_or_inf
    (_get_direct_quotes (bridges (samples.router 10.004))
       "avalanche" "fantom" "USDC" "1000000")
  = Some (set_bridge_name (samples.leg direct_cost "999000") "fixed")
  /\ option_map total_cost_usd
       (min_by total_cost_usd
          (_find_multi_hop_routes (samples.router 10.004)
             "avalanche" "fantom" "USDC" "1000000" 2))
     = Some multihop_cost
  /\ res_route_type answer = "multi-hop"%string
  /\ res_savings_usd answer = Some (Some 3%float)
  /\ res_savings_usd answer <> Some (Some (direct_cost - multihop_cost)%float).
Proof.
  cbv zeta.
  assert (H : res_savings_usd
                (find_best_route (samples.router 10.004)
                   "avalanche" "fantom" "USDC" "1000000" 2 true)
              = Some (Some 3%float)) by (vm_compute; reflexivity).
  split; [vm_compute; reflexivity|]. split; [vm_compute; reflexivity|].
  split; [vm_compute; reflexivity|]. split; [exact H|].
  rewrite H. intros G.
  apply (f_equal (fun o => match o with
                           | Some (Some x) => (x =? 3)%float
                           | _ => false
                           end)) in G.
  vm_compute in G. discriminate.
Qed.

Import reliability_scorer scoring_spec.

Module ScorerFacts.

Lemma completion_times_len (transactions : list TransactionHistory) :
  len (completion_times transactions) = len (filter carries_time transactions).
Proof. unfold completion_times, len. rewrite length_map. reflexivity. Qed.

(** Without a recorded time of 0 the test of the code, [t.status ==
    "completed" and t.actual_time_minutes], keeps the completed
    transactions that carry a time. *)
Lemma has_time_carries (transactions : list TransactionHistory) :
  times_nonzero transactions ->
  filter has_time transactions = filter carries_time transactions.
Proof.
  induction 1 as [|t r Ht Hr IH]; [reflexivity|].
  cbn [filter]. rewrite IH.
  assert (E : has_time t = carries_time t).
  { unfold has_time, carries_time.
    destruct (is_completed t); [|reflexivity]. cbn [andb].
    destruct (actual_time_minutes t) as [n|]; [|reflexivity].
    destruct (n =? 0) eqn:En; [|reflexivity].
    apply Z.eqb_eq in En. subst n. destruct (Ht eq_refl). reflexivity. }
  rewrite E. reflexivity.
Qed.

End ScorerFacts.

(** C6 (amended).  Take a window in which no completed transaction has a
    recorded time of 0.  With fewer than three completed transactions that
    carry a completion time the component is 50.  With three or more, a
    mean [mu] and a population standard deviation [sigma] around it: the
    component is 50 when [mu] is zero, and otherwise [100 - 2 * cv] floored
    at 0, where [cv] is the coefficient of variation as a percentage,
    [sigma / mu * 100].  This holds whatever the [pow] of the C library
    returns. *)
Theorem time_consistency_score (libm_pow : float -> float -> float * Z) :
  (forall transactions,
     times_nonzero transactions ->
     len (completion_times transactions) < 3 ->
     _calculate_time_consistency_score libm_pow transactions = Ok 50%float)
  /\ (forall transactions mu,
        times_nonzero transactions ->
        3 <= len (completion_times transactions) ->
        mean (completion_times transactions) = Ok mu ->
        (mu =? 0)%float = true ->
        _calculate_time_consistency_score libm_pow transactions = Ok 50%float)
  /\ (forall transactions mu sigma,
        times_nonzero transactions ->
        3 <= len (completion_times transactions) ->
        mean (completion_times transactions) = Ok mu ->
        (mu =? 0)%float = false ->
        pstdev libm_pow (completion_times transactions) mu = Ok sigma ->
        _calculate_time_consistency_score libm_pow transactions
        = Ok (consistency (cv_percent sigma mu))).
Proof.
  split; [|split].
  - intros txs Hz H. unfold _calculate_time_consistency_score.
    rewrite ScorerFacts.completion_times_len in H.
    rewrite (ScorerFacts.has_time_carries _ Hz).
    apply Z.ltb_lt in H. rewrite H. reflexivity.
  - intros txs mu Hz H Hmu Hm. unfold _calculate_time_consistency_score.
    rewrite ScorerFacts.completion_times_len in H.
    unfold completion_times, mean in Hmu.
    rewrite (ScorerFacts.has_time_carries _ Hz).
    apply Z.ltb_ge in H. rewrite H, Hmu. cbn [bind]. rewrite Hm. reflexivity.
  - intros txs mu sigma Hz H Hmu Hm Hsigma. unfold _calculate_time_consistency_score.
    rewrite ScorerFacts.completion_times_len in H.
    unfold completion_times, mean in Hmu. unfold completion_times, pstdev in Hsigma.
    rewrite (ScorerFacts.has_time_carries _ Hz).
    apply Z.ltb_ge in H. rewrite H, Hmu. cbn [bind]. rewrite Hm.
    revert Hsigma. unfold sq_dev.
    destruct (mapM _ _) as [devs|]; cbn [bind]; [|intros G; discriminate].
    destruct (float_of_int _) as [n|]; cbn [bind]; [|intros G; discriminate].
    destruct (float_truediv _ n) as [variance|]; cbn [bind]; [|intros G; discriminate].
    intros ->. cbn [bind]. unfold float_truediv. rewrite Hm. reflexivity.
Qed.

(** Four transfers of 3, 5, 3 and 5 minutes: mean 4, standard deviation 1,
    a coefficient of variation of 25 per cent, a component of 50. *)
Lemma time_consistency_score_witness :
  _calculate_time_consistency_score samples.libm_pow samples.window = Ok 50%float
  /\ consistency (cv_percent 1 4) = 50%float.
Proof.
  split; [|vm_compute; reflexivity].
  assert (E : consistency (cv_percent 1 4) = 50%float) by (vm_compute; reflexivity).
  rewrite <- E.
  apply (proj2 (proj2 (time_consistency_score samples.libm_pow))
           samples.window 4%float 1%float).
  - repeat constructor; discriminate.
  - vm_compute. discriminate.
  - vm_compute. reflexivity.
  - vm_compute. reflexivity.
  - vm_compute. reflexivity.
Defined.

(** C6 as stated fails: with the coefficient of variation taken as the
    ratio [sigma / mu] the formula gives 99.5 on the sample window, and the
    component is 50, whatever the [pow] of the C library returns: the
    deviations are 1 and -1, whose squares and root CPython does not ask
    the library for. *)
Lemma time_consistency_not_ratio :
  exists transactions mu sigma,
    times_nonzero transactions
    /\ 3 <= len (completion_times transactions)
    /\ mean (completion_times transactions) = Ok mu
    /\ (mu =? 0)%float = false
    /\ consistency (cv_ratio sigma mu) = 99.5%float
    /\ forall libm_pow,
         pstdev libm_pow (completion_times transactions) mu = Ok sigma
         /\ _calculate_time_consistency_score libm_pow transactions = Ok 50%float
         /\ _calculate_time_consistency_score libm_pow transactions
            <> Ok (consistency (cv_ratio sigma mu)).
Proof.
  exists samples.window, 4%float, 1%float.
  split; [repeat constructor; discriminate|].
  split; [vm_compute; discriminate|].
  split; [vm_compute; reflexivity|]. split; [vm_compute; reflexivity|].
  split; [vm_compute; reflexivity|].
  intros libm_pow.
  assert (H : _calculate_time_consistency_score libm_pow samples.window = Ok 50%float)
    by (vm_compute; reflexivity).
  split; [vm_compute; reflexivity|].
  split; [exact H|].
  rewrite H. intros G.
  apply (f_equal (fun r => match r with
                           | Ok x => (x =? 50)%float
                           | Raise _ => false
                           end)) in G.
  vm_compute in G. discriminate.
Qed.

(** What the amended statement leaves out: a completed transfer recorded
    with a time of 0 is read as one without a time.  Of three completed
    transfers of 0, 3 and 5 minutes (mean 8/3) the code keeps two, and the
    component is the 50 of a window that is too small. *)
Lemma time_consistency_zero_time :
  len (completion_times samples.instant_window) = 3
  /\ (exists mu,
        mean (completion_times samples.instant_window) = Ok mu
        /\ (mu =? 0)%float = false)
  /\ forall libm_pow,
       _calculate_time_consistency_score libm_pow samples.instant_window = Ok 50%float.
Proof.
  split; [reflexivity|]. split.
  - eexists. split; [vm_compute; reflexivity|vm_compute; reflexivity].
  - intros libm_pow. vm_compute. reflexivity.
Qed.

Module TwoHopFacts.

Import Py multi_hop_router two_hop_spec FloatOrder FloatFacts.

(** [float(s)] raises nothing but [ValueError]. *)
Lemma float_of_str_raises (s : string) (e : exn) :
  float_of_str s = Raise e -> e = ValueError.
Proof.
  unfold float_of_str.
  destruct (drop_underscores _ _) as [l|]; [|intros H; inversion H; reflexivity].
  destruct (take_sign l) as [neg body].
  destruct (_ || _); [intros H; discriminate|].
  destruct (String.eqb _ "nan"); [intros H; discriminate|].
  destruct (parse_decimal body) as [[m x]|]; intros H; [discriminate|].
  inversion H; reflexivity.
Qed.

(** The guard [not hop1_output or hop1_output == "0"]. *)
Lemma no_output_guard (q : Quote) :
  no_output q
  <-> (String.eqb (get_or (amount_out q) "0") "" || String.eqb (get_or (amount_out q) "0") "0")
      = true.
Proof.
  unfold no_output. rewrite orb_true_iff, !String.eqb_eq.
  destruct (amount_out q) as [out|]; cbn [get_or].
  - split.
    + intros [H|[H|H]]; [discriminate|left|right]; congruence.
    + intros [H|H]; subst; auto.
  - split; auto.
Qed.

(** The division under the guard [amount_float > 0] has a divisor. *)
Lemma guarded_division (x a : float) :
  (0 <? a)%float = true -> float_truediv x a = Ok (x / a)%float.
Proof.
  intros H. unfold float_truediv. rewrite (ltb_not_eqb _ _ H). reflexivity.
Qed.

Lemma body_no_output (self : MultiHopRouter)
  (source intermediate destination token amount : string) (hop1_best : Quote) :
  first_hop_best self source intermediate token amount = Some hop1_best ->
  no_output hop1_best ->
  two_hop_body self source intermediate destination token amount = Ok None.
Proof.
  unfold first_hop_best, two_hop_body. intros Hb Hn. rewrite Hb.
  apply no_output_guard in Hn. rewrite Hn. reflexivity.
Qed.

Lemma calls_no_output (self : MultiHopRouter)
  (source intermediate destination token amount : string) (hop1_best : Quote) :
  first_hop_best self source intermediate token amount = Some hop1_best ->
  no_output hop1_best ->
  two_hop_calls self source intermediate destination token amount
  = direct_calls (bridges self) source intermediate token amount.
Proof.
  unfold first_hop_best, two_hop_calls. intros Hb Hn. rewrite Hb.
  apply no_output_guard in Hn. rewrite Hn. reflexivity.
Qed.

Lemma body_no_zero_division (self : MultiHopRouter)
  (source intermediate destination token amount : string) :
  two_hop_body self source intermediate destination token amount
  <> Raise ZeroDivisionError.
Proof.
  unfold two_hop_body.
  destruct (min_by cost_or_inf (_get_direct_quotes _ source _ _ _)) as [hop1_best|];
    [|discriminate].
  destruct (_ || _); [discriminate|].
  destruct (min_by cost_or_inf (_get_direct_quotes _ intermediate _ _ _)) as [hop2_best|];
    [|discriminate].
  destruct (float_of_str amount) as [a|e] eqn:Ea; cbn [bind].
  2:{ apply float_of_str_raises in Ea. subst. discriminate. }
  cbn [hop_amount_out].
  destruct (float_of_str (get_or (amount_out hop2_best) "0")) as [f|e] eqn:Ef; cbn [bind].
  2:{ apply float_of_str_raises in Ef. subst. discriminate. }
  destruct (0 <? a)%float eqn:G; cbn [bind].
  - rewrite (guarded_division _ _ G). cbn [bind]. discriminate.
  - discriminate.
Qed.

(** A route built for an amount that is not above zero has slippage 0. *)
Lemma body_slippage (self : MultiHopRouter)
  (source intermediate destination token amount : string)
  (a : float) (route : MultiHopRoute) :
  float_of_str amount = Ok a ->
  (0 <? a)%float = false ->
  two_hop_body self source intermediate destination token amount = Ok (Some route) ->
  slippage_percent route = 0%float.
Proof.
  unfold two_hop_body. intros Ha G.
  destruct (min_by cost_or_inf (_get_direct_quotes _ source _ _ _)) as [hop1_best|];
    [|intros H; discriminate].
  destruct (_ || _); [intros H; discriminate|].
  destruct (min_by cost_or_inf (_get_direct_quotes _ intermediate _ _ _)) as [hop2_best|];
    [|intros H; discriminate].
  rewrite Ha. cbn [bind hop_amount_out].
  destruct (float_of_str (get_or (amount_out hop2_best) "0")) as [f|e]; cbn [bind];
    [|intros H; discriminate].
  rewrite G. cbn [bind]. intros H. inversion H. reflexivity.
Qed.

(** With both hops quoted and both amounts readable, the route is built. *)
Lemma body_builds (self : MultiHopRouter)
  (source intermediate destination token amount : string)
  (a f : float) (hop1_best hop2_best : Quote) :
  first_hop_best self source intermediate token amount = Some hop1_best ->
  ~ no_output hop1_best ->
  second_hop_best self intermediate destination token (get_or (amount_out hop1_best) "0")
  = Some hop2_best ->
  float_of_str amount = Ok a ->
  (0 <? a)%float = false ->
  float_of_str (get_or (amount_out hop2_best) "0") = Ok f ->
  exists route,
    two_hop_body self source intermediate destination token amount = Ok (Some route).
Proof.
  unfold first_hop_best, second_hop_best, two_hop_body. intros H1 Hn H2 Ha G Hf.
  rewrite H1.
  destruct (_ || _) eqn:E; [apply no_output_guard in E; contradiction|].
  rewrite H2, Ha. cbn [bind hop_amount_out]. rewrite Hf. cbn [bind]. rewrite G. cbn [bind].
  eexists. reflexivity.
Qed.

End TwoHopFacts.

Import two_hop_spec.

(** C10.  In the two-hop search, when the cheapest quote of the first hop
    carries no output amount or the output amount ["0"], the attempt through
    that intermediate chain returns [None] and the only calls it has made
    are those of the first hop; the body never raises a division by zero;
    and for an amount that is not above zero every route that is built has
    slippage 0, and a route is built whenever both hops are quoted and the
    amounts can be read. *)
Theorem two_hop_guards (self : MultiHopRouter)
  (source intermediate destination token amount : string) :
  (forall hop1_best : Quote,
     first_hop_best self source intermediate token amount = Some hop1_best ->
     no_output hop1_best ->
     _try_two_hop_route self source intermediate destination token amount = None
     /\ two_hop_calls self source intermediate destination token amount
        = direct_calls (multi_hop_router.bridges self) source intermediate token amount)
  /\ two_hop_body self source intermediate destination token amount
     <> Raise ZeroDivisionError
  /\ (forall (a : float) (route : MultiHopRoute),
        float_of_str amount = Ok a ->
        (0 <? a)%float = false ->
        _try_two_hop_route self source intermediate destination token amount = Some route ->
        slippage_percent route = 0%float)
  /\ (forall (a f : float) (hop1_best hop2_best : Quote),
        first_hop_best self source intermediate token amount = Some hop1_best ->
        ~ no_output hop1_best ->
        second_hop_best self intermediate destination token
          (get_or (multi_hop_router.amount_out hop1_best) "0") = Some hop2_best ->
        float_of_str amount = Ok a ->
        (0 <? a)%float = false ->
        float_of_str (get_or (multi_hop_router.amount_out hop2_best) "0") = Ok f ->
        exists route,
          _try_two_hop_route self source intermediate destination token amount = Some route
          /\ slippage_percent route = 0%float).
Proof.
  split; [|split; [|split]].
  - intros hop1_best Hb Hn. split.
    + unfold _try_two_hop_route.
      rewrite (TwoHopFacts.body_no_output _ _ _ _ _ _ _ Hb Hn). reflexivity.
    + eapply TwoHopFacts.calls_no_output; eassumption.
  - apply TwoHopFacts.body_no_zero_division.
  - intros a route Ha G. unfold _try_two_hop_route, except.
    destruct (two_hop_body _ _ _ _ _ _) as [o|e] eqn:E; [|intros H; discriminate].
    intros H; subst. eapply TwoHopFacts.body_slippage; eassumption.
  - intros a f hop1_best hop2_best H1 Hn H2 Ha G Hf.
    destruct (TwoHopFacts.body_builds _ _ _ _ _ _ _ _ _ _ H1 Hn H2 Ha G Hf) as [route E].
    exists route. split.
    + unfold _try_two_hop_route. rewrite E. reflexivity.
    + exact (TwoHopFacts.body_slippage _ _ _ _ _ _ _ _ Ha G E).
Qed.

(** A first hop that delivers ["0"] ends the attempt after one call; and an
    amount of ["0"] through the sample router gives a route of slippage 0. *)
Lemma two_hop_guards_witness :
  (_try_two_hop_route samples.drained_router "avalanche" "ethereum" "fantom" "USDC" "1000000"
   = None
   /\ two_hop_calls samples.drained_router "avalanche" "ethereum" "fantom" "USDC" "1000000"
      = [("drained", ("avalanche", "ethereum", "USDC", "1000000"))]%string)
  /\ exists route,
       _try_two_hop_route (samples.router 10) "avalanche" "ethereum" "fantom" "USDC" "0"
       = Some route
       /\ slippage_percent route = 0%float.
Proof.
  split.
  - apply (proj1 (two_hop_guards samples.drained_router
                    "avalanche" "ethereum" "fantom" "USDC" "1000000")
             (set_bridge_name (samples.leg 3 "0") "drained")).
    + reflexivity.
    + right; right; reflexivity.
  - apply (proj2 (proj2 (proj2 (two_hop_guards (samples.router 10)
                                   "avalanche" "ethereum" "fantom" "USDC" "0")))
             0%float 996000%float
             (set_bridge_name (samples.leg 3 "998000") "fixed")
             (set_bridge_name (samples.leg 4 "996000") "fixed")).
    + reflexivity.
    + intros [H|[H|H]]; discriminate.
    + reflexivity.
    + vm_compute. reflexivity.
    + vm_compute. reflexivity.
    + vm_compute. reflexivity.
Defined.

Module DictFacts.

Import Py cache_spec.

Section Dict.

Context {V : Type}.

Lemma lookup_set_same (k : string) (v : V) (d : dict V) :
  dict_lookup k (dict_set k v d) = Some v.
Proof.
  induction d as [|[k' v'] r IH]; cbn.
  - rewrite String.eqb_refl. reflexivity.
  - destruct (String.eqb k k') eqn:E; cbn; rewrite ?String.eqb_refl, ?E; auto.
Qed.

Lemma lookup_set_other (k k' : string) (v : V) (d : dict V) :
  k' <> k -> dict_lookup k' (dict_set k v d) = dict_lookup k' d.
Proof.
  intros H. apply String.eqb_neq in H.
  induction d as [|[k0 v0] r IH]; cbn.
  - rewrite H. reflexivity.
  - destruct (String.eqb k k0) eqn:E; cbn.
    + apply String.eqb_eq in E. subst k0. rewrite H. reflexivity.
    + rewrite IH. reflexivity.
Qed.

Lemma lookup_none (k : string) (d : dict V) :
  dict_lookup k d = None <-> ~ In k (map fst d).
Proof.
  induction d as [|[k' v'] r IH]; cbn.
  - tauto.
  - destruct (String.eqb k k') eqn:E.
    + apply String.eqb_eq in E. subst. split; [discriminate|tauto].
    + apply String.eqb_neq in E. rewrite IH. split.
      * intros H [G|G]; [congruence|tauto].
      * tauto.
Qed.

Lemma lookup_some_in (k : string) (v : V) (d : dict V) :
  dict_lookup k d = Some v -> In k (map fst d).
Proof.
  intros H. destruct (in_dec string_dec k (map fst d)) as [G|G]; [exact G|].
  apply lookup_none in G. congruence.
Qed.

(** A new key goes last. *)
Lemma set_new (k : string) (v : V) (d : dict V) :
  dict_lookup k d = None -> dict_set k v d = d ++ [(k, v)].
Proof.
  induction d as [|[k' v'] r IH]; cbn; [reflexivity|].
  destruct (String.eqb k k'); [discriminate|].
  intros H. rewrite (IH H). reflexivity.
Qed.

(** An existing key keeps its place. *)
Lemma set_old_keys (k : string) (v : V) (d : dict V) :
  In k (map fst d) -> map fst (dict_set k v d) = map fst d.
Proof.
  induction d as [|[k' v'] r IH]; cbn; [contradiction|].
  destruct (String.eqb k k') eqn:E.
  - apply String.eqb_eq in E. subst. reflexivity.
  - apply String.eqb_neq in E. intros [H|H]; [congruence|].
    cbn. rewrite (IH H). reflexivity.
Qed.

Lemma set_keys (k : string) (v : V) (d : dict V) :
  map fst (dict_set k v d)
  = if in_dec string_dec k (map fst d) then map fst d else map fst d ++ [k].
Proof.
  destruct (in_dec string_dec k (map fst d)) as [H|H].
  - apply set_old_keys. exact H.
  - apply lookup_none in H. rewrite (set_new _ _ _ H), map_app. reflexivity.
Qed.

Lemma set_wf (k : string) (v : V) (d : dict V) : dict_wf d -> dict_wf (dict_set k v d).
Proof.
  unfold dict_wf. rewrite set_keys.
  destruct (in_dec string_dec k (map fst d)) as [H|H]; [auto|].
  intros G. apply NoDup_rev in G. rewrite <- (rev_involutive (_ ++ _)).
  apply NoDup_rev. rewrite rev_app_distr. cbn. constructor; [|exact G].
  rewrite <- in_rev. exact H.
Qed.

Lemma set_length (k : string) (v : V) (d : dict V) :
  (List.length (dict_set k v d) <= S (List.length d))%nat.
Proof.
  rewrite <- (length_map fst), set_keys, <- (length_map fst d).
  destruct (in_dec _ _ _); [lia|]. rewrite length_app. cbn. lia.
Qed.

Lemma del_keys_in (k k' : string) (d : dict V) :
  In k' (map fst (dict_del k d)) -> In k' (map fst d).
Proof.
  induction d as [|[k0 v0] r IH]; cbn; [tauto|].
  destruct (String.eqb k k0); cbn; tauto.
Qed.

Lemma del_wf (k : string) (d : dict V) : dict_wf d -> dict_wf (dict_del k d).
Proof.
  unfold dict_wf. induction d as [|[k0 v0] r IH]; cbn; [auto|].
  intros H. inversion H as [|? ? Hn Hr]; subst.
  destruct (String.eqb k k0); [exact Hr|].
  cbn. constructor; [|apply IH; exact Hr].
  intros G. apply Hn. eapply del_keys_in. exact G.
Qed.

Lemma lookup_del_same (k : string) (d : dict V) :
  dict_wf d -> dict_lookup k (dict_del k d) = None.
Proof.
  unfold dict_wf. induction d as [|[k0 v0] r IH]; cbn; [reflexivity|].
  intros H. inversion H as [|? ? Hn Hr]; subst.
  destruct (String.eqb k k0) eqn:E.
  - apply String.eqb_eq in E. subst. apply lookup_none. exact Hn.
  - cbn. rewrite E. apply IH. exact Hr.
Qed.

Lemma lookup_del_other (k k' : string) (d : dict V) :
  k' <> k -> dict_lookup k' (dict_del k d) = dict_lookup k' d.
Proof.
  intros H. apply String.eqb_neq in H.
  induction d as [|[k0 v0] r IH]; cbn; [reflexivity|].
  destruct (String.eqb k k0) eqn:E; cbn.
  - apply String.eqb_eq in E. subst k0. rewrite H. reflexivity.
  - rewrite IH. reflexivity.
Qed.

Lemma del_keys_other (k k' : string) (d : dict V) :
  k' <> k -> In k' (map fst d) -> In k' (map fst (dict_del k d)).
Proof.
  intros H G.
  destruct (in_dec string_dec k' (map fst (dict_del k d))) as [I|I]; [exact I|].
  apply lookup_none in I. rewrite (lookup_del_other _ _ _ H) in I.
  apply lookup_none in I. contradiction.
Qed.

Lemma del_length (k : string) (d : dict V) :
  In k (map fst d) -> S (List.length (dict_del k d)) = List.length d.
Proof.
  induction d as [|[k0 v0] r IH]; cbn; [contradiction|].
  destruct (String.eqb k k0) eqn:E; [reflexivity|].
  apply String.eqb_neq in E. intros [H|H]; [congruence|].
  cbn. rewrite (IH H). reflexivity.
Qed.

Lemma del_length_le (k : string) (d : dict V) :
  (List.length (dict_del k d) <= List.length d)%nat.
Proof.
  induction d as [|[k0 v0] r IH]; cbn; [lia|].
  destruct (String.eqb k k0); cbn; lia.
Qed.

Lemma del_Forall (P : string * V -> Prop) (k : string) (d : dict V) :
  Forall P d -> Forall P (dict_del k d).
Proof.
  induction 1 as [|[k0 v0] r Hx Hr IH]; cbn; [constructor|].
  destruct (String.eqb k k0); [exact Hr|constructor; assumption].
Qed.

Lemma del_many_lookup (ks : list string) (k : string) (d : dict V) :
  ~ In k ks -> dict_lookup k (del_many ks d) = dict_lookup k d.
Proof.
  unfold del_many. revert d. induction ks as [|k0 r IH]; cbn; intros d H; [reflexivity|].
  rewrite IH by tauto. apply lookup_del_other. intros E. subst. tauto.
Qed.

Lemma del_many_wf (ks : list string) (d : dict V) : dict_wf d -> dict_wf (del_many ks d).
Proof.
  unfold del_many. revert d. induction ks as [|k0 r IH]; cbn; intros d H; [exact H|].
  apply IH, del_wf, H.
Qed.

(** Deleting distinct keys of the dictionary removes one entry each. *)
Lemma del_many_length (ks : list string) (d : dict V) :
  NoDup ks -> incl ks (map fst d) ->
  (List.length (del_many ks d) + List.length ks = List.length d)%nat.
Proof.
  unfold del_many. revert d.
  induction ks as [|k0 r IH]; cbn; intros d Hn Hi; [lia|].
  inversion Hn as [|? ? Hk Hr]; subst.
  assert (H0 : In k0 (map fst d)) by (apply Hi; left; reflexivity).
  assert (Hi' : incl r (map fst (dict_del k0 d))).
  { intros k Hin. apply del_keys_other.
    - intros E. subst. contradiction.
    - apply Hi. right. exact Hin. }
  pose proof (IH (dict_del k0 d) Hr Hi') as G.
  pose proof (del_length _ _ H0). lia.
Qed.

End Dict.

(** ** The stable sort on integer keys *)

Section Asc.

Context {A : Type}.
Variable key : A -> Z.

Lemma insert_asc_perm (x : A) (l : list A) : Permutation (insert_asc key x l) (x :: l).
Proof.
  induction l as [|y r IH]; cbn.
  - apply Permutation_refl.
  - destruct (key y <? key x).
    + eapply Permutation_trans; [apply perm_skip, IH|apply perm_swap].
    + apply Permutation_refl.
Qed.

Lemma sort_asc_perm (l : list A) : Permutation (sort_asc key l) l.
Proof.
  induction l as [|x r IH]; cbn.
  - apply perm_nil.
  - eapply Permutation_trans; [apply insert_asc_perm|apply perm_skip, IH].
Qed.

Lemma insert_asc_last (x y : A) (l : list A) :
  key y <= key x -> insert_asc key y (l ++ [x]) = insert_asc key y l ++ [x].
Proof.
  intros H. induction l as [|z r IH]; cbn.
  - assert (E : (key x <? key y) = false) by (apply Z.ltb_ge; exact H).
    rewrite E. reflexivity.
  - destruct (key z <? key y); [rewrite IH|]; reflexivity.
Qed.

(** An element no older than the others, added last, is sorted last. *)
Lemma sort_asc_last (x : A) (l : list A) :
  Forall (fun y => key y <= key x) l -> sort_asc key (l ++ [x]) = sort_asc key l ++ [x].
Proof.
  unfold sort_asc. induction 1 as [|y r Hy Hr IH]; cbn; [reflexivity|].
  rewrite IH. apply insert_asc_last. exact Hy.
Qed.

End Asc.

Lemma firstn_in {A : Type} (n : nat) (l : list A) (x : A) : In x (firstn n l) -> In x l.
Proof.
  intros H. rewrite <- (firstn_skipn n l). apply in_or_app. left. exact H.
Qed.

Lemma firstn_nodup {A : Type} (n : nat) (l : list A) : NoDup l -> NoDup (firstn n l).
Proof.
  intros H. rewrite <- (firstn_skipn n l) in H. exact (NoDup_app_remove_r _ _ H).
Qed.

End DictFacts.

Module CacheFacts.

Import Py base route_discovery cache_spec DictFacts.

Lemma len_length {A : Type} (l : list A) : len l = Z.of_nat (List.length l).
Proof. reflexivity. Qed.

(** The lookup leaves the cache as it is or deletes the key it looked up. *)
Lemma lookup_cache (self : RouteDiscoveryEngine) (now : Z) (k : string) :
  quote_cache (snd (_get_cached_quote self now k)) = quote_cache self
  \/ quote_cache (snd (_get_cached_quote self now k)) = dict_del k (quote_cache self).
Proof.
  unfold _get_cached_quote.
  destruct (dict_lookup k (quote_cache self)); [|left; reflexivity].
  destruct (_ <? _); [right|left]; reflexivity.
Qed.

Lemma lookup_ttl (self : RouteDiscoveryEngine) (now : Z) (k : string) :
  cache_ttl_seconds (snd (_get_cached_quote self now k)) = cache_ttl_seconds self.
Proof.
  unfold _get_cached_quote.
  destruct (dict_lookup k (quote_cache self)); [|reflexivity].
  destruct (_ <? _); reflexivity.
Qed.

Lemma lookup_keeps (self : RouteDiscoveryEngine) (now now' : Z) (k : string) :
  dict_wf (quote_cache self) ->
  len (quote_cache self) <= 1000 ->
  stored_by now' (quote_cache self) ->
  dict_wf (quote_cache (snd (_get_cached_quote self now k)))
  /\ len (quote_cache (snd (_get_cached_quote self now k))) <= 1000
  /\ stored_by now' (quote_cache (snd (_get_cached_quote self now k))).
Proof.
  intros Hw Hl Hs. destruct (lookup_cache self now k) as [E|E]; rewrite E.
  - auto.
  - split; [apply del_wf; exact Hw|]. split; [|apply del_Forall; exact Hs].
    rewrite len_length in *. pose proof (del_length_le k (quote_cache self)). lia.
Qed.

Lemma sorted_keys_perm (cache : dict cache_entry) :
  Permutation (map fst (sort_asc (fun kv => timestamp (snd kv)) cache)) (map fst cache).
Proof. apply Permutation_map, sort_asc_perm. Qed.

(** What [_cache_quotes] stores is found under its key, eviction or not. *)
Lemma stored_found (self : RouteDiscoveryEngine) (now : Z) (key : string)
  (qs : list BridgeQuote) :
  dict_wf (quote_cache self) ->
  len (quote_cache self) <= 1000 ->
  stored_by now (quote_cache self) ->
  dict_lookup key (quote_cache (_cache_quotes self now key qs))
  = Some {| timestamp := now; quotes := qs |}.
Proof.
  intros Hw Hl Hs. unfold _cache_quotes.
  set (e := {| timestamp := now; quotes := qs |}).
  set (d := quote_cache self) in *.
  destruct (1000 <? len (dict_set key e d)) eqn:E; cbn [quote_cache with_cache];
    [|apply lookup_set_same].
  etransitivity; [apply del_many_lookup|apply lookup_set_same].
  apply Z.ltb_lt in E. rewrite len_length in *.
  destruct (dict_lookup key d) as [old|] eqn:L.
  - exfalso. apply lookup_some_in in L.
    pose proof (set_old_keys key e d L) as K.
    apply (f_equal (@List.length string)) in K. rewrite !length_map in K. lia.
  - rewrite (set_new _ _ _ L) in *.
    rewrite (sort_asc_last (fun kv => timestamp (snd kv)) (key, e) d Hs).
    rewrite map_app, firstn_app. cbn [map fst].
    rewrite length_app in E. cbn in E.
    assert (G : List.length (map fst (sort_asc (fun kv => timestamp (snd kv)) d))
                = List.length d).
    { rewrite (Permutation_length (sorted_keys_perm d)). apply length_map. }
    rewrite G.
    replace (100 - List.length d)%nat with 0%nat by lia.
    rewrite firstn_O, app_nil_r. intros I.
    apply firstn_in in I. apply (Permutation_in _ (sorted_keys_perm d)) in I.
    apply lookup_none in L. contradiction.
Qed.

Lemma cache_bound (self : RouteDiscoveryEngine) (now : Z) (key : string)
  (qs : list BridgeQuote) :
  dict_wf (quote_cache self) ->
  len (quote_cache self) <= 1000 ->
  dict_wf (quote_cache (_cache_quotes self now key qs))
  /\ len (quote_cache (_cache_quotes self now key qs)) <= 1000
  /\ (len (quote_cache self) = 1000 ->
      dict_lookup key (quote_cache self) = None ->
      len (quote_cache (_cache_quotes self now key qs)) = 901).
Proof.
  intros Hw Hl. unfold _cache_quotes.
  set (e := {| timestamp := now; quotes := qs |}).
  set (d := quote_cache self) in *.
  pose proof (set_wf key e d Hw) as Hw'.
  pose proof (set_length key e d) as Hl'.
  rewrite len_length in Hl.
  destruct (1000 <? len (dict_set key e d)) eqn:E; cbn [quote_cache with_cache].
  - apply Z.ltb_lt in E. rewrite len_length in E.
    set (ks := firstn 100 (map fst (sort_asc (fun kv => timestamp (snd kv))
                                      (dict_set key e d)))).
    change (fold_left (fun c k => dict_del k c) ks (dict_set key e d))
      with (del_many ks (dict_set key e d)).
    assert (Hn : NoDup ks).
    { apply firstn_nodup.
      apply (Permutation_NoDup (Permutation_sym (sorted_keys_perm _))). exact Hw'. }
    assert (Hi : incl ks (map fst (dict_set key e d))).
    { intros k Hk. apply firstn_in in Hk.
      apply (Permutation_in _ (sorted_keys_perm _)). exact Hk. }
    assert (Hk : List.length ks = 100%nat).
    { unfold ks. rewrite length_firstn, (Permutation_length (sorted_keys_perm _)),
        length_map. lia. }
    pose proof (del_many_length ks _ Hn Hi) as G.
    split; [apply del_many_wf; exact Hw'|].
    rewrite !len_length. split; [lia|]. intros; lia.
  - apply Z.ltb_ge in E. split; [exact Hw'|]. split; [exact E|].
    intros H1 H2. rewrite (set_new _ _ _ H2), len_length, length_app in E.
    rewrite len_length in H1. cbn in E. lia.
Qed.

(** The key depends on the five fields alone. *)
Lemma key_of_fields (p q : RouteParams) :
  fingerprint_spec.same_fields p q -> _get_cache_key p = _get_cache_key q.
Proof.
  intros (H1 & H2 & H3 & H4 & H5). unfold _get_cache_key.
  rewrite H1, H2, H3, H4, H5. reflexivity.
Qed.

Lemma live_lookup (self : RouteDiscoveryEngine) (later : Z) (key : string)
  (entry : cache_entry) :
  dict_lookup key (quote_cache self) = Some entry ->
  later - timestamp entry <= timedelta_seconds (cache_ttl_seconds self) ->
  _get_cached_quote self later key = (Some (quotes entry), self).
Proof.
  intros H Hl. unfold _get_cached_quote. rewrite H.
  assert (E : (timedelta_seconds (cache_ttl_seconds self) <? later - timestamp entry)
              = false) by (apply Z.ltb_ge; exact Hl).
  rewrite E. reflexivity.
Qed.

Lemma query_all_app (bs1 bs2 : list BaseBridge) (route_params : RouteParams) :
  _query_all_bridges (bs1 ++ bs2) route_params
  = _query_all_bridges bs1 route_params ++ _query_all_bridges bs2 route_params.
Proof.
  induction bs1 as [|b r IH]; cbn; [reflexivity|].
  destruct (_query_bridge_with_timeout b route_params); cbn; rewrite IH; reflexivity.
Qed.

Lemma query_all_length (bs : list BaseBridge) (route_params : RouteParams) :
  (List.length (_query_all_bridges bs route_params) <= List.length bs)%nat.
Proof.
  induction bs as [|b r IH]; cbn; [lia|].
  destruct (_query_bridge_with_timeout b route_params); cbn; lia.
Qed.

End CacheFacts.

Import Py base route_discovery cache_spec.

(** X1.  The quotes stored for a key are found under that key until they
    are more than [cache_ttl_seconds] old, whether or not the store evicted
    older entries: for a cache of at most 1000 entries, none of them stored
    after [now], a lookup at [later] with [later - now] within the time to
    live returns the stored list and changes nothing. *)
Theorem cache_round_trip (self : RouteDiscoveryEngine) (now later : Z) (key : string)
  (qs : list BridgeQuote) :
  dict_wf (quote_cache self) ->
  len (quote_cache self) <= 1000 ->
  stored_by now (quote_cache self) ->
  later - now <= timedelta_seconds (cache_ttl_seconds self) ->
  _get_cached_quote (_cache_quotes self now key qs) later key
  = (Some qs, _cache_quotes self now key qs).
Proof.
  intros Hw Hl Hs Ht.
  pose proof (CacheFacts.stored_found self now key qs Hw Hl Hs) as H.
  apply (CacheFacts.live_lookup _ later key _ H).
  cbn [timestamp]. unfold _cache_quotes.
  destruct (1000 <? _); cbn [cache_ttl_seconds with_cache]; exact Ht.
Qed.

(** An empty engine with a time to live of 30 seconds: quotes stored at
    second 100 are found 30 seconds later. *)
Lemma cache_round_trip_witness :
  _get_cached_quote (_cache_quotes samples.idle_engine 100000000 "k" samples.three_quotes)
    130000000 "k"
  = (Some samples.three_quotes,
     _cache_quotes samples.idle_engine 100000000 "k" samples.three_quotes).
Proof.
  apply (cache_round_trip samples.idle_engine 100000000 130000000 "k").
  - constructor.
  - vm_compute. discriminate.
  - constructor.
  - vm_compute. discriminate.
Defined.

(** X2.  A lookup later than the time to live finds nothing and deletes the
    entry: the key is gone from the cache, every other key keeps its entry,
    and the adapters are untouched. *)
Theorem cache_expiry (self : RouteDiscoveryEngine) (now : Z) (key : string)
  (entry : cache_entry) :
  dict_wf (quote_cache self) ->
  dict_lookup key (quote_cache self) = Some entry ->
  timedelta_seconds (cache_ttl_seconds self) < now - timestamp entry ->
  fst (_get_cached_quote self now key) = None
  /\ dict_lookup key (quote_cache (snd (_get_cached_quote self now key))) = None
  /\ (forall k, k <> key ->
        dict_lookup k (quote_cache (snd (_get_cached_quote self now key)))
        = dict_lookup k (quote_cache self))
  /\ len (quote_cache (snd (_get_cached_quote self now key))) = len (quote_cache self) - 1
  /\ bridges (snd (_get_cached_quote self now key)) = bridges self.
Proof.
  intros Hw H Ht. unfold _get_cached_quote. rewrite H.
  apply Z.ltb_lt in Ht. rewrite Ht. cbn [fst snd quote_cache with_cache bridges].
  split; [reflexivity|]. split; [apply DictFacts.lookup_del_same; exact Hw|].
  split; [intros k Hk; apply DictFacts.lookup_del_other; exact Hk|].
  split; [|reflexivity].
  rewrite !CacheFacts.len_length.
  pose proof (DictFacts.del_length key _ (DictFacts.lookup_some_in _ _ _ H)). lia.
Qed.

Lemma cache_expiry_witness :
  let self := _cache_quotes samples.idle_engine 100000000 "k" samples.three_quotes in
  fst (_get_cached_quote self 130000001 "k") = None
  /\ dict_lookup "k" (quote_cache (snd (_get_cached_quote self 130000001 "k"))) = None
  /\ (forall k, k <> "k"%string ->
        dict_lookup k (quote_cache (snd (_get_cached_quote self 130000001 "k")))
        = dict_lookup k (quote_cache self))
  /\ len (quote_cache (snd (_get_cached_quote self 130000001 "k")))
     = len (quote_cache self) - 1
  /\ bridges (snd (_get_cached_quote self 130000001 "k")) = bridges self.
Proof.
  cbv zeta.
  apply (cache_expiry _ 130000001 "k"
           {| timestamp := 100000000; quotes := samples.three_quotes |}).
  - repeat constructor. intros [].
  - reflexivity.
  - vm_compute. reflexivity.
Defined.

(** X3.  The cache never grows beyond 1000 entries: storing into a cache of
    at most 1000 entries leaves at most 1000, each key once; and the store
    of a new key into a full cache evicts a hundred entries, leaving 901. *)
Theorem cache_stays_bounded (self : RouteDiscoveryEngine) (now : Z) (key : string)
  (qs : list BridgeQuote) :
  dict_wf (quote_cache self) ->
  len (quote_cache self) <= 1000 ->
  dict_wf (quote_cache (_cache_quotes self now key qs))
  /\ len (quote_cache (_cache_quotes self now key qs)) <= 1000
  /\ (len (quote_cache self) = 1000 ->
      dict_lookup key (quote_cache self) = None ->
      len (quote_cache (_cache_quotes self now key qs)) = 901).
Proof. apply CacheFacts.cache_bound. Qed.

(** A cache of exactly 1000 entries, stored at seconds 1 to 1000: the
    store of a new key evicts the hundred oldest. *)
Lemma cache_stays_bounded_witness :
  let self := samples.full_engine in
  dict_wf (quote_cache (_cache_quotes self 2000000000 "new" samples.three_quotes))
  /\ len (quote_cache (_cache_quotes self 2000000000 "new" samples.three_quotes)) = 901.
Proof.
  cbv zeta.
  assert (Hw : dict_wf (quote_cache samples.full_engine)).
  { unfold dict_wf.
    assert (E : nodup string_dec (map fst (quote_cache samples.full_engine))
                = map fst (quote_cache samples.full_engine))
      by (vm_compute; reflexivity).
    rewrite <- E. apply NoDup_nodup. }
  assert (Hl : len (quote_cache samples.full_engine) <= 1000)
    by (vm_compute; discriminate).
  destruct (cache_stays_bounded samples.full_engine 2000000000 "new"
              samples.three_quotes Hw Hl) as (H1 & _ & H3).
  split; [exact H1|].
  apply H3; vm_compute; reflexivity.
Defined.

(** X4.  Within the time to live a second discovery for the same five
    fields returns the list the first one ranked and stored, whatever the
    adapters would answer now and whatever preferences the new caller
    gives: the cached ranking is not recomputed. *)
Theorem discover_routes_reuses_cache (self self1 : RouteDiscoveryEngine)
  (t0 t1 t2 t3 : Z) (rp rp' : RouteParams) (prefs prefs' : option (dict float))
  (bs' : list BaseBridge) (ranked : list BridgeQuote) :
  dict_wf (quote_cache self) ->
  len (quote_cache self) <= 1000 ->
  stored_by t1 (quote_cache self) ->
  discovery_spec.cache_miss self t0 rp ->
  discover_routes self t0 t1 rp prefs = (Ok ranked, self1) ->
  ranked <> [] ->
  fingerprint_spec.same_fields rp rp' ->
  t2 - t1 <= timedelta_seconds (cache_ttl_seconds self) ->
  discover_routes (with_bridges self1 bs') t2 t3 rp' prefs'
  = (Ok ranked, with_bridges self1 bs').
Proof.
  intros Hw Hl Hs Hmiss H Hne Hsame Ht.
  unfold discovery_spec.cache_miss in Hmiss. unfold discover_routes in H.
  pose proof (CacheFacts.lookup_keeps self t0 t1 (_get_cache_key rp) Hw Hl Hs)
    as (Hw0 & Hl0 & Hs0).
  pose proof (CacheFacts.lookup_ttl self t0 (_get_cache_key rp)) as Httl.
  destruct (_get_cached_quote self t0 (_get_cache_key rp)) as [cached self0].
  cbn [fst snd] in *. subst cached.
  destruct (_query_all_bridges (bridges self0) rp) as [|q qs].
  { inversion H; subst. congruence. }
  destruct (_rank_routes (q :: qs) _) as [ranked'|e]; [|discriminate].
  inversion H; subst ranked' self1. clear H.
  unfold discover_routes.
  rewrite <- (CacheFacts.key_of_fields _ _ Hsame).
  pose proof (CacheFacts.stored_found self0 t1 (_get_cache_key rp) ranked Hw0 Hl0 Hs0) as F.
  assert (G : _get_cached_quote
                (with_bridges (_cache_quotes self0 t1 (_get_cache_key rp) ranked) bs')
                t2 (_get_cache_key rp)
              = (Some ranked,
                 with_bridges (_cache_quotes self0 t1 (_get_cache_key rp) ranked) bs')).
  { apply (CacheFacts.live_lookup
             (with_bridges (_cache_quotes self0 t1 (_get_cache_key rp) ranked) bs')
             t2 _ _ F).
    cbn [timestamp with_bridges cache_ttl_seconds]. unfold _cache_quotes.
    destruct (1000 <? _); cbn [cache_ttl_seconds with_cache]; rewrite Httl; exact Ht. }
  rewrite G. destruct ranked; [congruence|reflexivity].
Qed.

(** The sample quotes ranked at second 100 come back 30 seconds later from
    an engine whose only adapter declines every route. *)
Lemma discover_routes_reuses_cache_witness :
  exists ranked self1,
    discover_routes samples.quoting_engine 100000000 100000000
      (samples.usdc_request "0xA0b86991c6218b36c1d19D4a2e9Eb0cE3606eB48") None
    = (Ok ranked, self1)
    /\ map base.bridge_name ranked = ["A"; "B"; "C"]%string
    /\ discover_routes (with_bridges self1 [samples.declining_bridge])
         130000000 130000000
         (samples.usdc_request "0xA0b86991c6218b36c1d19D4a2e9Eb0cE3606eB48")
         (Some [("cost_weight", 1%float)])
       = (Ok ranked, with_bridges self1 [samples.declining_bridge]).
Proof.
  eassert (H : discover_routes samples.quoting_engine 100000000 100000000
                 (samples.usdc_request "0xA0b86991c6218b36c1d19D4a2e9Eb0cE3606eB48") None
               = (Ok (_ :: _), _)) by (vm_compute; reflexivity).
  eexists. eexists. split; [exact H|].
  split; [vm_compute; reflexivity|].
  apply (discover_routes_reuses_cache samples.quoting_engine _ 100000000 100000000
           130000000 130000000
           (samples.usdc_request "0xA0b86991c6218b36c1d19D4a2e9Eb0cE3606eB48")
           (samples.usdc_request "0xA0b86991c6218b36c1d19D4a2e9Eb0cE3606eB48")
           None (Some [("cost_weight", 1%float)]) [samples.declining_bridge] _).
  - constructor.
  - vm_compute. discriminate.
  - constructor.
  - vm_compute. reflexivity.
  - exact H.
  - discriminate.
  - repeat split.
  - vm_compute. discriminate.
Defined.

(** X5.  Failures are isolated: an adapter that declines, raises or times
    out contributes nothing and changes nothing for the others, and an
    adapter that quotes contributes its quote at its place in the
    registration order. *)
Theorem query_all_bridges_isolates (bs1 bs2 : list BaseBridge) (bridge : BaseBridge)
  (route_params : RouteParams) :
  (forall e, base.get_quote bridge route_params = base.Raised e ->
     _query_all_bridges (bs1 ++ bridge :: bs2) route_params
     = _query_all_bridges (bs1 ++ bs2) route_params)
  /\ (base.get_quote bridge route_params = base.TimedOut ->
      _query_all_bridges (bs1 ++ bridge :: bs2) route_params
      = _query_all_bridges (bs1 ++ bs2) route_params)
  /\ (base.get_quote bridge route_params = base.Returned None ->
      _query_all_bridges (bs1 ++ bridge :: bs2) route_params
      = _query_all_bridges (bs1 ++ bs2) route_params)
  /\ (forall quote, base.get_quote bridge route_params = base.Returned (Some quote) ->
        _query_all_bridges (bs1 ++ bridge :: bs2) route_params
        = _query_all_bridges bs1 route_params
          ++ quote :: _query_all_bridges bs2 route_params)
  /\ len (_query_all_bridges (bs1 ++ bridge :: bs2) route_params)
     <= len (bs1 ++ bridge :: bs2).
Proof.
  split; [|split; [|split; [|split]]].
  5:{ unfold len. apply Nat2Z.inj_le. apply CacheFacts.query_all_length. }
  all: rewrite !CacheFacts.query_all_app; cbn [_query_all_bridges];
    unfold _query_bridge_with_timeout at 1.
  - intros e H. rewrite H. reflexivity.
  - intros H. rewrite H. reflexivity.
  - intros H. rewrite H. reflexivity.
  - intros quote H. rewrite H. reflexivity.
Qed.

(** X6.  Ranking a batch whose largest cost is zero, or whose largest time
    is zero, raises [ZeroDivisionError]: no list is returned. *)
Theorem rank_routes_zero_division (batch : list BridgeQuote) (prefs : dict float) :
  batch <> [] ->
  (ranking_spec.max_cost batch =? 0)%float = true \/ ranking_spec.max_time batch = 0 ->
  _rank_routes batch prefs = Raise ZeroDivisionError.
Proof.
  intros Hne H. destruct batch as [|q r]; [congruence|].
  rewrite RankingFacts.rank_routes_unfold. cbn [mapM].
  unfold score_quote at 1. unfold float_truediv, int_truediv.
  destruct (ranking_spec.max_cost (q :: r) =? 0)%float eqn:E; [reflexivity|].
  destruct H as [H|H]; [discriminate|]. rewrite H. reflexivity.
Qed.

Lemma rank_routes_zero_division_witness :
  _rank_routes [samples.quote "instant" "5" 0 "100"] [] = Raise ZeroDivisionError.
Proof.
  apply rank_routes_zero_division.
  - discriminate.
  - right. reflexivity.
Defined.

Lemma query_all_bridges_isolates_witness :
  let bs1 := [samples.quoting_bridge (samples.quote "A" "5" 180 "100")] in
  let bs2 := [samples.quoting_bridge (samples.quote "B" "8" 90 "100")] in
  let rp := samples.usdc_request "0xA0b86991c6218b36c1d19D4a2e9Eb0cE3606eB48" in
  _query_all_bridges (bs1 ++ samples.failing_bridge :: bs2) rp
  = _query_all_bridges (bs1 ++ bs2) rp
  /\ map base.bridge_name (_query_all_bridges (bs1 ++ bs2) rp) = ["A"; "B"]%string.
Proof.
  cbv zeta. split; [|vm_compute; reflexivity].
  exact (proj1 (query_all_bridges_isolates
                  [samples.quoting_bridge (samples.quote "A" "5" 180 "100")]
                  [samples.quoting_bridge (samples.quote "B" "8" 90 "100")]
                  samples.failing_bridge
                  (samples.usdc_request "0xA0b86991c6218b36c1d19D4a2e9Eb0cE3606eB48"))
           TypeError eq_refl).
Defined.

Module HashFacts.

Import Py cache_spec.

Definition byte (b : Z) : Prop := 0 <= b < 256.

Lemma le_bytes_length (x : Z) : List.length (Hashlib.le_bytes x) = 4%nat.
Proof. reflexivity. Qed.

Lemma land_byte (x : Z) : byte (Z.land x 255).
Proof.
  unfold byte. change 255 with (Z.ones 8). rewrite Z.land_ones by lia.
  pose proof (Z.mod_pos_bound x (2 ^ 8)). lia.
Qed.

Lemma le_bytes_byte (x : Z) : Forall byte (Hashlib.le_bytes x).
Proof. unfold Hashlib.le_bytes. cbn [map seq]. repeat constructor; apply land_byte. Qed.

Lemma md5_length (msg : list Z) : List.length (Hashlib.md5 msg) = 16%nat.
Proof.
  unfold Hashlib.md5. destruct (fold_left _ _ _) as [[[a b] c] d].
  rewrite !length_app, !le_bytes_length. reflexivity.
Qed.

Lemma md5_byte (msg : list Z) : Forall byte (Hashlib.md5 msg).
Proof.
  unfold Hashlib.md5. destruct (fold_left _ _ _) as [[[a b] c] d].
  repeat (apply Forall_app; split); apply le_bytes_byte.
Qed.

Lemma hex_length (bs : list Z) :
  String.length (Hashlib.hex bs) = (2 * List.length bs)%nat.
Proof. induction bs as [|b r IH]; cbn [Hashlib.hex String.length List.length]; lia. Qed.

Lemma hex_digit_char (n : Z) : 0 <= n < 16 -> hex_char (Hashlib.hex_digit n) = true.
Proof.
  intros [H1 H2]. rewrite <- (Z2Nat.id n H1).
  assert (G : (Z.to_nat n < 16)%nat) by lia. revert G.
  generalize (Z.to_nat n) as k. intros k G.
  do 16 (destruct k as [|k]; [reflexivity|]). lia.
Qed.

Lemma hex_chars (bs : list Z) :
  Forall byte bs -> forallb hex_char (list_ascii_of_string (Hashlib.hex bs)) = true.
Proof.
  induction 1 as [|b r Hb Hr IH]; [reflexivity|].
  cbn [Hashlib.hex list_ascii_of_string forallb]. unfold byte in Hb.
  rewrite IH, !hex_digit_char; [reflexivity| |].
  - change 15 with (Z.ones 4). rewrite Z.land_ones by lia.
    pose proof (Z.mod_pos_bound b (2 ^ 4)). lia.
  - rewrite Z.shiftr_div_pow2 by lia. change (2 ^ 4) with 16.
    split; [apply Z.div_pos; lia|apply Z.div_lt_upper_bound; lia].
Qed.

End HashFacts.

(** X7.  A cache key is ["route_quote:"] followed by the 32 lower-case
    hexadecimal digits of an MD5 digest, whatever the route parameters. *)
Theorem cache_key_format (route_params : RouteParams) :
  exists digest,
    _get_cache_key route_params = "route_quote:" +++ digest
    /\ String.length digest = 32%nat
    /\ forallb hex_char (list_ascii_of_string digest) = true.
Proof.
  unfold _get_cache_key. eexists. split; [reflexivity|].
  unfold Hashlib.md5_hexdigest. split.
  - rewrite HashFacts.hex_length, HashFacts.md5_length. reflexivity.
  - apply HashFacts.hex_chars, HashFacts.md5_byte.
Qed.

Module MinFacts.

Import Py FloatOrder FloatFacts.

Lemma ltb_irrefl (x : float) : (x <? x)%float = false.
Proof.
  destruct (x <? x)%float eqn:E; [|reflexivity].
  destruct (ltb_not_nan _ _ E) as [Hx _].
  apply (ltb_lt3 x x Hx Hx) in E. destruct (lt3_irrefl _ E).
Qed.

Lemma leb_refl (x : float) : is_nan x = false -> (x <=? x)%float = true.
Proof. intros H. apply not_ltb_leb; [exact H|exact H|apply ltb_irrefl]. Qed.

Lemma not_leb_leb (x y : float) :
  is_nan x = false -> is_nan y = false ->
  (x <=? y)%float = false -> (y <=? x)%float = true.
Proof.
  intros Hx Hy H. destruct (y <? x)%float eqn:E.
  - apply ltb_leb. exact E.
  - rewrite (not_ltb_leb y x Hy Hx E) in H. discriminate.
Qed.

Lemma leb_infinity (x : float) : is_nan x = false -> (x <=? infinity)%float = true.
Proof.
  intros H. assert (Hi : is_nan infinity = false) by reflexivity.
  apply (leb_le3 x infinity H Hi). apply is_nan_false in H.
  unfold fkey, le3, not_nan in *. change (key (Prim2SF infinity)) with (2, 0, 0).
  destruct (Prim2SF x) as [s|s| |s m e]; cbn; try congruence;
    try destruct s; cbn; try (left; lia); right; reflexivity.
Qed.

Section MinBy.

Context {A : Type}.
Variable key : A -> float.

Lemma fold_min (r : list A) (x : A) :
  is_nan (key x) = false ->
  Forall (fun y => is_nan (key y) = false) r ->
  let m := fold_left (fun m y => if (key y <? key m)%float then y else m) r x in
  In m (x :: r)
  /\ is_nan (key m) = false
  /\ (key m <=? key x)%float = true
  /\ Forall (fun y => (key m <=? key y)%float = true) r.
Proof.
  revert x. induction r as [|y r IH]; intros x Hx Hr; cbn [fold_left].
  - cbv zeta. split; [left; reflexivity|]. split; [exact Hx|].
    split; [apply leb_refl; exact Hx|constructor].
  - inversion Hr as [|? ? Hy Hr']; subst. cbv zeta.
    destruct (key y <? key x)%float eqn:E.
    + destruct (IH y Hy Hr') as (H1 & H2 & H3 & H4).
      split; [right; exact H1|]. split; [exact H2|].
      split; [eapply leb_trans; [exact H3|apply ltb_leb; exact E]|].
      constructor; assumption.
    + destruct (IH x Hx Hr') as (H1 & H2 & H3 & H4).
      split; [destruct H1 as [H1|H1]; [left; exact H1|right; right; exact H1]|].
      split; [exact H2|]. split; [exact H3|].
      constructor; [|exact H4].
      eapply leb_trans; [exact H3|apply not_ltb_leb; assumption].
Qed.

(** [min(l, key=key)] is an element of the list no other is below. *)
Lemma min_by_least (l : list A) (m : A) :
  Forall (fun y => is_nan (key y) = false) l ->
  min_by key l = Some m ->
  In m l /\ is_nan (key m) = false /\ Forall (fun y => (key m <=? key y)%float = true) l.
Proof.
  destruct l as [|x r]; cbn [min_by]; intros Hl H; [discriminate|].
  inversion H; subst. inversion Hl as [|? ? Hx Hr]; subst.
  destruct (fold_min r x Hx Hr) as (H1 & H2 & H3 & H4).
  split; [exact H1|]. split; [exact H2|]. constructor; assumption.
Qed.

Lemma min_by_none (l : list A) : min_by key l = None <-> l = [].
Proof. destruct l; cbn; split; intros H; try reflexivity; discriminate. Qed.

End MinBy.

End MinFacts.

Module RouterFacts.

Import Py multi_hop_router route_shape_spec.





Lemma format_hops_numbers (i : Z) (l : list RouteHop) :
  map hop_number (format_hops i l)
  = map (fun k => i + 1 + Z.of_nat k) (seq 0 (List.length l)).
Proof.
  revert i. induction l as [|h r IH]; intros i; cbn [format_hops map List.length seq];
    [reflexivity|].
  cbn [hop_number]. rewrite IH, <- seq_shift, map_map. f_equal; [lia|].
  apply map_ext. intros k. lia.
Qed.

Lemma format_hops_length (i : Z) (l : list RouteHop) :
  List.length (format_hops i l) = List.length l.
Proof.
  revert i. induction l as [|h r IH]; intros i; cbn; [reflexivity|].
  rewrite IH. reflexivity.
Qed.

End RouterFacts.

Import Py multi_hop_router route_shape_spec.



(** X9.  [find_best_route] answers with a route whenever there is one: the
    answer has no best route exactly when no client quotes the direct route
    and no two-hop route was looked for or found; it is then a direct
    answer without alternatives. *)
Theorem find_best_route_finds (self : MultiHopRouter)
  (source destination token amount : string) (max_hops : Z) (include_multi_hop : bool) :
  let answer :=
    find_best_route self source destination token amount max_hops include_multi_hop in
  (best_route answer = None
   <-> _get_direct_quotes (bridges self) source destination token amount = []
       /\ (include_multi_hop = false \/ max_hops < 2
           \/ _find_multi_hop_routes self source destination token amount max_hops = []))
  /\ (best_route answer = None ->
      res_route_type answer = "direct"%string /\ alternatives answer = []).
Proof.
  cbv zeta. unfold find_best_route.
  set (direct := _get_direct_quotes (bridges self) source destination token amount).
  set (multi := _find_multi_hop_routes self source destination token amount max_hops).
  pose proof (MinFacts.min_by_none cost_or_inf direct) as Hd.
  pose proof (MinFacts.min_by_none total_cost_usd multi) as Hm.
  destruct (negb include_multi_hop || (max_hops <? 2)) eqn:E.
  - cbn [best_route res_route_type alternatives].
    apply orb_true_iff in E. rewrite negb_true_iff, Z.ltb_lt in E.
    split; [|auto].
    destruct (min_by cost_or_inf direct); cbn [option_map].
    + split; [discriminate|]. intros [H _]. apply Hd in H. discriminate.
    + split; [|reflexivity]. intros _. split; [apply Hd; reflexivity|].
      destruct E as [E|E]; auto.
  - apply orb_false_iff in E. rewrite negb_false_iff, Z.ltb_ge in E.
    destruct E as [E1 E2].
    destruct (min_by total_cost_usd multi) as [best_multi_hop|].
    + assert (Hne : multi <> []) by (intros G; apply Hm in G; discriminate).
      destruct (min_by cost_or_inf direct) as [d|];
        [destruct (quote_truthy d)|]; cbn [andb];
        try destruct (_ <=? _)%float;
        cbn [best_route res_route_type alternatives option_map];
        (split; [split; [discriminate|]|discriminate]);
        intros [_ [H|[H|H]]]; try congruence; lia.
    + cbn [best_route res_route_type alternatives].
      split; [|auto].
      destruct (min_by cost_or_inf direct); cbn [option_map].
      * split; [discriminate|]. intros [H _]. apply Hd in H. discriminate.
      * split; [|reflexivity]. intros _. split; [apply Hd; reflexivity|].
        right; right. apply Hm. reflexivity.
Qed.

(** A router without clients has nothing to answer with. *)
Lemma find_best_route_finds_witness :
  best_route (find_best_route samples.empty_router "avalanche" "fantom" "USDC" "1000000"
                2 true) = None
  /\ res_route_type (find_best_route samples.empty_router "avalanche" "fantom" "USDC"
                       "1000000" 2 true) = "direct"%string.
Proof.
  pose proof (find_best_route_finds samples.empty_router
                "avalanche" "fantom" "USDC" "1000000" 2 true) as [H1 H2].
  assert (H : best_route (find_best_route samples.empty_router
                            "avalanche" "fantom" "USDC" "1000000" 2 true) = None).
  { apply H1. split; [reflexivity|]. right; right. reflexivity. }
  split; [exact H|]. exact (proj1 (H2 H)).
Defined.

(** X10.  With costs that are numbers, the best route of the answer is a
    cheapest one: it costs no more than any direct quote and, when two-hop
    routes were looked for, no more than any of them. *)
Theorem find_best_route_cheapest (self : MultiHopRouter)
  (source destination token amount : string) (max_hops : Z) (best : route_value) :
  2 <= max_hops ->
  Forall (fun q => is_nan (cost_or_inf q) = false)
    (_get_direct_quotes (bridges self) source destination token amount) ->
  Forall (fun r => is_nan (total_cost_usd r) = false)
    (_find_multi_hop_routes self source destination token amount max_hops) ->
  best_route (find_best_route self source destination token amount max_hops true)
  = Some best ->
  Forall (fun q => (route_cost best <=? cost_or_inf q)%float = true)
    (_get_direct_quotes (bridges self) source destination token amount)
  /\ Forall (fun r => (route_cost best <=? total_cost_usd r)%float = true)
       (_find_multi_hop_routes self source destination token amount max_hops).
Proof.
  intros Hh Hd Hm. unfold find_best_route.
  set (direct := _get_direct_quotes (bridges self) source destination token amount) in *.
  set (multi := _find_multi_hop_routes self source destination token amount max_hops) in *.
  assert (E : (max_hops <? 2) = false) by (apply Z.ltb_ge; exact Hh).
  rewrite E. cbn [negb orb].
  pose proof (MinFacts.min_by_least cost_or_inf direct) as Ld.
  pose proof (MinFacts.min_by_least total_cost_usd multi) as Lm.
  pose proof (MinFacts.min_by_none cost_or_inf direct) as Nd.
  pose proof (MinFacts.min_by_none total_cost_usd multi) as Nm.
  destruct (min_by total_cost_usd multi) as [bm|].
  - destruct (Lm bm Hm eq_refl) as (_ & Hbm & Hleast).
    destruct (min_by cost_or_inf direct) as [d|].
    + destruct (Ld d Hd eq_refl) as (_ & Hdn & Hdleast).
      destruct (quote_truthy d) eqn:T; cbn [andb].
      * destruct (cost_or_inf d <=? total_cost_usd bm)%float eqn:C;
          cbn [best_route option_map]; intros H; inversion H; subst; cbn [route_cost].
        -- split; [exact Hdleast|].
           eapply Forall_impl; [|exact Hleast]. intros r Hr.
           eapply FloatFacts.leb_trans; eassumption.
        -- cbn [_format_multi_hop_route fr_total_cost_usd]. split; [|exact Hleast].
           pose proof (MinFacts.not_leb_leb _ _ Hdn Hbm C) as G.
           eapply Forall_impl; [|exact Hdleast]. intros q Hq.
           eapply FloatFacts.leb_trans; eassumption.
      * cbn [best_route]. intros H; inversion H; subst.
        cbn [route_cost _format_multi_hop_route fr_total_cost_usd].
        split; [|exact Hleast].
        assert (I : cost_or_inf d = infinity).
        { unfold cost_or_inf. unfold quote_truthy in T.
          destruct (estimated_cost_usd d); [|reflexivity].
          destruct (bridge_name d); discriminate. }
        rewrite I in Hdleast.
        eapply Forall_impl; [|exact Hdleast]. intros q Hq.
        eapply FloatFacts.leb_trans; [apply MinFacts.leb_infinity; exact Hbm|exact Hq].
    + cbn [andb best_route]. intros H; inversion H; subst.
      cbn [route_cost _format_multi_hop_route fr_total_cost_usd].
      split; [|exact Hleast].
      assert (G : direct = []) by (apply Nd; reflexivity). rewrite G. constructor.
  - assert (G : multi = []) by (apply Nm; reflexivity). rewrite G.
    cbn [best_route]. destruct (min_by cost_or_inf direct) as [d|]; cbn [option_map];
      intros H; inversion H; subst. cbn [route_cost].
    destruct (Ld d Hd eq_refl) as (_ & _ & Hdleast).
    split; [exact Hdleast|constructor].
Qed.

(** Against a direct quote of 10 the sample router answers with its
    two-hop route of 7, which is below both. *)
Lemma find_best_route_cheapest_witness :
  exists best,
    best_route (find_best_route (samples.router 10) "avalanche" "fantom" "USDC"
                  "1000000" 2 true) = Some best
    /\ route_cost best = 7%float
    /\ Forall (fun q => (route_cost best <=? cost_or_inf q)%float = true)
         (_get_direct_quotes (bridges (samples.router 10))
            "avalanche" "fantom" "USDC" "1000000").
Proof.
  eassert (H : best_route (find_best_route (samples.router 10) "avalanche" "fantom"
                             "USDC" "1000000" 2 true) = Some _)
    by (vm_compute; reflexivity).
  eexists. split; [exact H|]. split; [vm_compute; reflexivity|].
  apply (find_best_route_cheapest (samples.router 10) "avalanche" "fantom" "USDC"
           "1000000" 2 _).
  - lia.
  - vm_compute. repeat constructor.
  - vm_compute. repeat constructor.
  - exact H.
Defined.

(** X11.  [_get_direct_quotes] returns one quote for each client that
    answers with a quote (not [None], not an exception), in the order the
    clients are registered: the answer of that client with every field
    kept but ["bridge_name"], which is the key under which that very client
    is registered, whatever name the client put there; an answer without
    any key comes back as it is, without a name. *)
Theorem direct_quotes_named (bs : dict BridgeClient)
  (source destination token amount : string) :
  Forall2 (fun entry q =>
             exists answer,
               answers source destination token amount entry answer
               /\ renamed (fst entry) answer q)
    (filter (has_answer source destination token amount) bs)
    (_get_direct_quotes bs source destination token amount).
Proof.
  induction bs as [|[name client] r IH]; cbn [filter _get_direct_quotes]; [constructor|].
  unfold has_answer at 1, _get_quote_safe. cbn [snd].
  destruct (get_quote client source destination token amount) as [[answer|]|e] eqn:E;
    try exact IH.
  assert (G : exists a,
             answers source destination token amount (name, client) a
             /\ renamed name a
                  (if quote_truthy answer then set_bridge_name answer name else answer)).
  { exists answer. split; [exact E|].
    unfold renamed. destruct (quote_truthy answer); reflexivity. }
  destruct (quote_truthy answer); constructor; assumption.
Qed.

(** X12.  The formatted route numbers its hops 1, 2, ... in order, counts
    them in [total_hops], and copies the totals of the route. *)
Theorem format_route_numbers (route : MultiHopRoute) :
  map hop_number (fr_hops (_format_multi_hop_route route))
  = map (fun k => Z.of_nat k) (seq 1 (List.length (hops route)))
  /\ fr_total_hops (_format_multi_hop_route route)
     = len (fr_hops (_format_multi_hop_route route))
  /\ map f_bridge_name (fr_hops (_format_multi_hop_route route))
     = map hop_bridge_name (hops route)
  /\ fr_total_cost_usd (_format_multi_hop_route route) = total_cost_usd route
  /\ fr_final_amount (_format_multi_hop_route route) = final_amount route.
Proof.
  unfold _format_multi_hop_route.
  cbn [fr_hops fr_total_hops fr_total_cost_usd fr_final_amount].
  split.
  - rewrite RouterFacts.format_hops_numbers, <- seq_shift, map_map.
    apply map_ext. intros k. lia.
  - split; [unfold len; rewrite RouterFacts.format_hops_length; reflexivity|].
    split; [|split; reflexivity].
    generalize 0. induction (hops route) as [|h r IH]; intros i; cbn; [reflexivity|].
    rewrite IH. reflexivity.
Qed.

Module AdapterShape.

Import Py base adapter_spec AdapterFacts.

Lemma supports_same (l : list Z) (c : Z) : supports_route l c c = false.
Proof. unfold supports_route. rewrite Z.eqb_refl. cbn. apply andb_false_r. Qed.

Lemma supports_unknown_source (l : list Z) (d : Z) :
  contains l 0 = false -> supports_route l 0 d = false.
Proof. intros H. unfold supports_route. rewrite H. reflexivity. Qed.

Lemma supports_unknown_dest (l : list Z) (s : Z) :
  contains l 0 = false -> supports_route l s 0 = false.
Proof. intros H. unfold supports_route. rewrite H, andb_false_r. reflexivity. Qed.

(** A builder that returns has filled in the adapter's constants. *)
Ltac builder_shape :=
  intros;
  match goal with
  | H : _ = Ok _ |- _ => revert H
  end;
  repeat bind_ok;
  repeat match goal with
         | |- context [let '(_, _) := ?p in _] => destruct p
         end;
  repeat bind_ok;
  let H := fresh "H" in
  intros H; inversion H; subst; unfold quoted_by;
  cbn [bridge_name protocol route_type estimated_time_seconds];
  repeat split; try reflexivity; try lia.

Lemma across_parse_shape (now : Z) (data : json) (rp : RouteParams) (q : BridgeQuote) :
  across._parse_across_response now data rp = Ok q ->
  quoted_by across.name across.protocol q.
Proof. unfold across._parse_across_response. builder_shape. Qed.

Lemma across_mock_shape (now : Z) (rp : RouteParams) (q : BridgeQuote) :
  across._generate_mock_quote now rp = Ok q -> quoted_by across.name across.protocol q.
Proof. unfold across._generate_mock_quote. builder_shape. Qed.

Lemma stargate_shape (now : Z) (rp : RouteParams) (q : BridgeQuote) :
  stargate._generate_estimated_quote now rp = Ok q ->
  quoted_by stargate.name stargate.protocol q.
Proof. unfold stargate._generate_estimated_quote. builder_shape. Qed.

Lemma hop_parse_shape (now : Z) (data : json) (rp : RouteParams) (q : BridgeQuote) :
  hop._parse_hop_response now data rp = Ok q -> quoted_by hop.name hop.protocol q.
Proof. unfold hop._parse_hop_response. builder_shape. Qed.

Lemma hop_estimated_shape (now : Z) (rp : RouteParams) (q : BridgeQuote) :
  hop._generate_estimated_quote now rp = Ok q -> quoted_by hop.name hop.protocol q.
Proof. unfold hop._generate_estimated_quote. builder_shape. Qed.

Lemma synapse_parse_shape (now : Z) (data : json) (rp : RouteParams) (q : BridgeQuote) :
  synapse._parse_synapse_response now data rp = Ok q ->
  quoted_by synapse.name synapse.protocol q.
Proof. unfold synapse._parse_synapse_response. builder_shape. Qed.

Lemma synapse_estimated_shape (now : Z) (rp : RouteParams) (q : BridgeQuote) :
  synapse._generate_estimated_quote now rp = Ok q ->
  quoted_by synapse.name synapse.protocol q.
Proof. unfold synapse._generate_estimated_quote. builder_shape. Qed.

Lemma celer_parse_shape (now : Z) (data : json) (rp : RouteParams) (q : BridgeQuote) :
  celer._parse_celer_response now data rp = Ok q ->
  quoted_by celer.name celer.protocol q.
Proof. unfold celer._parse_celer_response. builder_shape. Qed.

Lemma celer_estimated_shape (now : Z) (rp : RouteParams) (q : BridgeQuote) :
  celer._generate_estimated_quote now rp = Ok q ->
  quoted_by celer.name celer.protocol q.
Proof. unfold celer._generate_estimated_quote. builder_shape. Qed.

(** Orbiter's estimate is 120 seconds between two L2s and 300 otherwise. *)
Lemma orbiter_shape (now : Z) (rp : RouteParams) (q : BridgeQuote) :
  orbiter._generate_estimated_quote now rp = Ok q ->
  quoted_by orbiter.name orbiter.protocol q.
Proof.
  unfold orbiter._generate_estimated_quote. builder_shape.
  match goal with
  | E : (if ?c then _ else _) = Ok _ |- _ => destruct c; revert E
  end.
  - intros G. inversion G. lia.
  - repeat bind_ok. intros G. inversion G. lia.
Qed.

Lemma debridge_parse_shape (now : Z) (data : json) (rp : RouteParams) (q : BridgeQuote) :
  debridge._parse_debridge_response now data rp = Ok q ->
  quoted_by debridge.name debridge.protocol q.
Proof. unfold debridge._parse_debridge_response. builder_shape. Qed.

Lemma debridge_estimated_shape (now : Z) (rp : RouteParams) (q : BridgeQuote) :
  debridge._generate_estimated_quote now rp = Ok q ->
  quoted_by debridge.name debridge.protocol q.
Proof. unfold debridge._generate_estimated_quote. builder_shape. Qed.

Lemma layerzero_shape (now : Z) (rp : RouteParams) (q : BridgeQuote) :
  layerzero._generate_estimated_quote now rp = Ok q ->
  quoted_by layerzero.name layerzero.protocol q.
Proof. unfold layerzero._generate_estimated_quote. builder_shape. Qed.

Lemma wormhole_shape (now : Z) (rp : RouteParams) (q : BridgeQuote) :
  wormhole._generate_estimated_quote now rp = Ok q ->
  quoted_by wormhole.name wormhole.protocol q.
Proof. unfold wormhole._generate_estimated_quote. builder_shape. Qed.

Ltac by_shape :=
  match goal with
  | H : across._parse_across_response _ _ _ = Ok _ |- _ =>
      exact (across_parse_shape _ _ _ _ H)
  | H : across._generate_mock_quote _ _ = Ok _ |- _ => exact (across_mock_shape _ _ _ H)
  | H : stargate._generate_estimated_quote _ _ = Ok _ |- _ =>
      exact (stargate_shape _ _ _ H)
  | H : hop._parse_hop_response _ _ _ = Ok _ |- _ => exact (hop_parse_shape _ _ _ _ H)
  | H : hop._generate_estimated_quote _ _ = Ok _ |- _ =>
      exact (hop_estimated_shape _ _ _ H)
  | H : synapse._parse_synapse_response _ _ _ = Ok _ |- _ =>
      exact (synapse_parse_shape _ _ _ _ H)
  | H : synapse._generate_estimated_quote _ _ = Ok _ |- _ =>
      exact (synapse_estimated_shape _ _ _ H)
  | H : celer._parse_celer_response _ _ _ = Ok _ |- _ =>
      exact (celer_parse_shape _ _ _ _ H)
  | H : celer._generate_estimated_quote _ _ = Ok _ |- _ =>
      exact (celer_estimated_shape _ _ _ H)
  | H : orbiter._generate_estimated_quote _ _ = Ok _ |- _ =>
      exact (orbiter_shape _ _ _ H)
  | H : debridge._parse_debridge_response _ _ _ = Ok _ |- _ =>
      exact (debridge_parse_shape _ _ _ _ H)
  | H : debridge._generate_estimated_quote _ _ = Ok _ |- _ =>
      exact (debridge_estimated_shape _ _ _ H)
  | H : layerzero._generate_estimated_quote _ _ = Ok _ |- _ =>
      exact (layerzero_shape _ _ _ H)
  | H : wormhole._generate_estimated_quote _ _ = Ok _ |- _ =>
      exact (wormhole_shape _ _ _ H)
  end.

Ltac get_quote_shape :=
  intros;
  match goal with
  | H : _ = Some _ |- _ => revert H
  end;
  repeat match goal with
         | |- context [if ?c then _ else _] => destruct c
         | |- context [match ?o with Some _ => _ | None => _ end] =>
             destruct o
         | |- context [match ?r with Ok _ => _ | Raise _ => _ end] =>
             let E := fresh "E" in destruct r eqn:E
         end;
  let H := fresh "H" in
  intros H;
  try discriminate;
  try (apply to_option_some in H);
  try (inversion H; subst);
  by_shape.

Lemma across_quote_shape (api : option json) (now : Z) (rp : RouteParams)
  (q : BridgeQuote) :
  across.get_quote api now rp = Some q -> quoted_by across.name across.protocol q.
Proof. unfold across.get_quote. get_quote_shape. Qed.

Lemma stargate_quote_shape (now : Z) (rp : RouteParams) (q : BridgeQuote) :
  stargate.get_quote now rp = Some q -> quoted_by stargate.name stargate.protocol q.
Proof. unfold stargate.get_quote. get_quote_shape. Qed.

Lemma hop_quote_shape (api : option json) (now : Z) (rp : RouteParams) (q : BridgeQuote) :
  hop.get_quote api now rp = Some q -> quoted_by hop.name hop.protocol q.
Proof. unfold hop.get_quote. get_quote_shape. Qed.

Lemma synapse_quote_shape (api : option json) (now : Z) (rp : RouteParams)
  (q : BridgeQuote) :
  synapse.get_quote api now rp = Some q -> quoted_by synapse.name synapse.protocol q.
Proof. unfold synapse.get_quote. get_quote_shape. Qed.

Lemma celer_quote_shape (api : option json) (now : Z) (rp : RouteParams)
  (q : BridgeQuote) :
  celer.get_quote api now rp = Some q -> quoted_by celer.name celer.protocol q.
Proof. unfold celer.get_quote. get_quote_shape. Qed.

Lemma orbiter_quote_shape (now : Z) (rp : RouteParams) (q : BridgeQuote) :
  orbiter.get_quote now rp = Some q -> quoted_by orbiter.name orbiter.protocol q.
Proof. unfold orbiter.get_quote. get_quote_shape. Qed.

Lemma debridge_quote_shape (api : option json) (now : Z) (rp : RouteParams)
  (q : BridgeQuote) :
  debridge.get_quote api now rp = Some q -> quoted_by debridge.name debridge.protocol q.
Proof. unfold debridge.get_quote. get_quote_shape. Qed.

Lemma layerzero_quote_shape (now : Z) (rp : RouteParams) (q : BridgeQuote) :
  layerzero.get_quote now rp = Some q -> quoted_by layerzero.name layerzero.protocol q.
Proof. unfold layerzero.get_quote. get_quote_shape. Qed.

Lemma wormhole_quote_shape (now : Z) (rp : RouteParams) (q : BridgeQuote) :
  wormhole.get_quote now rp = Some q -> quoted_by wormhole.name wormhole.protocol q.
Proof. unfold wormhole.get_quote. get_quote_shape. Qed.

End AdapterShape.

Module AdapterDeclines.

Import Py base adapter_spec AdapterShape.

Ltac declines getid :=
  intros ? [H|[H|H]];
  [ unfold same_chain in H;
    match goal with
    | |- context [getid (source_chain ?rp)] =>
        replace (getid (source_chain rp)) with (getid (destination_chain rp))
          by (unfold getid; rewrite H; reflexivity)
    end;
    rewrite supports_same; reflexivity
  | rewrite H, supports_unknown_source by reflexivity; reflexivity
  | rewrite H, supports_unknown_dest by reflexivity; reflexivity ].

Lemma across_declines (api : option json) (now : Z) :
  forall rp,
    same_chain rp \/ across._get_chain_id (source_chain rp) = 0
    \/ across._get_chain_id (destination_chain rp) = 0 ->
    across.get_quote api now rp = None.
Proof. unfold across.get_quote. declines across._get_chain_id. Qed.

Lemma stargate_declines (now : Z) :
  forall rp,
    same_chain rp \/ stargate._get_chain_id (source_chain rp) = 0
    \/ stargate._get_chain_id (destination_chain rp) = 0 ->
    stargate.get_quote now rp = None.
Proof. unfold stargate.get_quote. declines stargate._get_chain_id. Qed.

Lemma hop_declines (api : option json) (now : Z) :
  forall rp,
    same_chain rp \/ hop._get_chain_id (source_chain rp) = 0
    \/ hop._get_chain_id (destination_chain rp) = 0 ->
    hop.get_quote api now rp = None.
Proof. unfold hop.get_quote. declines hop._get_chain_id. Qed.

Lemma synapse_declines (api : option json) (now : Z) :
  forall rp,
    same_chain rp \/ synapse._get_chain_id (source_chain rp) = 0
    \/ synapse._get_chain_id (destination_chain rp) = 0 ->
    synapse.get_quote api now rp = None.
Proof. unfold synapse.get_quote. declines synapse._get_chain_id. Qed.

Lemma celer_declines (api : option json) (now : Z) :
  forall rp,
    same_chain rp \/ celer._get_chain_id (source_chain rp) = 0
    \/ celer._get_chain_id (destination_chain rp) = 0 ->
    celer.get_quote api now rp = None.
Proof. unfold celer.get_quote. declines celer._get_chain_id. Qed.

Lemma orbiter_declines (now : Z) :
  forall rp,
    same_chain rp \/ orbiter._get_chain_id (source_chain rp) = 0
    \/ orbiter._get_chain_id (destination_chain rp) = 0 ->
    orbiter.get_quote now rp = None.
Proof. unfold orbiter.get_quote. declines orbiter._get_chain_id. Qed.

Lemma debridge_declines (api : option json) (now : Z) :
  forall rp,
    same_chain rp \/ debridge._get_chain_id (source_chain rp) = 0
    \/ debridge._get_chain_id (destination_chain rp) = 0 ->
    debridge.get_quote api now rp = None.
Proof. unfold debridge.get_quote. declines debridge._get_chain_id. Qed.

Lemma layerzero_declines (now : Z) :
  forall rp,
    same_chain rp \/ layerzero._get_chain_id (source_chain rp) = 0
    \/ layerzero._get_chain_id (destination_chain rp) = 0 ->
    layerzero.get_quote now rp = None.
Proof. unfold layerzero.get_quote. declines layerzero._get_chain_id. Qed.

Lemma wormhole_declines (now : Z) :
  forall rp,
    same_chain rp \/ wormhole._get_chain_id (source_chain rp) = 0
    \/ wormhole._get_chain_id (destination_chain rp) = 0 ->
    wormhole.get_quote now rp = None.
Proof. unfold wormhole.get_quote. declines wormhole._get_chain_id. Qed.

End AdapterDeclines.

Import Py base adapter_spec.

(** X13.  No adapter quotes a transfer from a chain to itself, in whatever
    letter case the chain is named, nor a transfer from or to a chain it
    does not know (chain id 0): [get_quote] returns [None]. *)
Theorem adapters_decline :
  (forall api now rp,
     same_chain rp \/ across._get_chain_id (source_chain rp) = 0
     \/ across._get_chain_id (destination_chain rp) = 0 ->
     across.get_quote api now rp = None)
  /\ (forall now rp,
        same_chain rp \/ stargate._get_chain_id (source_chain rp) = 0
        \/ stargate._get_chain_id (destination_chain rp) = 0 ->
        stargate.get_quote now rp = None)
  /\ (forall api now rp,
        same_chain rp \/ hop._get_chain_id (source_chain rp) = 0
        \/ hop._get_chain_id (destination_chain rp) = 0 ->
        hop.get_quote api now rp = None)
  /\ (forall api now rp,
        same_chain rp \/ synapse._get_chain_id (source_chain rp) = 0
        \/ synapse._get_chain_id (destination_chain rp) = 0 ->
        synapse.get_quote api now rp = None)
  /\ (forall api now rp,
        same_chain rp \/ celer._get_chain_id (source_chain rp) = 0
        \/ celer._get_chain_id (destination_chain rp) = 0 ->
        celer.get_quote api now rp = None)
  /\ (forall now rp,
        same_chain rp \/ orbiter._get_chain_id (source_chain rp) = 0
        \/ orbiter._get_chain_id (destination_chain rp) = 0 ->
        orbiter.get_quote now rp = None)
  /\ (forall api now rp,
        same_chain rp \/ debridge._get_chain_id (source_chain rp) = 0
        \/ debridge._get_chain_id (destination_chain rp) = 0 ->
        debridge.get_quote api now rp = None)
  /\ (forall now rp,
        same_chain rp \/ layerzero._get_chain_id (source_chain rp) = 0
        \/ layerzero._get_chain_id (destination_chain rp) = 0 ->
        layerzero.get_quote now rp = None)
  /\ (forall now rp,
        same_chain rp \/ wormhole._get_chain_id (source_chain rp) = 0
        \/ wormhole._get_chain_id (destination_chain rp) = 0 ->
        wormhole.get_quote now rp = None).
Proof.
  repeat split.
  - apply AdapterDeclines.across_declines.
  - apply AdapterDeclines.stargate_declines.
  - apply AdapterDeclines.hop_declines.
  - apply AdapterDeclines.synapse_declines.
  - apply AdapterDeclines.celer_declines.
  - apply AdapterDeclines.orbiter_declines.
  - apply AdapterDeclines.debridge_declines.
  - apply AdapterDeclines.layerzero_declines.
  - apply AdapterDeclines.wormhole_declines.
Qed.

(** Across declines a transfer from ["Ethereum"] to ["ethereum"], and one
    to a chain it has no id for. *)
Lemma adapters_decline_witness :
  across.get_quote None 1700000000
    {| source_chain := "Ethereum"; destination_chain := "ethereum";
       source_token := "USDC"; destination_token := "USDC"; amount := "1000000";
       user_address := None |} = None
  /\ across.get_quote None 1700000000
       {| source_chain := "ethereum"; destination_chain := "solana";
          source_token := "USDC"; destination_token := "USDC"; amount := "1000000";
          user_address := None |} = None.
Proof.
  split.
  - apply (proj1 adapters_decline). left. reflexivity.
  - apply (proj1 adapters_decline). right; right. reflexivity.
Defined.

(** X14.  Every quote an adapter returns is a direct route under the
    adapter's own name and protocol, with a positive time estimate. *)
Theorem adapter_quotes_shape :
  (forall api now rp q,
     across.get_quote api now rp = Some q -> quoted_by across.name across.protocol q)
  /\ (forall now rp q,
        stargate.get_quote now rp = Some q -> quoted_by stargate.name stargate.protocol q)
  /\ (forall api now rp q,
        hop.get_quote api now rp = Some q -> quoted_by hop.name hop.protocol q)
  /\ (forall api now rp q,
        synapse.get_quote api now rp = Some q -> quoted_by synapse.name synapse.protocol q)
  /\ (forall api now rp q,
        celer.get_quote api now rp = Some q -> quoted_by celer.name celer.protocol q)
  /\ (forall now rp q,
        orbiter.get_quote now rp = Some q -> quoted_by orbiter.name orbiter.protocol q)
  /\ (forall api now rp q,
        debridge.get_quote api now rp = Some q ->
        quoted_by debridge.name debridge.protocol q)
  /\ (forall now rp q,
        layerzero.get_quote now rp = Some q ->
        quoted_by layerzero.name layerzero.protocol q)
  /\ (forall now rp q,
        wormhole.get_quote now rp = Some q -> quoted_by wormhole.name wormhole.protocol q).
Proof.
  split; [exact AdapterShape.across_quote_shape|].
  split; [exact AdapterShape.stargate_quote_shape|].
  split; [exact AdapterShape.hop_quote_shape|].
  split; [exact AdapterShape.synapse_quote_shape|].
  split; [exact AdapterShape.celer_quote_shape|].
  split; [exact AdapterShape.orbiter_quote_shape|].
  split; [exact AdapterShape.debridge_quote_shape|].
  split; [exact AdapterShape.layerzero_quote_shape|].
  exact AdapterShape.wormhole_quote_shape.
Qed.

(** Orbiter between two L2s: 120 seconds. *)
Lemma adapter_quotes_shape_witness :
  exists q,
    orbiter.get_quote 1700000000
      {| source_chain := "arbitrum"; destination_chain := "base";
         source_token := "USDC"; destination_token := "USDC"; amount := "1000000";
         user_address := None |} = Some q
    /\ estimated_time_seconds q = 120
    /\ quoted_by orbiter.name orbiter.protocol q.
Proof.
  eexists. split; [vm_compute; reflexivity|]. split; [reflexivity|].
  apply (proj1 (proj2 (proj2 (proj2 (proj2 (proj2 adapter_quotes_shape)))))
           1700000000
           {| source_chain := "arbitrum"; destination_chain := "base";
              source_token := "USDC"; destination_token := "USDC"; amount := "1000000";
              user_address := None |}).
  vm_compute. reflexivity.
Defined.

Module ScoreFacts.

Import Py reliability_scorer rating_spec FloatOrder FloatFacts.

Lemma max0_nonneg (x : float) : (0 <=? max0 x)%float = true.
Proof.
  unfold max0. destruct (0 <? x)%float eqn:E.
  - apply ltb_leb. exact E.
  - reflexivity.
Qed.

(** Below a threshold means below every higher one. *)
Lemma below_higher (lo hi score : float) :
  (lo <=? hi)%float = true -> (lo <=? score)%float = false ->
  (hi <=? score)%float = false.
Proof.
  intros H L. destruct (hi <=? score)%float eqn:E; [|reflexivity].
  rewrite (leb_trans _ _ _ H E) in L. discriminate.
Qed.

Lemma not_above (lo hi score : float) :
  (lo <=? hi)%float = true -> (lo <=? score)%float = false ->
  (hi <? score)%float = false.
Proof.
  intros H L. destruct (hi <? score)%float eqn:E; [|reflexivity].
  rewrite (leb_trans _ _ _ H (ltb_leb _ _ E)) in L. discriminate.
Qed.

Lemma ratio_same (n : Z) : 0 < n -> float_of_ratio n n = 1%float.
Proof.
  intros H. unfold float_of_ratio. cbv zeta.
  assert (E1 : (n =? 0) = false) by (apply Z.eqb_neq; lia).
  assert (E2 : (n <? 0) = false) by (apply Z.ltb_ge; lia).
  rewrite (Z.abs_eq n) by lia. rewrite E1, E2. cbn [xorb].
  replace (66 + Z.log2 n - Z.log2 n) with 66 by lia.
  change (Z.max 0 66) with 66.
  rewrite (Z.mul_comm n (2 ^ 66)).
  rewrite Z.div_mul by lia. rewrite Z.mod_mul by lia.
  vm_compute. reflexivity.
Qed.

Lemma ratio_zero (n : Z) : 0 < n -> float_of_ratio 0 n = 0%float.
Proof.
  intros H. unfold float_of_ratio. cbn.
  assert (E2 : (n <? 0) = false) by (apply Z.ltb_ge; lia).
  rewrite E2. reflexivity.
Qed.

Lemma filter_length {A : Type} (f : A -> bool) (l : list A) :
  (List.length (filter f l) <= List.length l)%nat.
Proof. induction l as [|x r IH]; cbn; [lia|]. destruct (f x); cbn; lia. Qed.

Lemma filter_all {A : Type} (f : A -> bool) (l : list A) :
  Forall (fun x => f x = true) l -> filter f l = l.
Proof. induction 1 as [|x r Hx Hr IH]; cbn; [reflexivity|]. rewrite Hx, IH. reflexivity. Qed.

Lemma filter_none {A : Type} (f : A -> bool) (l : list A) :
  Forall (fun x => f x = false) l -> filter f l = [].
Proof. induction 1 as [|x r Hx Hr IH]; cbn; [reflexivity|]. rewrite Hx. exact IH. Qed.

(** The success score of a non-empty window, without its [try]. *)
Lemma success_score_value (t : TransactionHistory) (r : list TransactionHistory) :
  let total := len (t :: r) in
  let completed := len (filter is_completed (t :: r)) in
  let success_rate := (float_of_ratio completed total * 100)%float in
  _calculate_success_score (t :: r)
  = Ok (if (98 <=? success_rate)%float then 100%float else success_rate).
Proof.
  cbv zeta. unfold _calculate_success_score.
  rewrite RankingFacts.int_truediv_ratio.
  - cbn [bind]. destruct (98 <=? _)%float; reflexivity.
  - unfold len. pose proof (filter_length is_completed (t :: r)). lia.
  - unfold len. cbn [List.length]. lia.
Qed.

End ScoreFacts.

Import Py reliability_scorer scoring_spec rating_spec.

(** X15.  A higher score never gets a worse rating. *)
Theorem get_rating_monotone (lower higher : float) :
  (lower <=? higher)%float = true ->
  rating_rank (_get_rating higher) <= rating_rank (_get_rating lower).
Proof.
  intros H. unfold _get_rating.
  repeat match goal with
         | |- context [if (?t <=? lower)%float then _ else _] =>
             let E := fresh "E" in
             destruct (t <=? lower)%float eqn:E;
             [ rewrite (FloatFacts.leb_trans _ _ _ E H);
               apply Z.leb_le; vm_compute; reflexivity
             | destruct (t <=? higher)%float;
               [ repeat match goal with
                        | |- context [if (?u <=? lower)%float then _ else _] =>
                            destruct (u <=? lower)%float
                        end;
                 apply Z.leb_le; vm_compute; reflexivity
               | ] ]
         end.
  apply Z.leb_le. vm_compute. reflexivity.
Qed.

Lemma get_rating_monotone_witness :
  rating_rank (_get_rating 91.5) <= rating_rank (_get_rating 74.9).
Proof. apply get_rating_monotone. vm_compute. reflexivity. Defined.

(** X16.  The time and cost consistency scores are never negative and
    never a NaN: whenever one is computed it is at least 0, whatever the
    [pow] of the C library returns. *)
Theorem consistency_scores_not_negative (libm_pow : float -> float -> float * Z)
  (transactions : list TransactionHistory) :
  (forall score, _calculate_time_consistency_score libm_pow transactions = Ok score ->
     (0 <=? score)%float = true)
  /\ (forall score, _calculate_cost_consistency_score libm_pow transactions = Ok score ->
        (0 <=? score)%float = true).
Proof.
  split; intros score.
  - unfold _calculate_time_consistency_score.
    destruct (_ <? 3); [intros H; inversion H; reflexivity|].
    destruct (int_truediv _ _) as [avg|]; cbn [bind]; [|discriminate].
    destruct (avg =? 0)%float; [intros H; inversion H; reflexivity|].
    destruct (mapM _ _); cbn [bind]; [|discriminate].
    destruct (float_of_int _); cbn [bind]; [|discriminate].
    destruct (float_truediv _ _); cbn [bind]; [|discriminate].
    destruct (float_root _ _); cbn [bind]; [|discriminate].
    destruct (float_truediv _ _); cbn [bind]; [|discriminate].
    intros H. inversion H. apply ScoreFacts.max0_nonneg.
  - unfold _calculate_cost_consistency_score.
    destruct (_ <? 3); [intros H; inversion H; reflexivity|].
    destruct (float_of_int _); cbn [bind]; [|discriminate].
    destruct (float_truediv _ _) as [avg|]; cbn [bind]; [|discriminate].
    destruct (avg =? 0)%float; [intros H; inversion H; reflexivity|].
    destruct (mapM _ _); cbn [bind]; [|discriminate].
    destruct (float_truediv _ _); cbn [bind]; [|discriminate].
    destruct (float_root _ _); cbn [bind]; [|discriminate].
    destruct (float_truediv _ _); cbn [bind]; [|discriminate].
    intros H. inversion H. apply ScoreFacts.max0_nonneg.
Qed.

(** Costs of 2, 2.5 and 3: a score between 0 and 100. *)
Lemma consistency_scores_not_negative_witness :
  exists score,
    _calculate_cost_consistency_score samples.libm_pow samples.mixed_window = Ok score
    /\ (0 <=? score)%float = true
    /\ (score <? 100)%float = true.
Proof.
  eexists. split; [vm_compute; reflexivity|]. split; [|vm_compute; reflexivity].
  apply (proj2 (consistency_scores_not_negative samples.libm_pow samples.mixed_window)).
  vm_compute. reflexivity.
Defined.

(** X17.  The success score is always computed and never above 100: it is
    0 for an empty window and for a window without a completed transaction,
    100 for a window of completed transactions only, and otherwise the
    share of completed transactions as a percentage, raised to 100 from 98
    on. *)
Theorem success_score_range (transactions : list TransactionHistory) :
  (exists score,
     _calculate_success_score transactions = Ok score
     /\ (100 <? score)%float = false)
  /\ (transactions = [] -> _calculate_success_score transactions = Ok 0%float)
  /\ (transactions <> [] ->
      Forall (fun t => is_completed t = true) transactions ->
      _calculate_success_score transactions = Ok 100%float)
  /\ (Forall (fun t => is_completed t = false) transactions ->
      _calculate_success_score transactions = Ok 0%float).
Proof.
  destruct transactions as [|t r].
  - split; [exists 0%float; split; reflexivity|].
    split; [reflexivity|]. split; [congruence|reflexivity].
  - pose proof (ScoreFacts.success_score_value t r) as V. cbv zeta in V.
    split; [|split; [discriminate|split]].
    + eexists. split; [exact V|].
      destruct (98 <=? _)%float eqn:E; [reflexivity|].
      apply (ScoreFacts.not_above 98 100); [reflexivity|exact E].
    + intros _ H. rewrite V, (ScoreFacts.filter_all _ _ H).
      rewrite ScoreFacts.ratio_same by (unfold len; cbn [List.length]; lia).
      reflexivity.
    + intros H. rewrite V, (ScoreFacts.filter_none _ _ H).
      change (len []) with 0.
      rewrite ScoreFacts.ratio_zero by (unfold len; cbn [List.length]; lia).
      reflexivity.
Qed.

(** Three completed transactions out of four: 75. *)
Lemma success_score_range_witness :
  _calculate_success_score samples.mixed_window = Ok 75%float
  /\ _calculate_success_score (map samples.transaction [3; 5; 3; 5]) = Ok 100%float.
Proof.
  split; [vm_compute; reflexivity|].
  apply (proj1 (proj2 (proj2 (success_score_range _)))).
  - discriminate.
  - repeat constructor.
Defined.

(** X18.  Rating and recommendation go together: A+ is "Highly
    recommended"; A and A- are "Recommended"; B+ and B are "Acceptable",
    with the reason read off the weakest component; B- and C+ are "Use
    with caution"; C, C- and D are "Not recommended". *)
Theorem rating_matches_recommendation (overall success time cost : float) :
  let rating := _get_rating overall in
  let advice := _get_recommendation overall success time cost in
  (rating_rank rating = 0 <-> says "Highly recommended" advice)
  /\ (1 <= rating_rank rating <= 2 <-> says "Recommended" advice)
  /\ (3 <= rating_rank rating <= 4 <-> says "Acceptable" advice)
  /\ (5 <= rating_rank rating <= 6 <-> says "Use with caution" advice)
  /\ (7 <= rating_rank rating <= 9 <-> says "Not recommended" advice).
Proof.
  cbv zeta. unfold _get_rating, _get_recommendation, says.
  destruct (90 <=? overall)%float eqn:E90.
  { vm_compute. repeat split; intros; try discriminate; try reflexivity;
      try (exfalso; lia); intuition discriminate. }
  destruct (85 <=? overall)%float eqn:E85.
  { rewrite (FloatFacts.leb_trans 80 85 overall eq_refl E85).
    vm_compute. repeat split; intros; try discriminate; try reflexivity;
      intuition discriminate. }
  destruct (80 <=? overall)%float eqn:E80.
  { vm_compute. repeat split; intros; try discriminate; try reflexivity;
      intuition discriminate. }
  destruct (75 <=? overall)%float eqn:E75.
  { rewrite (FloatFacts.leb_trans 70 75 overall eq_refl E75).
    destruct (success <? 90)%float, (time <? 70)%float, (cost <? 70)%float;
      vm_compute; repeat split; intros; try discriminate; try reflexivity;
      intuition discriminate. }
  destruct (70 <=? overall)%float eqn:E70.
  { destruct (success <? 90)%float, (time <? 70)%float, (cost <? 70)%float;
      vm_compute; repeat split; intros; try discriminate; try reflexivity;
      intuition discriminate. }
  destruct (65 <=? overall)%float eqn:E65.
  { rewrite (FloatFacts.leb_trans 60 65 overall eq_refl E65).
    vm_compute. repeat split; intros; try discriminate; try reflexivity;
      intuition discriminate. }
  destruct (60 <=? overall)%float eqn:E60.
  { vm_compute. repeat split; intros; try discriminate; try reflexivity;
      intuition discriminate. }
  destruct (55 <=? overall)%float, (50 <=? overall)%float;
    vm_compute; repeat split; intros; try discriminate; try reflexivity;
    intuition discriminate.
Qed.

Module ApiFacts.

Import Py schemas_route api_routes api_spec.

Lemma str_in_In (x : string) (l : list string) : str_in x l = true <-> In x l.
Proof.
  unfold str_in. rewrite existsb_exists. split.
  - intros (y & Hy & E). apply String.eqb_eq in E. subst. exact Hy.
  - intros H. exists x. split; [exact H|apply String.eqb_refl].
Qed.

Lemma allowed_lower (c : string) : In c allowed_chains -> lower c = c.
Proof.
  unfold allowed_chains. cbn [In].
  intros [H|[H|[H|[H|[H|[]]]]]]; subst; reflexivity.
Qed.

Lemma validate_chain_ok (v c : string) :
  validate_chain v = Ok c -> c = lower v /\ In c allowed_chains.
Proof.
  unfold validate_chain. destruct (str_in (lower v) allowed_chains) eqn:E; cbn [negb];
    intros H; inversion H; subst.
  split; [reflexivity|apply str_in_In; exact E].
Qed.

Lemma validate_chain_lower (a b : string) :
  lower a = lower b -> validate_chain a = validate_chain b.
Proof. intros H. unfold validate_chain. rewrite H. reflexivity. Qed.

Lemma parse_request_params (a b ra rb : RouteQuoteRequest) :
  same_but_chain_case a b ->
  parse_request a = Ok ra -> parse_request b = Ok rb ->
  fingerprint_spec.same_fields (params_of ra) (params_of rb).
Proof.
  intros (H1 & H2 & H3 & H4 & H5). unfold parse_request.
  rewrite (validate_chain_lower _ _ H1), (validate_chain_lower _ _ H2).
  destruct (validate_chain (source_chain b)) as [s|]; cbn [bind]; [|discriminate].
  destruct (validate_chain (destination_chain b)) as [d|]; cbn [bind]; [|discriminate].
  intros Ha Hb. inversion Ha; inversion Hb; subst.
  unfold fingerprint_spec.same_fields. cbn. auto.
Qed.

End ApiFacts.

Import Py schemas_route api_routes api_spec.

(** X19.  The chain validator accepts exactly the names that are one of
    the five allowed chains once lower-cased, and returns them lower-cased;
    any other name raises [ValueError].  What it returns it accepts again,
    unchanged. *)
Theorem validate_chain_accepts (v : string) :
  (In (lower v) allowed_chains ->
   validate_chain v = Ok (lower v) /\ validate_chain (lower v) = Ok (lower v))
  /\ (~ In (lower v) allowed_chains -> validate_chain v = Raise ValueError)
  /\ (forall c, validate_chain v = Ok c -> In c allowed_chains /\ validate_chain c = Ok c).
Proof.
  split; [|split].
  - intros H. pose proof (ApiFacts.allowed_lower _ H) as L.
    apply ApiFacts.str_in_In in H.
    unfold validate_chain. rewrite L, H. split; reflexivity.
  - intros H. unfold validate_chain.
    destruct (str_in (lower v) allowed_chains) eqn:E; [|reflexivity].
    apply ApiFacts.str_in_In in E. contradiction.
  - intros c H. destruct (ApiFacts.validate_chain_ok _ _ H) as [E I].
    split; [exact I|].
    pose proof (ApiFacts.allowed_lower _ I) as L.
    apply ApiFacts.str_in_In in I.
    unfold validate_chain. rewrite L, I. reflexivity.
Qed.

Lemma validate_chain_accepts_witness :
  validate_chain "Arbitrum" = Ok "arbitrum"%string
  /\ validate_chain "solana" = Raise ValueError.
Proof.
  split.
  - apply (proj1 (validate_chain_accepts "Arbitrum")). vm_compute. tauto.
  - apply (proj1 (proj2 (validate_chain_accepts "solana"))). vm_compute.
    intros H. repeat (destruct H as [H|H]; [discriminate|]). exact H.
Defined.

(** X20.  Through the request schema the letter case of the chain names
    does not reach the cache: two request bodies that differ only there
    (and in the user address), once validated, get the same cache key. *)
Theorem validated_key_ignores_chain_case (a b ra rb : RouteQuoteRequest) :
  same_but_chain_case a b ->
  parse_request a = Ok ra ->
  parse_request b = Ok rb ->
  route_discovery._get_cache_key (params_of ra)
  = route_discovery._get_cache_key (params_of rb).
Proof.
  intros H Ha Hb. apply CacheFacts.key_of_fields.
  eapply ApiFacts.parse_request_params; eassumption.
Qed.

Lemma validated_key_ignores_chain_case_witness :
  exists ra rb,
    parse_request (api_samples.request_body "Ethereum" "ARBITRUM") = Ok ra
    /\ parse_request (api_samples.request_body "ethereum" "arbitrum") = Ok rb
    /\ route_discovery._get_cache_key (params_of ra)
       = route_discovery._get_cache_key (params_of rb).
Proof.
  eexists. eexists. split; [vm_compute; reflexivity|]. split; [vm_compute; reflexivity|].
  eapply (validated_key_ignores_chain_case
            (api_samples.request_body "Ethereum" "ARBITRUM")
            (api_samples.request_body "ethereum" "arbitrum")).
  - repeat split.
  - vm_compute. reflexivity.
  - vm_compute. reflexivity.
Defined.

(** X21.  The body of the quote handler, which runs once the framework
    has validated the request and the API-key dependency has let the call
    through, never answers 404.  Its only error status is 500: when
    discovery returns no quote, the 404 the body raises is caught by its
    own [except Exception] and comes out as a 500 whose detail wraps the
    404; an exception of discovery comes out as a 500 too.  When discovery
    returns quotes the answer lists them in the same order and expires 300
    seconds later; in every case the engine is left as discovery left
    it. *)
Theorem route_quote_status (str : caught -> string)
  (engine : route_discovery.RouteDiscoveryEngine) (now_lookup now_store : Z)
  (uuid_hex : string) (now_seconds : Z) (request : RouteQuoteRequest) :
  let found :=
    route_discovery.discover_routes engine now_lookup now_store (params_of request) None in
  let answer :=
    get_route_quote str engine now_lookup now_store uuid_hex now_seconds request in
  (forall status_code detail,
     fst answer = HTTPException status_code detail -> status_code = 500)
  /\ (fst found = Ok [] ->
      fst answer
      = HTTPException 500
          ("Failed to get route quote: "
           +++ str (Http 404 ("No routes found for " +++ source_chain request
                              +++ " -> " +++ destination_chain request))))
  /\ (forall e, fst found = Raise e ->
        fst answer = HTTPException 500 ("Failed to get route quote: " +++ str (Python e)))
  /\ (forall quotes, fst found = Ok quotes -> quotes <> [] ->
        exists body,
          fst answer = Response body
          /\ map bridge_name (routes body) = map base.bridge_name quotes
          /\ expires_at body = now_seconds + 300)
  /\ snd answer = snd found.
Proof.
  cbv zeta. unfold get_route_quote. fold (params_of request).
  destruct (route_discovery.discover_routes engine now_lookup now_store
              (params_of request) None) as [[[|q r]|e] engine'];
    cbn [fst snd].
  - split; [intros s d H; inversion H; reflexivity|].
    split; [reflexivity|]. split; [discriminate|]. split; [congruence|reflexivity].
  - split; [discriminate|]. split; [discriminate|]. split; [discriminate|].
    split; [|reflexivity].
    intros quotes H _. inversion H; subst. eexists. split; [reflexivity|].
    cbn [routes expires_at]. split; [|reflexivity].
    rewrite map_map. reflexivity.
  - split; [intros s d H; inversion H; reflexivity|].
    split; [discriminate|]. split; [intros e' H; inversion H; reflexivity|].
    split; [discriminate|reflexivity].
Qed.

(** An engine whose only adapter declines: the answer is a 500 that
    wraps the 404. *)
Lemma route_quote_status_witness :
  fst (get_route_quote api_samples.wording samples.idle_engine 0 0
         "0123456789abcdef0123456789abcdef" 1700000000
         (api_samples.request_body "ethereum" "arbitrum"))
  = HTTPException 500
      "Failed to get route quote: 404: No routes found for ethereum -> arbitrum".
Proof.
  apply (proj1 (proj2 (route_quote_status api_samples.wording samples.idle_engine 0 0
                         "0123456789abcdef0123456789abcdef" 1700000000
                         (api_samples.request_body "ethereum" "arbitrum")))).
  vm_compute. reflexivity.
Defined.

(** X22.  The multi-hop endpoint refuses a [max_hops] outside 1..3 with a
    400 and answers every other call.  With [max_hops = 1] the answer is
    the direct search alone; with [max_hops = 3] it is the answer of
    [max_hops = 2], the two-hop search being the only one there is; and
    [include_direct] changes nothing. *)
Theorem multi_hop_endpoint (router : multi_hop_router.MultiHopRouter)
  (source_chain destination_chain token amount : string) (max_hops : Z)
  (include_direct : bool) :
  (max_hops < 1 \/ 3 < max_hops ->
   get_multi_hop_routes router source_chain destination_chain token amount max_hops
     include_direct
   = HTTPException 400 "max_hops must be between 1 and 3")
  /\ (1 <= max_hops <= 3 ->
      get_multi_hop_routes router source_chain destination_chain token amount max_hops
        include_direct
      = Response
          (multi_hop_router.find_best_route router source_chain destination_chain
             token amount max_hops (1 <? max_hops)))
  /\ (exists answer,
        get_multi_hop_routes router source_chain destination_chain token amount 1
          include_direct = Response answer
        /\ multi_hop_router.res_route_type answer = "direct"%string
        /\ multi_hop_router.alternatives answer = []
        /\ multi_hop_router.multi_hop_checked answer = None)
  /\ get_multi_hop_routes router source_chain destination_chain token amount 3
       include_direct
     = get_multi_hop_routes router source_chain destination_chain token amount 2
         include_direct
  /\ get_multi_hop_routes router source_chain destination_chain token amount max_hops
       include_direct
     = get_multi_hop_routes router source_chain destination_chain token amount max_hops
         (negb include_direct).
Proof.
  unfold get_multi_hop_routes. split; [|split; [|split; [|split]]].
  - intros H.
    assert (E : (max_hops <? 1) || (3 <? max_hops) = true).
    { apply orb_true_iff. rewrite !Z.ltb_lt. exact H. }
    rewrite E. reflexivity.
  - intros H.
    assert (E : (max_hops <? 1) || (3 <? max_hops) = false).
    { apply orb_false_iff. rewrite !Z.ltb_ge. lia. }
    rewrite E. reflexivity.
  - eexists. cbn [Z.ltb Z.compare orb]. split; [reflexivity|].
    unfold multi_hop_router.find_best_route. cbn. auto.
  - reflexivity.
  - reflexivity.
Qed.

Lemma multi_hop_endpoint_witness :
  get_multi_hop_routes (samples.router 10) "avalanche" "fantom" "USDC" "1000000" 4 true
  = HTTPException 400 "max_hops must be between 1 and 3".
Proof.
  apply (proj1 (multi_hop_endpoint (samples.router 10) "avalanche" "fantom" "USDC"
                  "1000000" 4 true)).
  right. lia.
Defined.

Module AdapterTimes.

Import Py base adapter_spec AdapterFacts.

(** A builder that returns has put in a time of the adapter's range. *)
Ltac builder_time :=
  intros;
  match goal with
  | H : _ = Ok _ |- _ => revert H
  end;
  repeat bind_ok;
  repeat match goal with
         | |- context [let '(_, _) := ?p in _] => destruct p
         end;
  repeat bind_ok;
  let H := fresh "H" in
  intros H; inversion H; subst; unfold within;
  cbn [estimated_time_seconds estimated_seconds min_seconds max_seconds]; lia.

Lemma across_parse_time (now : Z) (data : json) (rp : RouteParams) (q : BridgeQuote) :
  across._parse_across_response now data rp = Ok q -> within (across.estimate_time rp) q.
Proof. unfold across._parse_across_response, across.estimate_time. builder_time. Qed.

Lemma across_built_time (now : Z) (rp : RouteParams) (q : BridgeQuote) :
  across._generate_mock_quote now rp = Ok q -> within (across.estimate_time rp) q.
Proof. unfold across._generate_mock_quote, across.estimate_time. builder_time. Qed.

Lemma stargate_built_time (now : Z) (rp : RouteParams) (q : BridgeQuote) :
  stargate._generate_estimated_quote now rp = Ok q -> within (stargate.estimate_time rp) q.
Proof. unfold stargate._generate_estimated_quote, stargate.estimate_time. builder_time. Qed.

Lemma hop_parse_time (now : Z) (data : json) (rp : RouteParams) (q : BridgeQuote) :
  hop._parse_hop_response now data rp = Ok q -> within (hop.estimate_time rp) q.
Proof. unfold hop._parse_hop_response, hop.estimate_time. builder_time. Qed.

Lemma hop_built_time (now : Z) (rp : RouteParams) (q : BridgeQuote) :
  hop._generate_estimated_quote now rp = Ok q -> within (hop.estimate_time rp) q.
Proof. unfold hop._generate_estimated_quote, hop.estimate_time. builder_time. Qed.

Lemma synapse_parse_time (now : Z) (data : json) (rp : RouteParams) (q : BridgeQuote) :
  synapse._parse_synapse_response now data rp = Ok q -> within (synapse.estimate_time rp) q.
Proof. unfold synapse._parse_synapse_response, synapse.estimate_time. builder_time. Qed.

Lemma synapse_built_time (now : Z) (rp : RouteParams) (q : BridgeQuote) :
  synapse._generate_estimated_quote now rp = Ok q -> within (synapse.estimate_time rp) q.
Proof. unfold synapse._generate_estimated_quote, synapse.estimate_time. builder_time. Qed.

Lemma celer_parse_time (now : Z) (data : json) (rp : RouteParams) (q : BridgeQuote) :
  celer._parse_celer_response now data rp = Ok q -> within (celer.estimate_time rp) q.
Proof. unfold celer._parse_celer_response, celer.estimate_time. builder_time. Qed.

Lemma celer_built_time (now : Z) (rp : RouteParams) (q : BridgeQuote) :
  celer._generate_estimated_quote now rp = Ok q -> within (celer.estimate_time rp) q.
Proof. unfold celer._generate_estimated_quote, celer.estimate_time. builder_time. Qed.

Lemma debridge_parse_time (now : Z) (data : json) (rp : RouteParams) (q : BridgeQuote) :
  debridge._parse_debridge_response now data rp = Ok q -> within (debridge.estimate_time rp) q.
Proof. unfold debridge._parse_debridge_response, debridge.estimate_time. builder_time. Qed.

Lemma debridge_built_time (now : Z) (rp : RouteParams) (q : BridgeQuote) :
  debridge._generate_estimated_quote now rp = Ok q -> within (debridge.estimate_time rp) q.
Proof. unfold debridge._generate_estimated_quote, debridge.estimate_time. builder_time. Qed.

Lemma layerzero_built_time (now : Z) (rp : RouteParams) (q : BridgeQuote) :
  layerzero._generate_estimated_quote now rp = Ok q -> within (layerzero.estimate_time rp) q.
Proof. unfold layerzero._generate_estimated_quote, layerzero.estimate_time. builder_time. Qed.

Lemma wormhole_built_time (now : Z) (rp : RouteParams) (q : BridgeQuote) :
  wormhole._generate_estimated_quote now rp = Ok q -> within (wormhole.estimate_time rp) q.
Proof. unfold wormhole._generate_estimated_quote, wormhole.estimate_time. builder_time. Qed.

(** Orbiter's two estimates follow the same test as its two quotes. *)
Lemma orbiter_built_time (now : Z) (rp : RouteParams) (q : BridgeQuote) :
  orbiter._generate_estimated_quote now rp = Ok q -> within (orbiter.estimate_time rp) q.
Proof.
  unfold orbiter._generate_estimated_quote, orbiter.estimate_time, within. cbv zeta.
  bind_ok.
  destruct (negb (orbiter._get_chain_id (source_chain rp) =? 1)
            && negb (orbiter._get_chain_id (destination_chain rp) =? 1)).
  - cbn [bind]. bind_ok. intros G. inversion G.
    cbn [estimated_time_seconds min_seconds max_seconds]. lia.
  - bind_ok.
    match goal with
    | |- context [let '(_, _) := ?p in _] =>
        destruct p as [[[fee gas_source] gas_dest] time]
    end.
    bind_ok. intros G. inversion G. revert E0. repeat bind_ok.
    intros G'. inversion G'.
    cbn [estimated_time_seconds min_seconds max_seconds]. lia.
Qed.

Ltac by_time :=
  match goal with
  | H : across._parse_across_response _ _ _ = Ok _ |- _ => exact (across_parse_time _ _ _ _ H)
  | H : across._generate_mock_quote _ _ = Ok _ |- _ => exact (across_built_time _ _ _ H)
  | H : stargate._generate_estimated_quote _ _ = Ok _ |- _ => exact (stargate_built_time _ _ _ H)
  | H : hop._parse_hop_response _ _ _ = Ok _ |- _ => exact (hop_parse_time _ _ _ _ H)
  | H : hop._generate_estimated_quote _ _ = Ok _ |- _ => exact (hop_built_time _ _ _ H)
  | H : synapse._parse_synapse_response _ _ _ = Ok _ |- _ => exact (synapse_parse_time _ _ _ _ H)
  | H : synapse._generate_estimated_quote _ _ = Ok _ |- _ => exact (synapse_built_time _ _ _ H)
  | H : celer._parse_celer_response _ _ _ = Ok _ |- _ => exact (celer_parse_time _ _ _ _ H)
  | H : celer._generate_estimated_quote _ _ = Ok _ |- _ => exact (celer_built_time _ _ _ H)
  | H : debridge._parse_debridge_response _ _ _ = Ok _ |- _ => exact (debridge_parse_time _ _ _ _ H)
  | H : debridge._generate_estimated_quote _ _ = Ok _ |- _ => exact (debridge_built_time _ _ _ H)
  | H : layerzero._generate_estimated_quote _ _ = Ok _ |- _ => exact (layerzero_built_time _ _ _ H)
  | H : wormhole._generate_estimated_quote _ _ = Ok _ |- _ => exact (wormhole_built_time _ _ _ H)
  | H : orbiter._generate_estimated_quote _ _ = Ok _ |- _ => exact (orbiter_built_time _ _ _ H)
  end.

Ltac get_quote_time :=
  intros;
  match goal with
  | H : _ = Some _ |- _ => revert H
  end;
  repeat match goal with
         | |- context [if ?c then _ else _] => destruct c
         | |- context [match ?o with Some _ => _ | None => _ end] =>
             destruct o
         | |- context [match ?r with Ok _ => _ | Raise _ => _ end] =>
             let E := fresh "E" in destruct r eqn:E
         end;
  let H := fresh "H" in
  intros H;
  try discriminate;
  try (apply to_option_some in H);
  try (inversion H; subst);
  by_time.

Lemma across_quote_time (api : option json) (now : Z) (rp : RouteParams) (q : BridgeQuote) :
  across.get_quote api now rp = Some q -> within (across.estimate_time rp) q.
Proof. unfold across.get_quote. get_quote_time. Qed.

Lemma stargate_quote_time (now : Z) (rp : RouteParams) (q : BridgeQuote) :
  stargate.get_quote now rp = Some q -> within (stargate.estimate_time rp) q.
Proof. unfold stargate.get_quote. get_quote_time. Qed.

Lemma hop_quote_time (api : option json) (now : Z) (rp : RouteParams) (q : BridgeQuote) :
  hop.get_quote api now rp = Some q -> within (hop.estimate_time rp) q.
Proof. unfold hop.get_quote. get_quote_time. Qed.

Lemma synapse_quote_time (api : option json) (now : Z) (rp : RouteParams) (q : BridgeQuote) :
  synapse.get_quote api now rp = Some q -> within (synapse.estimate_time rp) q.
Proof. unfold synapse.get_quote. get_quote_time. Qed.

Lemma celer_quote_time (api : option json) (now : Z) (rp : RouteParams) (q : BridgeQuote) :
  celer.get_quote api now rp = Some q -> within (celer.estimate_time rp) q.
Proof. unfold celer.get_quote. get_quote_time. Qed.

Lemma orbiter_quote_time (now : Z) (rp : RouteParams) (q : BridgeQuote) :
  orbiter.get_quote now rp = Some q -> within (orbiter.estimate_time rp) q.
Proof. unfold orbiter.get_quote. get_quote_time. Qed.

Lemma debridge_quote_time (api : option json) (now : Z) (rp : RouteParams) (q : BridgeQuote) :
  debridge.get_quote api now rp = Some q -> within (debridge.estimate_time rp) q.
Proof. unfold debridge.get_quote. get_quote_time. Qed.

Lemma layerzero_quote_time (now : Z) (rp : RouteParams) (q : BridgeQuote) :
  layerzero.get_quote now rp = Some q -> within (layerzero.estimate_time rp) q.
Proof. unfold layerzero.get_quote. get_quote_time. Qed.

Lemma wormhole_quote_time (now : Z) (rp : RouteParams) (q : BridgeQuote) :
  wormhole.get_quote now rp = Some q -> within (wormhole.estimate_time rp) q.
Proof. unfold wormhole.get_quote. get_quote_time. Qed.

(** The chain table of an adapter and its list of supported chains agree:
    a name the table knows has a supported chain id. *)
Ltac known_chain getid :=
  intros name; unfold getid, dict_get; cbn [dict_lookup];
  repeat match goal with
         | |- context [if String.eqb ?a ?b then _ else _] => destruct (String.eqb a b)
         end;
  first [left; reflexivity | right; reflexivity].

Lemma across_known (name : string) :
  across._get_chain_id name = 0
  \/ contains across.supported_chains (across._get_chain_id name) = true.
Proof. revert name. known_chain across._get_chain_id. Qed.

Lemma stargate_known (name : string) :
  stargate._get_chain_id name = 0
  \/ contains stargate.supported_chains (stargate._get_chain_id name) = true.
Proof. revert name. known_chain stargate._get_chain_id. Qed.

Lemma hop_known (name : string) :
  hop._get_chain_id name = 0
  \/ contains hop.supported_chains (hop._get_chain_id name) = true.
Proof. revert name. known_chain hop._get_chain_id. Qed.

Lemma synapse_known (name : string) :
  synapse._get_chain_id name = 0
  \/ contains synapse.supported_chains (synapse._get_chain_id name) = true.
Proof. revert name. known_chain synapse._get_chain_id. Qed.

Lemma celer_known (name : string) :
  celer._get_chain_id name = 0
  \/ contains celer.supported_chains (celer._get_chain_id name) = true.
Proof. revert name. known_chain celer._get_chain_id. Qed.

Lemma orbiter_known (name : string) :
  orbiter._get_chain_id name = 0
  \/ contains orbiter.supported_chains (orbiter._get_chain_id name) = true.
Proof. revert name. known_chain orbiter._get_chain_id. Qed.

Lemma debridge_known (name : string) :
  debridge._get_chain_id name = 0
  \/ contains debridge.supported_chains (debridge._get_chain_id name) = true.
Proof. revert name. known_chain debridge._get_chain_id. Qed.

Lemma layerzero_known (name : string) :
  layerzero._get_chain_id name = 0
  \/ contains layerzero.supported_chains (layerzero._get_chain_id name) = true.
Proof. revert name. known_chain layerzero._get_chain_id. Qed.

Lemma wormhole_known (name : string) :
  wormhole._get_chain_id name = 0
  \/ contains wormhole.supported_chains (wormhole._get_chain_id name) = true.
Proof. revert name. known_chain wormhole._get_chain_id. Qed.

Lemma supports_known (l : list Z) (s d : Z) :
  (s = 0 \/ contains l s = true) -> (d = 0 \/ contains l d = true) ->
  contains l 0 = false ->
  (supports_route l s d = true <-> s <> 0 /\ d <> 0 /\ s <> d).
Proof.
  intros Hs Hd H0. unfold supports_route.
  rewrite !andb_true_iff, negb_true_iff, Z.eqb_neq. split.
  - intros [[H1 H2] H3]. repeat split; try assumption; intros E; subst; congruence.
  - intros (H1 & H2 & H3). destruct Hs as [Hs|Hs]; [contradiction|].
    destruct Hd as [Hd|Hd]; [contradiction|]. auto.
Qed.

End AdapterTimes.

Import Py base adapter_spec.

(** X23.  The time of every quote lies in the range the adapter's own
    [estimate_time] gives for the same route, and every estimate is
    ordered: [0 < min_seconds <= estimated_seconds <= max_seconds]. *)
Theorem quote_time_within_estimate :
  (forall api now rp q,
        across.get_quote api now rp = Some q -> within (across.estimate_time rp) q)
  /\ (forall now rp q,
        stargate.get_quote now rp = Some q -> within (stargate.estimate_time rp) q)
  /\ (forall api now rp q,
        hop.get_quote api now rp = Some q -> within (hop.estimate_time rp) q)
  /\ (forall api now rp q,
        synapse.get_quote api now rp = Some q -> within (synapse.estimate_time rp) q)
  /\ (forall api now rp q,
        celer.get_quote api now rp = Some q -> within (celer.estimate_time rp) q)
  /\ (forall now rp q,
        orbiter.get_quote now rp = Some q -> within (orbiter.estimate_time rp) q)
  /\ (forall api now rp q,
        debridge.get_quote api now rp = Some q -> within (debridge.estimate_time rp) q)
  /\ (forall now rp q,
        layerzero.get_quote now rp = Some q -> within (layerzero.estimate_time rp) q)
  /\ (forall now rp q,
        wormhole.get_quote now rp = Some q -> within (wormhole.estimate_time rp) q)
  /\ (forall rp,
        well_ordered (across.estimate_time rp) /\ well_ordered (stargate.estimate_time rp)
        /\ well_ordered (hop.estimate_time rp) /\ well_ordered (synapse.estimate_time rp)
        /\ well_ordered (celer.estimate_time rp) /\ well_ordered (orbiter.estimate_time rp)
        /\ well_ordered (debridge.estimate_time rp)
        /\ well_ordered (layerzero.estimate_time rp)
        /\ well_ordered (wormhole.estimate_time rp)).
Proof.
  split; [exact AdapterTimes.across_quote_time|].
  split; [exact AdapterTimes.stargate_quote_time|].
  split; [exact AdapterTimes.hop_quote_time|].
  split; [exact AdapterTimes.synapse_quote_time|].
  split; [exact AdapterTimes.celer_quote_time|].
  split; [exact AdapterTimes.orbiter_quote_time|].
  split; [exact AdapterTimes.debridge_quote_time|].
  split; [exact AdapterTimes.layerzero_quote_time|].
  split; [exact AdapterTimes.wormhole_quote_time|].
  intros rp. unfold well_ordered, orbiter.estimate_time. cbv zeta.
  destruct (negb (orbiter._get_chain_id (source_chain rp) =? 1)
            && negb (orbiter._get_chain_id (destination_chain rp) =? 1));
    cbn; lia.
Qed.

(** Hop's estimate without its API: 420 seconds, in 300..600. *)
Lemma quote_time_within_estimate_witness :
  exists q,
    hop.get_quote None 1700000000
      (samples.usdc_request "0xA0b86991c6218b36c1d19D4a2e9Eb0cE3606eB48") = Some q
    /\ estimated_time_seconds q = 420
    /\ within (hop.estimate_time
                 (samples.usdc_request "0xA0b86991c6218b36c1d19D4a2e9Eb0cE3606eB48")) q.
Proof.
  eexists. split; [vm_compute; reflexivity|]. split; [reflexivity|].
  apply (proj1 (proj2 (proj2 quote_time_within_estimate)) None 1700000000).
  vm_compute. reflexivity.
Defined.

(** X24.  For every adapter the table of chain names and the list of
    supported chains agree: a route is supported exactly when the adapter
    knows both chain names and they name two different chains. *)
Theorem adapters_support_known_routes :
  (forall s d,
        supports_route across.supported_chains (across._get_chain_id s) (across._get_chain_id d)
        = true
        <-> across._get_chain_id s <> 0 /\ across._get_chain_id d <> 0
            /\ across._get_chain_id s <> across._get_chain_id d)
  /\ (forall s d,
        supports_route stargate.supported_chains (stargate._get_chain_id s) (stargate._get_chain_id d)
        = true
        <-> stargate._get_chain_id s <> 0 /\ stargate._get_chain_id d <> 0
            /\ stargate._get_chain_id s <> stargate._get_chain_id d)
  /\ (forall s d,
        supports_route hop.supported_chains (hop._get_chain_id s) (hop._get_chain_id d)
        = true
        <-> hop._get_chain_id s <> 0 /\ hop._get_chain_id d <> 0
            /\ hop._get_chain_id s <> hop._get_chain_id d)
  /\ (forall s d,
        supports_route synapse.supported_chains (synapse._get_chain_id s) (synapse._get_chain_id d)
        = true
        <-> synapse._get_chain_id s <> 0 /\ synapse._get_chain_id d <> 0
            /\ synapse._get_chain_id s <> synapse._get_chain_id d)
  /\ (forall s d,
        supports_route celer.supported_chains (celer._get_chain_id s) (celer._get_chain_id d)
        = true
        <-> celer._get_chain_id s <> 0 /\ celer._get_chain_id d <> 0
            /\ celer._get_chain_id s <> celer._get_chain_id d)
  /\ (forall s d,
        supports_route orbiter.supported_chains (orbiter._get_chain_id s) (orbiter._get_chain_id d)
        = true
        <-> orbiter._get_chain_id s <> 0 /\ orbiter._get_chain_id d <> 0
            /\ orbiter._get_chain_id s <> orbiter._get_chain_id d)
  /\ (forall s d,
        supports_route debridge.supported_chains (debridge._get_chain_id s) (debridge._get_chain_id d)
        = true
        <-> debridge._get_chain_id s <> 0 /\ debridge._get_chain_id d <> 0
            /\ debridge._get_chain_id s <> debridge._get_chain_id d)
  /\ (forall s d,
        supports_route layerzero.supported_chains (layerzero._get_chain_id s) (layerzero._get_chain_id d)
        = true
        <-> layerzero._get_chain_id s <> 0 /\ layerzero._get_chain_id d <> 0
            /\ layerzero._get_chain_id s <> layerzero._get_chain_id d)
  /\ (forall s d,
        supports_route wormhole.supported_chains (wormhole._get_chain_id s) (wormhole._get_chain_id d)
        = true
        <-> wormhole._get_chain_id s <> 0 /\ wormhole._get_chain_id d <> 0
            /\ wormhole._get_chain_id s <> wormhole._get_chain_id d).
Proof.
  split; [intros s d; apply AdapterTimes.supports_known;
      [apply AdapterTimes.across_known|apply AdapterTimes.across_known|reflexivity]|].
  split; [intros s d; apply AdapterTimes.supports_known;
      [apply AdapterTimes.stargate_known|apply AdapterTimes.stargate_known|reflexivity]|].
  split; [intros s d; apply AdapterTimes.supports_known;
      [apply AdapterTimes.hop_known|apply AdapterTimes.hop_known|reflexivity]|].
  split; [intros s d; apply AdapterTimes.supports_known;
      [apply AdapterTimes.synapse_known|apply AdapterTimes.synapse_known|reflexivity]|].
  split; [intros s d; apply AdapterTimes.supports_known;
      [apply AdapterTimes.celer_known|apply AdapterTimes.celer_known|reflexivity]|].
  split; [intros s d; apply AdapterTimes.supports_known;
      [apply AdapterTimes.orbiter_known|apply AdapterTimes.orbiter_known|reflexivity]|].
  split; [intros s d; apply AdapterTimes.supports_known;
      [apply AdapterTimes.debridge_known|apply AdapterTimes.debridge_known|reflexivity]|].
  split; [intros s d; apply AdapterTimes.supports_known;
      [apply AdapterTimes.layerzero_known|apply AdapterTimes.layerzero_known|reflexivity]|].
  intros s d; apply AdapterTimes.supports_known;
      [apply AdapterTimes.wormhole_known|apply AdapterTimes.wormhole_known|reflexivity].
Qed.

Module LookupFacts.

Import Py base route_discovery.

Lemma lower_char_idem (c : ascii) : lower_char (lower_char c) = lower_char c.
Proof. destruct c as [[] [] [] [] [] [] [] []]; reflexivity. Qed.

Lemma lower_idem (s : string) : lower (lower s) = lower s.
Proof.
  induction s as [|c s IH]; [reflexivity|].
  cbn [lower]. rewrite lower_char_idem, IH. reflexivity.
Qed.

Lemma by_name_same_lower (bs : list BaseBridge) (a b : string) :
  lower a = lower b -> get_bridge_by_name bs a = get_bridge_by_name bs b.
Proof.
  intros E. induction bs as [|x r IH]; [reflexivity|].
  cbn [get_bridge_by_name]. rewrite E, IH. reflexivity.
Qed.

Lemma by_name_none (bs : list BaseBridge) (q : string) :
  get_bridge_by_name bs q = None
  <-> Forall (fun x => lower (name x) <> lower q) bs.
Proof.
  induction bs as [|x r IH]; cbn [get_bridge_by_name].
  - split; [constructor|reflexivity].
  - destruct (String.eqb (lower (name x)) (lower q)) eqn:E.
    + apply String.eqb_eq in E. split; [discriminate|].
      intros F. inversion F. contradiction.
    + apply String.eqb_neq in E. rewrite IH. split.
      * intros F. constructor; assumption.
      * intros F. inversion F. assumption.
Qed.

Lemma by_name_some (bs : list BaseBridge) (q : string) (b : BaseBridge) :
  get_bridge_by_name bs q = Some b
  <-> exists before after,
        bs = before ++ b :: after
        /\ lower (name b) = lower q
        /\ Forall (fun x => lower (name x) <> lower q) before.
Proof.
  induction bs as [|x r IH]; cbn [get_bridge_by_name].
  - split; [discriminate|].
    intros (before & after & E & _). destruct before; discriminate.
  - destruct (String.eqb (lower (name x)) (lower q)) eqn:E.
    + apply String.eqb_eq in E. split.
      * intros G. inversion G. subst. exists [], r. repeat split.
        -- assumption.
        -- constructor.
      * intros (before & after & G & _ & F). destruct before as [|y before].
        -- cbn in G. inversion G. reflexivity.
        -- cbn in G. inversion G. subst. inversion F. contradiction.
    + apply String.eqb_neq in E. rewrite IH. split.
      * intros (before & after & G & N & F). exists (x :: before), after.
        subst. repeat split; [assumption|]. constructor; assumption.
      * intros (before & after & G & N & F). destruct before as [|y before].
        -- cbn in G. inversion G. subst. contradiction.
        -- cbn in G. inversion G. subst. inversion F. subst.
           exists before, after. repeat split; assumption.
Qed.

(** The chain tables of Across and Stargate, read both ways. *)
Ltac name_of_id :=
  intros name; unfold dict_get; cbn [dict_lookup];
  repeat match goal with
         | |- context [if String.eqb ?a ?b then _ else _] =>
             let E := fresh "E" in
             destruct (String.eqb a b) eqn:E;
             [apply String.eqb_eq in E; rewrite E; intros _; reflexivity|]
         end;
  intros H; contradiction H; reflexivity.

Lemma across_name_of_id (name : string) :
  across._get_chain_id name <> 0 ->
  across._get_chain_name (across._get_chain_id name) = lower name.
Proof. revert name. unfold across._get_chain_id. name_of_id. Qed.

Lemma stargate_name_of_id (name : string) :
  stargate._get_chain_id name <> 0 ->
  stargate._get_chain_name (stargate._get_chain_id name) = lower name.
Proof. revert name. unfold stargate._get_chain_id. name_of_id. Qed.

Ltac id_of_name :=
  intros chain_id; unfold contains; cbn [existsb zdict_get];
  repeat match goal with
         | |- context [if (?a =? ?b) then _ else _] =>
             let E := fresh "E" in
             destruct (a =? b) eqn:E;
             [apply Z.eqb_eq in E; rewrite E; reflexivity|]
         end;
  reflexivity.

Lemma across_id_of_name (chain_id : Z) :
  across._get_chain_id (across._get_chain_name chain_id)
  = if contains across.supported_chains chain_id then chain_id else 0.
Proof.
  revert chain_id.
  unfold across._get_chain_name, across.supported_chains. id_of_name.
Qed.

Lemma stargate_id_of_name (chain_id : Z) :
  stargate._get_chain_id (stargate._get_chain_name chain_id)
  = if contains stargate.supported_chains chain_id then chain_id else 0.
Proof.
  revert chain_id.
  unfold stargate._get_chain_name, stargate.supported_chains. id_of_name.
Qed.

End LookupFacts.

Import Py base route_discovery.

(** X25.  [get_bridge_by_name] returns the first adapter whose name is
    the asked one up to letter case, and [None] exactly when no adapter
    has that name; the letter case of the asked name does not matter. *)
Theorem get_bridge_by_name_first (bs : list BaseBridge) (bridge_name : string) :
  (forall b,
      get_bridge_by_name bs bridge_name = Some b
      <-> exists before after,
            bs = before ++ b :: after
            /\ lower (name b) = lower bridge_name
            /\ Forall (fun x => lower (name x) <> lower bridge_name) before)
  /\ (get_bridge_by_name bs bridge_name = None
      <-> Forall (fun x => lower (name x) <> lower bridge_name) bs)
  /\ get_bridge_by_name bs (lower bridge_name) = get_bridge_by_name bs bridge_name.
Proof.
  split; [intros b; apply LookupFacts.by_name_some|].
  split; [apply LookupFacts.by_name_none|].
  apply LookupFacts.by_name_same_lower, LookupFacts.lower_idem.
Qed.

(** X26.  The two chain tables of Across and of Stargate are inverse to
    each other: a chain name the adapter knows comes back in lower case
    from its id, a supported id comes back from its name, and the name
    made up for any other id ("chain_<id>") is not a name the adapter
    knows (id 0). *)
Theorem chain_names_round_trip :
  (forall name,
      across._get_chain_id name <> 0 ->
      across._get_chain_name (across._get_chain_id name) = lower name)
  /\ (forall chain_id,
         across._get_chain_id (across._get_chain_name chain_id)
         = if contains across.supported_chains chain_id then chain_id else 0)
  /\ (forall name,
         stargate._get_chain_id name <> 0 ->
         stargate._get_chain_name (stargate._get_chain_id name) = lower name)
  /\ (forall chain_id,
         stargate._get_chain_id (stargate._get_chain_name chain_id)
         = if contains stargate.supported_chains chain_id then chain_id else 0).
Proof.
  split; [exact LookupFacts.across_name_of_id|].
  split; [exact LookupFacts.across_id_of_name|].
  split; [exact LookupFacts.stargate_name_of_id|].
  exact LookupFacts.stargate_id_of_name.
Qed.

(** "Arbitrum" is chain 42161 for Across, and 42161 is "arbitrum". *)
Lemma chain_names_round_trip_witness :
  across._get_chain_id "Arbitrum" = 42161
  /\ across._get_chain_name (across._get_chain_id "Arbitrum") = "arbitrum"%string.
Proof.
  split; [reflexivity|].
  apply (proj1 chain_names_round_trip "Arbitrum"%string). vm_compute. discriminate.
Defined.
